(* ===== verification/_CoqProject ===== *)
-Q . S2P
Prelude.v
PyDict.v
PyNum.v
FloatLaws.v
Engine.v
PyEngine.v
DictSpec.v
Temperature.v
Length.v
Speed.v
Weight.v
Volume.v
Area.v
Converters.v
