(* ===== verification/Prelude.v ===== *)
(** * Verification of the unit converter tables ([src/Converters.py])

    ** The program

    [src/Converters.py] binds six module-level names, one per physical
    quantity: [Temperature], [Length], [Weight], [Volume], [Area] and
    [Speed].  Each is [Converter({...})]: a Python dict display that maps a
    unit name to a pair [(scale, offset)] of numeric expressions, handed to
    the class [Converter] of [base_class.py].  The pair means
    [value_in_unit = value_in_base * scale + offset].  [base_class.py] is not
    among the sources; its behaviour is taken from the specification
    ([spec.md], sections 3 to 5): [convert(value, from, to)] looks both names
    up, computes [base = (value - offset_from) / scale_from] and returns
    [base * scale_to + offset_to]; an absent name is the error [UnknownUnit]
    naming the offending name(s); two queries tell whether a name is known
    and list the names.

    ** The files, in dependency order

    - [Prelude] (this file): the result type with its bind notation, the
      tactics and the hint database [conv] the other files share, and generic
      lemmas on results, [mapM], [forallb] and duplicate-free lists.
    - [PyDict]: Python's insertion-ordered dict restricted to what a dict
      display and a lookup do ([dict_set], [dict_of_items], [dict_get],
      [dict_mem], [dict_keys]), with the invariant that keys are distinct.
    - [PyNum]: the numeric expressions of the tables ([pyexpr]: integer
      literals, decimal float literals, unary minus, [*] and [/]), written
      with a number notation so that a table reads as in the source; their
      evaluation by Python's rules ([eval]: exact integers, binary64 floats
      rounded to nearest even, [ZeroDivisionError], [OverflowError]), with
      the four operations on Python values ([py_add], [py_sub], [py_mul],
      [py_truediv]); and their exact rational value ([exact]).  Floats are Rocq's primitive
      binary64 floats; a decimal literal is rounded by [float_of_decimal],
      which runs the IEEE division of [SpecFloat] on the integer numerator
      and power of ten.
    - [FloatLaws]: the laws of binary64 arithmetic the engine relies on at a
      base unit, for every float: [x - 0 = x], [x / 1 = x], [x * 1 = x],
      [x + 0 = x] unless [x] is the negative zero; a NaN operand gives a
      NaN; an operation makes no NaN out of a number and a finite operand
      (a finite nonzero one for the product and the quotient); rounding
      does not look at the sign, so that the product and the quotient
      commute with negation and keep a value that is not below zero so.
    - [Engine]: the conversion engine, generic in the number type through the
      class [Num] (instances: primitive floats, the program's arithmetic, and
      [Q], its exact specification): [Converter], [new], [convert],
      [hasUnit], [listUnits], the error [UnknownUnit], and [Converter_of],
      the expression [Converter({...})].  It states the interfaces a table
      may meet ([ExactTable]: a base unit [(1, 0)] and nonzero scales;
      [OffsetFree]: every offset zero), proves the engine's theorems against
      them, and gives the boolean checkers with which a table file
      discharges a property of all its entries by one computation
      ([exact_tableb], [synonymsb], [relationb], [dimensionb], [reversedb],
      [accurate_display], [safe_tableb], ...), each with its soundness
      lemma.  A relation that a comment states is recorded with a verdict
      ([verdictb], [near_verdictb]): the soundness lemma is then an
      equivalence, and a relation that the coefficients do not meet is
      reported by the same theorem that proves the others.
    - [PyEngine]: the engine over Python values ([Converter_py],
      [py_convert]): the coefficients stay ints or floats as the source
      writes them and the formula is run by [py_sub], [py_truediv], [py_mul]
      and [py_add]; the error type [pyexn] adds Python's arithmetic errors
      to [UnknownUnit].
    - [DictSpec]: the contract of the dict and of the engine over a finite
      map (stdpp's [gmap string]): the abstraction function [dict_abs], and
      [convert_spec], the conversion written over the map.
    - [Temperature], [Length], [Speed], [Weight], [Volume], [Area]: the
      tables of lines 27-91, 94-343, 825-983, 347-470, 474-691 and 695-821,
      entry for entry and comment for comment, one definition per commented
      section of the source; the float engine and the exact engine built
      from each; and the theorems particular to the table.
    - [Converters]: the module as a whole: the list of its six bindings, the
      class [Loaded] that each binding discharges, and the theorems that hold
      of every table, proved once.

    ** Correspondence with the code

    A table entry ["km": (0.001, 0)] is the Rocq term [("km", (0.001, 0))] in
    scope [py_scope]: [0.001] is [Flt 1 (-3)], the decimal literal itself, and
    [0] is [Int 0], a Python int; ["lb": (1 / 0.45359237, 0)] keeps its
    quotient, which Python evaluates when the module is loaded.
    [Temperature = Converter({...})] is [Temperature], the engine that
    [Converter_float Temperature_items] evaluates to: the entries are
    evaluated left to right by [eval_float] and stored by [dict_of_items].
    The value converted is a float; the coefficients, ints or floats in the
    source, enter the arithmetic as floats, which is what Python's mixed
    arithmetic does with them: [PyEngine] runs the formula on the Python
    values and [py_convert_float] proves that, on a float value, it is the
    float engine.  On an int value Python's int arithmetic comes first, and
    the two differ beyond [2^53] ([Converters_python_int]).
    Unit names are Python [str] values; they are modelled as the byte strings
    of their UTF-8 encoding, which is injective, so that equality of names is
    preserved.  [Temperature_exact] is the same display read over [Q]: the
    specification the float engine is compared with.

    ** What the theorems show

    - [PyDict]: [dict_set] and [dict_of_items] keep keys distinct; a display
      with distinct keys is stored unchanged, in source order.
    - [PyNum]: integer-valued expressions evaluate exactly; the exact value
      exists whenever no divisor is zero; sample literals round as Rocq's own
      float reader rounds them.
    - [FloatLaws]: the identities and the NaN laws above, from the
      executable specification of the float operations and the axioms of
      the standard library that relate the primitive operations to it.
    - [Engine]: the result of [convert] on every branch (both names known,
      one or both unknown); names with equal entries convert alike; over
      [Q], under [ExactTable]: conversion there and back is the identity,
      conversions compose, [convert] is injective and monotone according to
      the signs of the scales, and affine in the coefficients; under
      [OffsetFree] it is linear; on floats: identity through a unit with
      coefficients [(1, 0)]; under [safe_tableb] (finite coefficients,
      nonzero scales) the result is a NaN exactly when the value is, and no
      division is by zero; with offsets that are the positive zero the
      conversion is odd, and with positive scales it keeps a value that is
      not below zero so.
    - [PyEngine]: on a float value and a table that meets [safe_tableb],
      [py_convert] returns what [convert] returns on the float table, and
      raises no arithmetic error.
    - [DictSpec]: the list refines the map: [dict_get] is its lookup,
      [dict_set] its insertion, a display is the map of its entries in which
      the last one written under a name wins, the keys are its domain; and
      [convert] is [convert_spec] on the map of the table, so that it does
      not depend on the order of the entries.
    - tables: the scenarios of the specification evaluate to the stated
      floats, bit for bit; every relation between two units that a comment
      of [Volume] or [Area] states is decided, with the nine that the
      coefficients contradict; the relations of [Weight] and [Length] that
      are written through one metric value hold exactly, and those around
      the inch, the foot and the acre do not; the prefixed metres are the
      powers of ten of their prefixes; the units of [Speed] per minute,
      hour, day and year are those per second divided by the seconds, but
      for two rows; the cubic and square metric units are the cubes and
      squares of the lengths; the kelvin and its prefixes are multiples of
      one another; the scales of [Speed] are written in the orientation
      opposite to the engine's; the SI prefixes of the gram and the litre
      are the powers of ten their names say.
    - [Converters]: for each of the six tables: loading raises nothing and
      keeps every name; identity through the base unit for every float;
      there and back, composition and the affine reading over [Q]; linearity
      and strict monotonicity of the five tables without offsets; synonyms;
      the accuracy of every float coefficient against its exact value; a
      NaN result only from a NaN value; no division by zero; on floats, in
      the five tables without offsets, oddness and the sign of the result;
      the float engine as the refinement of Python's arithmetic on the
      table as written.

    ** Bounds

    No definition needs fuel: every function is structurally recursive or a
    composition of total functions.  Floats are binary64 ([prec = 53],
    [emax = 1024]), the format of Python's [float].  The exact laws are
    stated over [Q] and do not hold of floats in general: the files state
    where they fail ([Temperature_float_round_trip_fails],
    [Length_inch_foot], [Length_imperial_inconsistent]).  The relations of
    [Speed] between a unit per time and the unit per second are stated up
    to a relative error of [10^-15], the precision to which the source
    writes the quotients.

    ** Not modelled

    [base_class.py] is outside the sources and is modelled from the
    specification.  The graphical interface named by the repository is not
    in the sources.  The module docstring is documentation; the value of its
    example is proved for the float and for the int.  No bound is proved on
    the rounding error of a float conversion for arbitrary values, and the
    monotonicity of a conversion is proved over [Q] only.  For int values
    the Python engine is run on examples; its agreement with the float
    engine below [2^53] is not proved in general. *)

From Stdlib Require Import List String Bool ZArith Lia.
Import ListNotations.

Set Implicit Arguments.

(** ** Results: a value or an error *)

Definition result (E A : Type) : Type := (E + A)%type.

Definition ok {E A : Type} (a : A) : result E A := inr a.
Definition raise {E A : Type} (e : E) : result E A := inl e.

Definition bind {E A B : Type} (c : result E A) (k : A -> result E B) : result E B :=
  match c with
  | inl e => inl e
  | inr a => k a
  end.

Declare Scope res_scope.
Delimit Scope res_scope with res.
Notation "x <- c ;; k" := (bind c (fun x => k))
  (at level 62, c at next level, right associativity) : res_scope.

Definition is_ok {E A : Type} (r : result E A) : bool :=
  match r with
  | inr _ => true
  | inl _ => false
  end.

(** The value of a result that is known to be a success. *)
Definition get_ok {E A : Type} (r : result E A) : is_ok r = true -> A :=
  match r as r0 return is_ok r0 = true -> A with
  | inr a => fun _ => a
  | inl _ => fun H => match Bool.diff_false_true H with end
  end.

Local Open Scope res_scope.

(** [mapM f l] applies [f] from left to right and stops at the first error. *)
Fixpoint mapM {E A B : Type} (f : A -> result E B) (l : list A) : result E (list B) :=
  match l with
  | [] => ok []
  | a :: l' => b <- f a ;; bs <- mapM f l' ;; ok (b :: bs)
  end.

(** ** Tactics *)

(** [inv H]: inversion that clears the hypothesis and substitutes. *)
Ltac inv H := inversion H; subst; clear H.

(** [case_scrutinee]: case analysis on the scrutinee of the first [match] of
    the goal, remembering the equation. *)
Ltac case_scrutinee :=
  match goal with
  | |- context [match ?x with _ => _ end] =>
      let E := fresh "E" in destruct x eqn:E
  end.

(** [res_inv]: break hypotheses that say a bind or a constructor succeeded. *)
Ltac res_inv :=
  repeat match goal with
  | H : inl _ = inl _ |- _ => inv H
  | H : inr _ = inr _ |- _ => inv H
  | H : ok _ = inr _ |- _ => unfold ok in H
  | H : raise _ = inr _ |- _ => discriminate H
  | H : inl _ = inr _ |- _ => discriminate H
  | H : inr _ = inl _ |- _ => discriminate H
  | H : Some _ = Some _ |- _ => inv H
  | H : Some _ = None |- _ => discriminate H
  | H : None = Some _ |- _ => discriminate H
  end.

Create HintDb conv discriminated.
Create Rewrite HintDb conv.

(** ** Lemmas on results *)

Section Results.
Context {E A B : Type}.

Lemma bind_ok (a : A) (k : A -> result E B) : bind (ok a) k = k a.
Proof. reflexivity. Qed.

Lemma bind_raise (e : E) (k : A -> result E B) : bind (raise e) k = raise e.
Proof. reflexivity. Qed.

Lemma bind_inr (c : result E A) (k : A -> result E B) (b : B) :
  bind c k = inr b <-> exists a, c = inr a /\ k a = inr b.
Proof.
  destruct c as [e|a]; simpl; split.
  - discriminate.
  - intros (a & Ha & _). discriminate.
  - eauto.
  - intros (a' & Ha & Hk). now inv Ha.
Qed.

Lemma bind_inl (c : result E A) (k : A -> result E B) (e : E) :
  bind c k = inl e <-> c = inl e \/ exists a, c = inr a /\ k a = inl e.
Proof.
  destruct c as [e'|a]; simpl; split.
  - intros H. left. now inv H.
  - intros [H | (a & Ha & _)]; [now inv H | discriminate].
  - eauto.
  - intros [H | (a' & Ha & Hk)]; [discriminate | now inv Ha].
Qed.

Lemma is_ok_inr (r : result E A) : is_ok r = true <-> exists a, r = inr a.
Proof.
  destruct r; simpl; split; eauto; try discriminate.
  intros (a' & H). discriminate.
Qed.

Lemma get_ok_inr (r : result E A) (H : is_ok r = true) : r = inr (get_ok r H).
Proof. destruct r; simpl in *; [discriminate | reflexivity]. Qed.

Lemma get_ok_eq (r : result E A) (H : is_ok r = true) (a : A) :
  r = inr a -> get_ok r H = a.
Proof. intros ->. reflexivity. Qed.
End Results.

#[export] Hint Rewrite @bind_ok @bind_raise : conv.

(** ** Lemmas on [mapM] *)

Section MapM.
Context {E A B : Type} (f : A -> result E B).

Lemma mapM_cons_inr (a : A) (l : list A) (bs : list B) :
  mapM f (a :: l) = inr bs <->
  exists b bs', f a = inr b /\ mapM f l = inr bs' /\ bs = b :: bs'.
Proof.
  simpl. rewrite bind_inr. split.
  - intros (b & Hb & H). apply bind_inr in H as (bs' & Hbs & H).
    inv H. eauto.
  - intros (b & bs' & Hb & Hbs & ->). exists b. split; [assumption|].
    now rewrite Hbs.
Qed.

(** A successful [mapM] relates the lists pointwise. *)
Lemma mapM_Forall2 (l : list A) (bs : list B) :
  mapM f l = inr bs <-> Forall2 (fun a b => f a = inr b) l bs.
Proof.
  revert bs. induction l as [|a l IH]; intros bs.
  - simpl. split; intros H; [inv H; constructor | now inv H].
  - rewrite mapM_cons_inr. split.
    + intros (b & bs' & Hb & Hbs & ->). constructor; [assumption | now apply IH].
    + intros H. inversion H as [|a' b l' bs' Hab Hl]; subst.
      exists b, bs'. split; [assumption|]. split; [now apply IH | reflexivity].
Qed.

Lemma mapM_length (l : list A) (bs : list B) :
  mapM f l = inr bs -> List.length bs = List.length l.
Proof. rewrite mapM_Forall2. intros H. symmetry. eapply Forall2_length, H. Qed.

(** [mapM] succeeds exactly when [f] succeeds on every element. *)
Lemma mapM_is_ok (l : list A) :
  is_ok (mapM f l) = forallb (fun a => is_ok (f a)) l.
Proof.
  induction l as [|a l IH]; [reflexivity|]. simpl.
  destruct (f a); simpl; [reflexivity|].
  rewrite <- IH. now destruct (mapM f l).
Qed.

Lemma mapM_In (l : list A) (bs : list B) (a : A) :
  mapM f l = inr bs -> In a l -> exists b, f a = inr b /\ In b bs.
Proof.
  rewrite mapM_Forall2. induction 1 as [|a' b l' bs' Hab _ IH]; intros Hin.
  - destruct Hin.
  - destruct Hin as [->|Hin].
    + exists b. split; [assumption | now left].
    + destruct (IH Hin) as (b' & Hb' & Hin'). exists b'. split; [assumption | now right].
Qed.
Lemma mapM_In_inv (l : list A) (bs : list B) (b : B) :
  mapM f l = inr bs -> In b bs -> exists a, f a = inr b /\ In a l.
Proof.
  rewrite mapM_Forall2. induction 1 as [|a b' l' bs' Hab _ IH]; intros Hin.
  - destruct Hin.
  - destruct Hin as [->|Hin].
    + exists a. split; [assumption | now left].
    + destruct (IH Hin) as (a' & Ha' & Hin'). exists a'. split; [assumption | now right].
Qed.
End MapM.

(** ** Lemmas on lists *)

Section Lists.
Context {A B : Type}.

Lemma forallb_Forall (p : A -> bool) (l : list A) :
  forallb p l = true <-> Forall (fun a => p a = true) l.
Proof. rewrite forallb_forall, Forall_forall. reflexivity. Qed.

Lemma forallb_ext (p q : A -> bool) (l : list A) :
  (forall a, p a = q a) -> forallb p l = forallb q l.
Proof. intros H. induction l as [|a l IH]; simpl; [reflexivity | now rewrite H, IH]. Qed.

Lemma forallb_In (p : A -> bool) (l : list A) (a : A) :
  forallb p l = true -> In a l -> p a = true.
Proof. rewrite forallb_forall. auto. Qed.
End Lists.

(** Distinctness of a list of strings, as a computation. *)
Fixpoint nodupb (l : list string) : bool :=
  match l with
  | [] => true
  | x :: l' => negb (existsb (String.eqb x) l') && nodupb l'
  end.

Lemma existsb_eqb_In (x : string) (l : list string) :
  existsb (String.eqb x) l = true <-> In x l.
Proof.
  rewrite existsb_exists. split.
  - intros (y & Hy & Heq). apply String.eqb_eq in Heq. now subst.
  - intros H. exists x. split; [assumption | apply String.eqb_refl].
Qed.

Lemma nodupb_NoDup (l : list string) : nodupb l = true <-> NoDup l.
Proof.
  induction l as [|x l IH]; simpl.
  - split; [constructor | reflexivity].
  - rewrite andb_true_iff, negb_true_iff, IH, NoDup_cons_iff.
    rewrite <- not_true_iff_false, existsb_eqb_In. reflexivity.
Qed.
