(* ===== verification/PyDict.v ===== *)
(** * Python's ordered dict, as far as the tables use it

    A Python [dict] keeps its keys in insertion order; storing under a key that
    is present replaces the value and keeps the key's position.  The tables of
    [src/Converters.py] are dict displays [{k1: v1, k2: v2, ...}], which store
    the entries from left to right.  This file models the dict as an
    association list with distinct keys: [dict_set] is the store, [dict_of_items]
    the display, [dict_get] the lookup [d[k]], [dict_mem] the test [k in d] and
    [dict_keys] the iteration order.  The invariant [dict_wf] (keys are
    distinct) holds of the empty dict and is preserved by every store. *)

From Stdlib Require Import List String Bool.
From S2P Require Import Prelude.
Import ListNotations.

Set Implicit Arguments.

Section Dict.
Context {V : Type}.

Definition dict : Type := list (string * V).

(** [d[k]], [None] when the key is absent (Python raises [KeyError]). *)
Fixpoint dict_get (k : string) (d : dict) : option V :=
  match d with
  | [] => None
  | (k', v) :: d' => if String.eqb k k' then Some v else dict_get k d'
  end.

(** [k in d] *)
Definition dict_mem (k : string) (d : dict) : bool :=
  match dict_get k d with
  | Some _ => true
  | None => false
  end.

(** [d[k] = v]: replace in place, or append a new key. *)
Fixpoint dict_set (k : string) (v : V) (d : dict) : dict :=
  match d with
  | [] => [(k, v)]
  | (k', v') :: d' =>
      if String.eqb k k' then (k', v) :: d' else (k', v') :: dict_set k v d'
  end.

(** The dict display [{k1: v1, ...}]: the entries are stored left to right. *)
Definition dict_of_items (items : list (string * V)) : dict :=
  fold_left (fun d kv => dict_set (fst kv) (snd kv) d) items [].

(** [list(d)]: the keys in insertion order. *)
Definition dict_keys (d : dict) : list string := map fst d.

(** The invariant: no key occurs twice. *)
Definition dict_wf (d : dict) : Prop := NoDup (dict_keys d).

(** ** Lookup *)

Lemma dict_get_Some_In (k : string) (v : V) (d : dict) :
  dict_get k d = Some v -> In (k, v) d.
Proof.
  induction d as [|[k' v'] d IH]; simpl; [discriminate|].
  destruct (String.eqb_spec k k') as [->|Hne]; intros H.
  - inv H. now left.
  - right. now apply IH.
Qed.

Lemma dict_get_None (k : string) (d : dict) :
  dict_get k d = None <-> ~ In k (dict_keys d).
Proof.
  induction d as [|[k' v'] d IH]; simpl; [tauto|].
  destruct (String.eqb_spec k k') as [->|Hne].
  - split; [discriminate | intros H; exfalso; apply H; now left].
  - rewrite IH. split; [intros H [Heq|Hin]; [congruence | tauto] | tauto].
Qed.

Lemma dict_mem_In (k : string) (d : dict) :
  dict_mem k d = true <-> In k (dict_keys d).
Proof.
  unfold dict_mem. destruct (dict_get k d) eqn:E.
  - split; [intros _ | reflexivity].
    apply dict_get_Some_In in E. apply (in_map fst) in E. exact E.
  - apply dict_get_None in E. split; [discriminate | tauto].
Qed.

Lemma dict_mem_get (k : string) (d : dict) :
  dict_mem k d = true <-> exists v, dict_get k d = Some v.
Proof.
  unfold dict_mem. destruct (dict_get k d); split; eauto; try discriminate.
  intros (v & H). discriminate.
Qed.

(** With distinct keys the lookup finds every entry of the list. *)
Lemma dict_get_In (k : string) (v : V) (d : dict) :
  dict_wf d -> In (k, v) d -> dict_get k d = Some v.
Proof.
  unfold dict_wf, dict_keys.
  induction d as [|[k' v'] d IH]; simpl; intros Hwf Hin; [destruct Hin|].
  apply NoDup_cons_iff in Hwf as [Hnotin Hwf].
  destruct Hin as [Heq|Hin].
  - inv Heq. now rewrite String.eqb_refl.
  - destruct (String.eqb_spec k k') as [->|Hne]; [|now apply IH].
    exfalso. apply Hnotin. apply (in_map fst) in Hin. exact Hin.
Qed.

(** ** Store *)

Lemma dict_get_set_eq (k : string) (v : V) (d : dict) :
  dict_get k (dict_set k v d) = Some v.
Proof.
  induction d as [|[k' v'] d IH]; simpl.
  - now rewrite String.eqb_refl.
  - destruct (String.eqb k k') eqn:E; simpl; rewrite E; [reflexivity | exact IH].
Qed.

Lemma dict_get_set_ne (k k0 : string) (v : V) (d : dict) :
  k0 <> k -> dict_get k0 (dict_set k v d) = dict_get k0 d.
Proof.
  intros Hne. induction d as [|[k' v'] d IH]; simpl.
  - apply String.eqb_neq in Hne. now rewrite Hne.
  - destruct (String.eqb_spec k k') as [->|Hk]; simpl.
    + apply String.eqb_neq in Hne. now rewrite Hne.
    + now rewrite IH.
Qed.

(** A store on a present key keeps the keys and their order. *)
Lemma dict_keys_set_mem (k : string) (v : V) (d : dict) :
  In k (dict_keys d) -> dict_keys (dict_set k v d) = dict_keys d.
Proof.
  induction d as [|[k' v'] d IH]; simpl; [tauto|].
  destruct (String.eqb_spec k k') as [->|Hk]; simpl; [reflexivity|].
  intros [Heq|Hin]; [congruence|]. now rewrite IH.
Qed.

(** A store on a new key appends it. *)
Lemma dict_set_new (k : string) (v : V) (d : dict) :
  ~ In k (dict_keys d) -> dict_set k v d = d ++ [(k, v)].
Proof.
  induction d as [|[k' v'] d IH]; simpl; [reflexivity|].
  intros Hnotin. destruct (String.eqb_spec k k') as [->|Hk]; [tauto|].
  rewrite IH; [reflexivity | tauto].
Qed.

Lemma dict_wf_nil : dict_wf [].
Proof. constructor. Qed.

Lemma dict_wf_set (k : string) (v : V) (d : dict) :
  dict_wf d -> dict_wf (dict_set k v d).
Proof.
  unfold dict_wf. intros Hwf.
  destruct (in_dec string_dec k (dict_keys d)) as [Hin|Hnotin].
  - now rewrite dict_keys_set_mem.
  - rewrite dict_set_new by assumption. unfold dict_keys in *.
    rewrite map_app. simpl. apply NoDup_app; [assumption | repeat constructor; tauto|].
    intros x Hx [<-|[]]. tauto.
Qed.

(** ** Display *)

Lemma fold_set_wf (items : list (string * V)) (d : dict) :
  dict_wf d ->
  dict_wf (fold_left (fun d kv => dict_set (fst kv) (snd kv) d) items d).
Proof.
  revert d. induction items as [|[k v] items IH]; simpl; intros d Hwf.
  - assumption.
  - apply IH. now apply dict_wf_set.
Qed.

Lemma dict_of_items_wf (items : list (string * V)) : dict_wf (dict_of_items items).
Proof. apply fold_set_wf, dict_wf_nil. Qed.

Lemma fold_set_distinct (items : list (string * V)) (d : dict) :
  NoDup (dict_keys d ++ map fst items) ->
  fold_left (fun d kv => dict_set (fst kv) (snd kv) d) items d = d ++ items.
Proof.
  revert d. induction items as [|[k v] items IH]; simpl; intros d Hnd.
  - now rewrite app_nil_r.
  - rewrite dict_set_new.
    + rewrite IH.
      * now rewrite <- app_assoc.
      * unfold dict_keys in *. rewrite map_app, <- app_assoc. exact Hnd.
    + apply NoDup_remove_2 in Hnd. intros Hin. apply Hnd.
      apply in_or_app. now left.
Qed.

(** A display whose keys are distinct is stored as written, in order. *)
Lemma dict_of_items_distinct (items : list (string * V)) :
  NoDup (map fst items) -> dict_of_items items = items.
Proof. intros Hnd. unfold dict_of_items. now rewrite fold_set_distinct. Qed.
End Dict.

Arguments dict V : clear implicits.

(** ** The keys of a dict do not depend on the values stored *)

Section DictKeys.
Context {V W : Type}.

Lemma dict_keys_set_congr (k : string) (v : V) (w : W) (d : dict V) (d' : dict W) :
  dict_keys d = dict_keys d' ->
  dict_keys (dict_set k v d) = dict_keys (dict_set k w d').
Proof.
  revert d'. induction d as [|[k1 v1] d IH]; intros [|[k2 w2] d'] H; try discriminate.
  - reflexivity.
  - simpl in H. inv H. simpl.
    destruct (String.eqb k k2); simpl; [congruence|]. f_equal. now apply IH.
Qed.

Lemma dict_keys_of_items_congr (l : list (string * V)) (l' : list (string * W)) :
  map fst l = map fst l' ->
  dict_keys (dict_of_items l) = dict_keys (dict_of_items l').
Proof.
  unfold dict_of_items.
  assert (G : forall (d : dict V) (d' : dict W),
    dict_keys d = dict_keys d' -> map fst l = map fst l' ->
    dict_keys (fold_left (fun d kv => dict_set (fst kv) (snd kv) d) l d) =
    dict_keys (fold_left (fun d kv => dict_set (fst kv) (snd kv) d) l' d')).
  { revert l'. induction l as [|[k v] l IH]; intros [|[k' w] l'] d d' Hd Hl;
      try discriminate; [assumption|].
    simpl in Hl. inv Hl. simpl. apply IH; [|assumption].
    now apply dict_keys_set_congr. }
  now apply G.
Qed.
End DictKeys.

(** ** Mapping the values of a dict *)

Section DictMap.
Context {V W : Type} (f : V -> W).

Definition dict_map (d : dict V) : dict W :=
  map (fun kv => (fst kv, f (snd kv))) d.

Lemma dict_keys_map (d : dict V) : dict_keys (dict_map d) = dict_keys d.
Proof. unfold dict_keys, dict_map. rewrite map_map. reflexivity. Qed.

Lemma dict_get_map (k : string) (d : dict V) :
  dict_get k (dict_map d) = option_map f (dict_get k d).
Proof.
  induction d as [|[k' v] d IH]; simpl; [reflexivity|].
  destruct (String.eqb k k'); [reflexivity | exact IH].
Qed.
End DictMap.

#[export] Hint Resolve dict_wf_nil dict_wf_set dict_of_items_wf : conv.
#[export] Hint Rewrite @dict_get_set_eq @dict_keys_map @dict_get_map : conv.
