(* ===== verification/PyNum.v ===== *)
(** * Python's numeric literals and the arithmetic of the tables

    The coefficients of [src/Converters.py] are literal expressions: integer
    literals ([1], [32]), decimal float literals ([1.8], [1e-30], [273.15e-1]),
    unary minus ([-1.5]), true division ([21 / 40], [1 / 1.8288]) and products
    ([(1 / 0.0295735295625) * 24], [72 / (5.5 * 0.0254)]).

    - [pyexpr] is their syntax.  A number notation reads a Rocq numeral as
      Python's lexer does: digits alone are an [Int], a numeral with a
      fraction or an exponent is a [Flt] that keeps the decimal itself, a
      leading sign is the unary minus [Neg].
    - [eval] is Python's evaluation: integers are exact ([VInt]), floats are
      binary64 ([VFloat], Rocq's primitive floats); an integer meeting a float
      is converted first; [/] raises [ZeroDivisionError] on a zero divisor;
      converting an integer too large for a float raises [OverflowError].
      [py_add], [py_sub], [py_mul] and [py_truediv] are the four binary
      operations on values; the tables use the last two, the formula of the
      engine all four.
      A decimal literal, an integer conversion and a quotient of integers are
      correctly rounded (to nearest, ties to even): [SF_of_ratio] runs the
      division and rounding of [SpecFloat] on integer mantissas.
    - [exact] is the evaluation over the rationals: the number the expression
      denotes, with no rounding.
    - [F2Q] is the rational value of a finite float and [approx] compares a
      float with a rational up to a relative error [2^-k]. *)

From Stdlib Require Import List String Bool ZArith NArith QArith Qabs Qpower Lia Lqa.
From Stdlib Require Import Floats.
From S2P Require Import Prelude.
Import ListNotations.
Local Open Scope res_scope.

Set Implicit Arguments.

(** ** Syntax *)

Inductive pyexpr : Type :=
| Int (n : N)                (* integer literal: [150] *)
| Flt (m : N) (e : Z)        (* float literal [m * 10^e]: [1.8] is [Flt 18 (-1)] *)
| Neg (a : pyexpr)           (* [-a] *)
| Mul (a b : pyexpr)         (* [a * b] *)
| Div (a b : pyexpr).        (* [a / b], true division *)

(** A decimal numeral as Python's lexer classifies it. *)
Definition pyexpr_of_unsigned (i f : Decimal.uint) (e : option Decimal.int) : pyexpr :=
  match f, e with
  | Decimal.Nil, None => Int (N.of_uint i)
  | _, None => Flt (N.of_uint (Decimal.app i f)) (- Z.of_nat (Decimal.nb_digits f))
  | _, Some e => Flt (N.of_uint (Decimal.app i f)) (Z.of_int e - Z.of_nat (Decimal.nb_digits f))
  end.

Definition pyexpr_of_signed (i : Decimal.int) (f : Decimal.uint) (e : option Decimal.int)
  : pyexpr :=
  match i with
  | Decimal.Pos i => pyexpr_of_unsigned i f e
  | Decimal.Neg i => Neg (pyexpr_of_unsigned i f e)
  end.

Definition pyexpr_of_number (n : Number.number) : option pyexpr :=
  match n with
  | Number.Decimal (Decimal.Decimal i f) => Some (pyexpr_of_signed i f None)
  | Number.Decimal (Decimal.DecimalExp i f e) => Some (pyexpr_of_signed i f (Some e))
  | Number.Hexadecimal _ => None
  end.

Definition number_of_literal (neg : bool) (a : pyexpr) : option Number.number :=
  let sign := fun u => if neg then Decimal.Neg u else Decimal.Pos u in
  match a with
  | Int n => Some (Number.Decimal (Decimal.Decimal (sign (N.to_uint n)) Decimal.Nil))
  | Flt m e =>
      Some (Number.Decimal (Decimal.DecimalExp (sign (N.to_uint m)) Decimal.Nil (Z.to_int e)))
  | _ => None
  end.

Definition number_of_pyexpr (a : pyexpr) : option Number.number :=
  match a with
  | Neg b => number_of_literal true b
  | _ => number_of_literal false a
  end.

Declare Scope py_scope.
Delimit Scope py_scope with py.
Bind Scope py_scope with pyexpr.
Number Notation pyexpr pyexpr_of_number number_of_pyexpr : py_scope.
Notation "- a" := (Neg a) : py_scope.
Notation "a * b" := (Mul a b) : py_scope.
Notation "a / b" := (Div a b) : py_scope.

(** A table entry and a table as written in the source. *)
Definition coef_expr : Type := (pyexpr * pyexpr)%type.
Definition item : Type := (string * coef_expr)%type.

(** Syntactic equality of expressions, as a computation. *)
Fixpoint pyexpr_eqb (a b : pyexpr) : bool :=
  match a, b with
  | Int n, Int n' => N.eqb n n'
  | Flt m e, Flt m' e' => N.eqb m m' && Z.eqb e e'
  | Neg a1, Neg b1 => pyexpr_eqb a1 b1
  | Mul a1 a2, Mul b1 b2 => pyexpr_eqb a1 b1 && pyexpr_eqb a2 b2
  | Div a1 a2, Div b1 b2 => pyexpr_eqb a1 b1 && pyexpr_eqb a2 b2
  | _, _ => false
  end.

Definition coef_eqb (c d : coef_expr) : bool :=
  pyexpr_eqb (fst c) (fst d) && pyexpr_eqb (snd c) (snd d).

Lemma pyexpr_eqb_eq (a b : pyexpr) : pyexpr_eqb a b = true <-> a = b.
Proof.
  revert b. induction a as [n|m e|a IH|a1 IH1 a2 IH2|a1 IH1 a2 IH2]; intros [n'|m' e'|b|b1 b2|b1 b2];
    simpl; try (split; [discriminate | congruence]).
  - rewrite N.eqb_eq. split; congruence.
  - rewrite andb_true_iff, N.eqb_eq, Z.eqb_eq. split; [intros [-> ->]; reflexivity | intros H; inv H; auto].
  - rewrite IH. split; congruence.
  - rewrite andb_true_iff, IH1, IH2. split; [intros [-> ->]; reflexivity | intros H; inv H; auto].
  - rewrite andb_true_iff, IH1, IH2. split; [intros [-> ->]; reflexivity | intros H; inv H; auto].
Qed.

Lemma coef_eqb_eq (c d : coef_expr) : coef_eqb c d = true <-> c = d.
Proof.
  destruct c as [c1 c2], d as [d1 d2]. unfold coef_eqb. simpl.
  rewrite andb_true_iff, !pyexpr_eqb_eq. split; [intros [-> ->]; reflexivity | intros H; inv H; auto].
Qed.

(** ** Values and errors *)

Inductive pyval : Type :=
| VInt (z : Z)
| VFloat (f : float).

Inductive pyerr : Type :=
| ZeroDivisionError
| OverflowError.

(** ** Correct rounding to binary64 *)

(** The float nearest to the integer [z]. *)
Definition SF_of_Z (z : Z) : spec_float := binary_normalize prec emax z 0 false.

(** The float nearest to [n / d]. *)
Definition SF_of_ratio (n : Z) (d : positive) : spec_float :=
  match n with
  | Z0 => S754_zero false
  | Zpos p => SFdiv prec emax (S754_finite false p 0) (S754_finite false d 0)
  | Zneg p => SFdiv prec emax (S754_finite true p 0) (S754_finite false d 0)
  end.

(** The float nearest to [m * 10^e]. *)
Definition SF_of_decimal (m : N) (e : Z) : spec_float :=
  match e with
  | Zneg k => SF_of_ratio (Z.of_N m) (Pos.pow 10 k)
  | _ => SF_of_Z (Z.of_N m * 10 ^ e)
  end.

Definition SF_is_finite (x : spec_float) : bool :=
  match x with
  | S754_zero _ | S754_finite _ _ _ => true
  | S754_infinity _ | S754_nan => false
  end.

(** A float literal: never an error (too large a literal is [inf]). *)
Definition float_of_decimal (m : N) (e : Z) : float := SF2Prim (SF_of_decimal m e).

(** [float(z)] *)
Definition float_of_int (z : Z) : result pyerr float :=
  let x := SF_of_Z z in
  if SF_is_finite x then ok (SF2Prim x) else raise OverflowError.

(** [x / y] on integers. *)
Definition int_truediv (x y : Z) : result pyerr float :=
  match y with
  | Z0 => raise ZeroDivisionError
  | Zpos d =>
      let q := SF_of_ratio x d in
      if SF_is_finite q then ok (SF2Prim q) else raise OverflowError
  | Zneg d =>
      let q := SF_of_ratio (- x) d in
      if SF_is_finite q then ok (SF2Prim q) else raise OverflowError
  end.

(** ** Evaluation *)

(** The float an operand is converted to when the other operand is a float. *)
Definition as_float (v : pyval) : result pyerr float :=
  match v with
  | VInt z => float_of_int z
  | VFloat f => ok f
  end.

Definition py_neg (v : pyval) : pyval :=
  match v with
  | VInt z => VInt (- z)
  | VFloat f => VFloat (- f)
  end.

Definition py_add (a b : pyval) : result pyerr pyval :=
  match a, b with
  | VInt x, VInt y => ok (VInt (x + y))
  | _, _ => x <- as_float a ;; y <- as_float b ;; ok (VFloat (x + y))
  end.

Definition py_sub (a b : pyval) : result pyerr pyval :=
  match a, b with
  | VInt x, VInt y => ok (VInt (x - y))
  | _, _ => x <- as_float a ;; y <- as_float b ;; ok (VFloat (x - y))
  end.

Definition py_mul (a b : pyval) : result pyerr pyval :=
  match a, b with
  | VInt x, VInt y => ok (VInt (x * y))
  | _, _ => x <- as_float a ;; y <- as_float b ;; ok (VFloat (x * y))
  end.

Definition py_truediv (a b : pyval) : result pyerr pyval :=
  match a, b with
  | VInt x, VInt y => q <- int_truediv x y ;; ok (VFloat q)
  | _, _ =>
      x <- as_float a ;; y <- as_float b ;;
      if (y =? 0)%float then raise ZeroDivisionError else ok (VFloat (x / y))
  end.

Fixpoint eval (a : pyexpr) : result pyerr pyval :=
  match a with
  | Int n => ok (VInt (Z.of_N n))
  | Flt m e => ok (VFloat (float_of_decimal m e))
  | Neg b => v <- eval b ;; ok (py_neg v)
  | Mul b c => x <- eval b ;; y <- eval c ;; py_mul x y
  | Div b c => x <- eval b ;; y <- eval c ;; py_truediv x y
  end.

(** The coefficient as the engine's arithmetic sees it: a float. *)
Definition eval_float (a : pyexpr) : result pyerr float :=
  v <- eval a ;; as_float v.

Definition eval_coef (c : coef_expr) : result pyerr (float * float) :=
  s <- eval_float (fst c) ;; o <- eval_float (snd c) ;; ok (s, o).

(** ** Exact value *)

Definition Qdecimal (m : N) (e : Z) : Q := inject_Z (Z.of_N m) * Qpower 10 e.

(** The expression over the rationals: no rounding, and [ZeroDivisionError]
    when a divisor is zero. *)
Fixpoint exact (a : pyexpr) : result pyerr Q :=
  match a with
  | Int n => ok (inject_Z (Z.of_N n))
  | Flt m e => ok (Qdecimal m e)
  | Neg b => x <- exact b ;; ok (- x)
  | Mul b c => x <- exact b ;; y <- exact c ;; ok (x * y)
  | Div b c =>
      x <- exact b ;; y <- exact c ;;
      if Qeq_bool y 0 then raise ZeroDivisionError else ok (x / y)
  end.

(** ** Floats as rationals *)

Definition SF2Q (x : spec_float) : option Q :=
  match x with
  | S754_zero _ => Some 0
  | S754_finite s m e => Some (inject_Z (cond_Zopp s (Zpos m)) * Qpower 2 e)
  | S754_infinity _ | S754_nan => None
  end.

Definition F2Q (f : float) : option Q := SF2Q (Prim2SF f).

(** [approx k f q]: [f] is finite and [|f - q| <= 2^-k * |q|]. *)
Definition approx (k : Z) (f : float) (q : Q) : bool :=
  match F2Q f with
  | Some r => Qle_bool (Qabs (r - q) * Qpower 2 k) (Qabs q)
  | None => false
  end.

(** The float evaluation of [a] succeeds and is within [2^-k] of its exact value. *)
Definition accurate (k : Z) (a : pyexpr) : bool :=
  match eval_float a, exact a with
  | inr f, inr q => approx k f q
  | _, _ => false
  end.

(** ** Theorems *)

(** A product is an integer only when both factors are. *)
Lemma py_mul_int (a b : pyval) (z : Z) :
  py_mul a b = inr (VInt z) -> exists x y, a = VInt x /\ b = VInt y /\ z = (x * y)%Z.
Proof.
  destruct a as [x|x], b as [y|y]; unfold py_mul, as_float; intros H.
  - inv H. eauto.
  - destruct (float_of_int x); inv H.
  - destruct (float_of_int y); inv H.
  - inv H.
Qed.

(** A quotient is never an integer: [/] is true division. *)
Lemma py_truediv_float (a b : pyval) (v : pyval) :
  py_truediv a b = inr v -> exists f, v = VFloat f.
Proof.
  destruct a as [x|x], b as [y|y]; unfold py_truediv, as_float; intros H.
  - destruct (int_truediv x y); inv H. eauto.
  - destruct (float_of_int x); simpl in H; [discriminate|].
    destruct (_ =? _)%float; inv H. eauto.
  - destruct (float_of_int y); simpl in H; [discriminate|].
    destruct (_ =? _)%float; inv H. eauto.
  - simpl in H. destruct (_ =? _)%float; inv H. eauto.
Qed.

(** An integer-valued expression is exact: no rounding happened. *)
Lemma eval_int_exact (a : pyexpr) (z : Z) :
  eval a = inr (VInt z) -> exists q, exact a = inr q /\ q == inject_Z z.
Proof.
  revert z. induction a as [n|m e|a IH|a IHa b IHb|a IHa b IHb]; simpl; intros z H.
  - inv H. eexists. split; reflexivity.
  - discriminate.
  - apply bind_inr in H as ([x|f] & Ha & H); inv H.
    destruct (IH _ Ha) as (q & -> & Hq). eexists. split; [reflexivity|].
    rewrite Hq. unfold Qeq, inject_Z, Qopp. simpl. lia.
  - apply bind_inr in H as (x & Ha & H). apply bind_inr in H as (y & Hb & H).
    apply py_mul_int in H as (x' & y' & -> & -> & ->).
    destruct (IHa _ Ha) as (qa & -> & Hqa), (IHb _ Hb) as (qb & -> & Hqb).
    eexists. split; [reflexivity|]. rewrite Hqa, Hqb. unfold Qeq, inject_Z, Qmult. simpl. lia.
  - apply bind_inr in H as (x & Ha & H). apply bind_inr in H as (y & Hb & H).
    apply py_truediv_float in H as (f & H). discriminate.
Qed.

(** The exact value of a literal does not depend on how the decimal point is
    placed: [m * 10^(e+1)] is [(10 m) * 10^e]. *)
Lemma Qdecimal_shift (m : N) (e : Z) :
  Qdecimal (10 * m) e == Qdecimal m (e + 1).
Proof.
  unfold Qdecimal. rewrite Qpower_plus by discriminate.
  rewrite N2Z.inj_mul, inject_Z_mult. simpl (Z.of_N 10). change (10 ^ 1) with 10.
  change (inject_Z 10) with 10. ring.
Qed.

(** The only error of the exact evaluation is a division by zero. *)
Lemma exact_raises (a : pyexpr) (e : pyerr) : exact a = inl e -> e = ZeroDivisionError.
Proof.
  induction a as [n|m k|a IH|a IHa b IHb|a IHa b IHb]; simpl; intros H;
    try discriminate.
  - apply bind_inl in H as [H|(x & _ & H)]; [auto | discriminate].
  - apply bind_inl in H as [H|(x & _ & H)]; [auto|].
    apply bind_inl in H as [H|(y & _ & H)]; [auto | discriminate].
  - apply bind_inl in H as [H|(x & _ & H)]; [auto|].
    apply bind_inl in H as [H|(y & _ & H)]; [auto|].
    destruct (Qeq_bool y 0); now inv H.
Qed.

(** An expression without division always has an exact value. *)
Fixpoint has_div (a : pyexpr) : bool :=
  match a with
  | Int _ | Flt _ _ => false
  | Neg b => has_div b
  | Mul b c => has_div b || has_div c
  | Div _ _ => true
  end.

Lemma exact_total (a : pyexpr) : has_div a = false -> exists q, exact a = inr q.
Proof.
  induction a as [n|m k|a IH|a IHa b IHb|a IHa b IHb]; simpl; intros H;
    try discriminate; eauto.
  - destruct (IH H) as (q & ->). simpl. eauto.
  - apply orb_false_iff in H as [Ha Hb].
    destruct (IHa Ha) as (qa & ->), (IHb Hb) as (qb & ->). simpl. eauto.
Qed.

(** ** The rounding agrees with Rocq's own reader of float numerals *)

Local Open Scope py_scope.
#[local] Set Warnings "-inexact-float".

Example literal_1_8 : eval 1.8 = inr (VFloat 1.8%float).
Proof. vm_compute. reflexivity. Qed.

Example literal_491_67 : eval 491.67 = inr (VFloat 491.67%float).
Proof. vm_compute. reflexivity. Qed.

Example literal_273_15em27 : eval 273.15e-27 = inr (VFloat 273.15e-27%float).
Proof. vm_compute. reflexivity. Qed.

Example literal_7_058em33 : eval 7.058e-33 = inr (VFloat 7.058e-33%float).
Proof. vm_compute. reflexivity. Qed.

Example literal_1e87 : eval 1e87 = inr (VFloat 1e87%float).
Proof. vm_compute. reflexivity. Qed.

Example literal_planck_volume : eval 4.22419e-102 = inr (VFloat 4.22419e-102%float).
Proof. vm_compute. reflexivity. Qed.

Example literal_m_per_day :
  eval 1.1574074074074073e-05 = inr (VFloat 1.1574074074074073e-05%float).
Proof. vm_compute. reflexivity. Qed.

Example literal_minus : eval (-1.5) = inr (VFloat (-1.5)%float).
Proof. vm_compute. reflexivity. Qed.

Example expr_int_div : eval (21 / 40) = inr (VFloat 0.525%float).
Proof. vm_compute. reflexivity. Qed.

Example expr_neg_int_div : eval (-2091 / 260) = inr (VFloat (-2091 / 260)%float).
Proof. vm_compute. reflexivity. Qed.

Example expr_int_float_div : eval (1 / 1.8288) = inr (VFloat (1 / 1.8288)%float).
Proof. vm_compute. reflexivity. Qed.

Example expr_agate :
  eval (72 / (5.5 * 0.0254)) = inr (VFloat (72 / (5.5 * 0.0254))%float).
Proof. vm_compute. reflexivity. Qed.

Example expr_zero_division : eval (1 / 0) = inl ZeroDivisionError.
Proof. reflexivity. Qed.

Example expr_float_zero_division : eval (1 / 0.0) = inl ZeroDivisionError.
Proof. vm_compute. reflexivity. Qed.

Example expr_overflow : eval (Int (10 ^ 400) * 1.0) = inl OverflowError.
Proof. vm_compute. reflexivity. Qed.

Example literal_overflow_is_inf : eval 1e400 = inr (VFloat infinity).
Proof. vm_compute. reflexivity. Qed.

Example int_literal_is_int : eval 149597870700 = inr (VInt 149597870700).
Proof. reflexivity. Qed.

Example float_literal_is_float : eval 2493297845.0 = inr (VFloat 2493297845%float).
Proof. vm_compute. reflexivity. Qed.

Example exact_1_8 : exact 1.8 = inr (18 # 10).
Proof. reflexivity. Qed.

Example accurate_1_8 : accurate 52 1.8 = true.
Proof. vm_compute. reflexivity. Qed.

(** [1.8] is not a binary fraction: the float differs from the decimal. *)
Example inexact_1_8 : F2Q 1.8%float = Some (8106479329266893 # 4503599627370496).
Proof. vm_compute. reflexivity. Qed.
