(* ===== verification/FloatLaws.v ===== *)
(** * Laws of binary64 arithmetic that the engine relies on

    The engine computes [(value - offset_from) / scale_from * scale_to +
    offset_to] in binary64.  For the base unit of a table the coefficients are
    [(1, 0)], and the specification promises [convert(x, b, b) == x] for every
    finite [x]; that promise rests on four facts of IEEE arithmetic, proved
    here for every float from the executable specification of the primitive
    operations ([SpecFloat]) and the axioms that relate the two
    ([FloatAxioms]): [x - 0 = x], [x / 1 = x], [x * 1 = x], and [x + 0 = x]
    unless [x] is the negative zero, which [+ 0] turns into the positive one.
    The two that round, [/ 1] and [* 1], come down to one lemma on the
    rounding function: a canonical mantissa shifted left by [p] bits rounds
    back to itself ([round_shifted]).  A NaN operand gives a NaN result, and
    with a finite second operand (nonzero for [*] and [/]) a NaN result comes
    from a NaN operand only: the rounding function returns a NaN on a
    negative mantissa only, and shifting and rounding keep a mantissa
    nonnegative.  The rounding function does not look at the sign it is
    given: the product and the quotient commute with negation
    ([float_mul_opp], [float_div_opp]), and with a positive second operand
    they keep a first operand that is not below zero so
    ([float_mul_nonneg], [float_div_nonneg]). *)

From Stdlib Require Import ZArith Lia Bool Floats.
Local Open Scope Z_scope.

(** ** Rounding a value that needs no rounding *)

Section Rounding.
Variables prec emax : Z.

Lemma iter_pos_iter {A : Type} (f : A -> A) (p : positive) (x : A) :
  iter_pos f p x = Pos.iter f x p.
Proof.
  revert x. induction p as [p IH|p IH|]; intros x; simpl.
  - rewrite !IH. now rewrite <- !Pos.iter_swap.
  - now rewrite !IH.
  - reflexivity.
Qed.

Lemma digits2_pos_shift (m p : positive) :
  digits2_pos (Pos.iter xO m p) = (digits2_pos m + p)%positive.
Proof.
  induction p as [|p IH] using Pos.peano_ind.
  - simpl. lia.
  - rewrite Pos.iter_succ. simpl. rewrite IH. lia.
Qed.

Lemma shr_shift (m p : positive) :
  iter_pos shr_1 p (Build_shr_record (Zpos (Pos.iter xO m p)) false false)
  = Build_shr_record (Zpos m) false false.
Proof.
  rewrite iter_pos_iter. induction p as [|p IH] using Pos.peano_ind.
  - reflexivity.
  - rewrite !Pos.iter_succ, <- Pos.iter_swap. simpl. exact IH.
Qed.

Lemma round_canonical (s : bool) (m : positive) (e : Z) :
  bounded prec emax m e = true ->
  binary_round_aux prec emax s (Zpos m) e loc_Exact = S754_finite s m e.
Proof.
  unfold bounded, canonical_mantissa. intros H. apply andb_true_iff in H as [Hc Hb].
  apply Z.eqb_eq in Hc.
  unfold binary_round_aux, shr_fexp. simpl Zdigits2. rewrite Hc, Z.sub_diag.
  cbn [shr shr_record_of_loc round_nearest_even shr_m loc_of_shr_record Zdigits2].
  rewrite Hc, Z.sub_diag. cbn [shr shr_m]. now rewrite Hb.
Qed.

Lemma round_shifted (s : bool) (m p : positive) (e : Z) :
  bounded prec emax m e = true ->
  binary_round_aux prec emax s (Zpos (Pos.iter xO m p)) (e - Zpos p) loc_Exact
  = S754_finite s m e.
Proof.
  intros H.
  unfold bounded, canonical_mantissa in H. apply andb_true_iff in H as [Hc Hb].
  apply Z.eqb_eq in Hc.
  unfold binary_round_aux at 1. unfold shr_fexp at 1. simpl Zdigits2.
  rewrite digits2_pos_shift.
  replace (Z.pos (digits2_pos m + p) + (e - Z.pos p)) with (Z.pos (digits2_pos m) + e) by lia.
  rewrite Hc. replace (e - (e - Z.pos p)) with (Z.pos p) by lia.
  simpl shr_record_of_loc. unfold shr. rewrite shr_shift.
  replace (e - Z.pos p + Z.pos p) with e by lia.
  cbn [round_nearest_even shr_m loc_of_shr_record]. unfold shr_fexp. simpl Zdigits2.
  rewrite Hc, Z.sub_diag. cbn [shr shr_record_of_loc shr_m]. now rewrite Hb.
Qed.
End Rounding.

(** ** The four operations on the specification

    [1.0] is the mantissa [2^52] with exponent [-52]. *)

Lemma SFmul_one (x : spec_float) :
  valid_binary x = true -> SF64mul x (S754_finite false 4503599627370496 (-52)) = x.
Proof.
  destruct x as [s|s| |s m e]; intros H; unfold SF64mul, SFmul;
    rewrite ?xorb_false_r; try reflexivity.
  replace (m * 4503599627370496)%positive with (Pos.iter xO m 52)
    by (rewrite Pos.mul_comm; reflexivity).
  exact (round_shifted prec emax s m 52 e H).
Qed.

Lemma div_eucl_mul (a b : Z) : 0 < b -> Z.div_eucl (a * b) b = (a, 0).
Proof.
  intros Hb. pose proof (Z_div_mod (a * b) b ltac:(lia)) as H.
  destruct (Z.div_eucl (a * b) b) as [q r]. destruct H as [E Hr].
  assert (q = a) by nia. subst q. f_equal. lia.
Qed.

Lemma div_core_one (m : positive) (e : Z) :
  bounded prec emax m e = true ->
  SFdiv_core_binary prec emax (Zpos m) e 4503599627370496 (-52) = (Zpos m, e, loc_Exact) \/
  SFdiv_core_binary prec emax (Zpos m) e 4503599627370496 (-52) = (Zpos m~0, e - 1, loc_Exact).
Proof.
  unfold bounded, canonical_mantissa. intros H. apply andb_true_iff in H as [Hc _].
  apply Z.eqb_eq in Hc. unfold SFdiv_core_binary.
  change (Zdigits2 4503599627370496) with 53. simpl Zdigits2.
  set (d := Z.pos (digits2_pos m)) in *.
  assert (E : Z.min (fexp prec emax (d + e - (53 + -52))) (e - -52) = e \/
              Z.min (fexp prec emax (d + e - (53 + -52))) (e - -52) = e - 1)
    by (revert Hc; unfold fexp, emin, prec, emax; lia).
  destruct E as [-> | ->]; [left | right].
  - replace (e - -52 - e) with 52 by lia.
    rewrite Z.shiftl_mul_pow2 by lia. rewrite div_eucl_mul by reflexivity. reflexivity.
  - replace (e - -52 - (e - 1)) with 53 by lia.
    rewrite Z.shiftl_mul_pow2 by lia.
    replace (Z.pos m * 2 ^ 53) with (Z.pos m~0 * 4503599627370496) by lia.
    rewrite div_eucl_mul by reflexivity. reflexivity.
Qed.

Lemma SFdiv_one (x : spec_float) :
  valid_binary x = true -> SF64div x (S754_finite false 4503599627370496 (-52)) = x.
Proof.
  destruct x as [s|s| |s m e]; intros H; unfold SF64div, SFdiv;
    rewrite ?xorb_false_r; try reflexivity.
  destruct (div_core_one m e H) as [-> | ->].
  - exact (round_canonical prec emax s m e H).
  - exact (round_shifted prec emax s m 1 e H).
Qed.

Lemma SFsub_zero (x : spec_float) : SF64sub x (S754_zero false) = x.
Proof. now destruct x as [[]|[]| |s m e]. Qed.

Lemma SFadd_zero (x : spec_float) :
  x <> S754_zero true -> SF64add x (S754_zero false) = x.
Proof. destruct x as [[]|[]| |s m e]; intros H; try reflexivity. now contradiction H. Qed.

(** ** The four operations on primitive floats *)

Lemma float_mul_1 (x : float) : (x * 1)%float = x.
Proof. apply Prim2SF_inj. rewrite mul_spec. apply SFmul_one, Prim2SF_valid. Qed.

Lemma float_div_1 (x : float) : (x / 1)%float = x.
Proof. apply Prim2SF_inj. rewrite div_spec. apply SFdiv_one, Prim2SF_valid. Qed.

Lemma float_sub_0 (x : float) : (x - 0)%float = x.
Proof. apply Prim2SF_inj. rewrite sub_spec. apply SFsub_zero. Qed.

Lemma float_add_0 (x : float) : x <> (-0)%float -> (x + 0)%float = x.
Proof.
  intros H. apply Prim2SF_inj. rewrite add_spec. apply SFadd_zero.
  intros E. apply H. apply Prim2SF_inj. rewrite E. reflexivity.
Qed.

Lemma float_add_0_eqb (x : float) : is_nan x = false -> (x + 0 =? x)%float = true.
Proof.
  unfold is_nan. rewrite !eqb_spec, add_spec. change (Prim2SF 0) with (S754_zero false).
  destruct (Prim2SF x) as [[]|[]| |s m e]; simpl; try reflexivity; try discriminate.
  all: intros H; apply negb_false_iff in H; exact H.
Qed.

(** ** Negation *)

(** Rounding does not look at the sign: the rounded value of the negated
    number is the negation of the rounded value. *)
Lemma binary_round_aux_opp (prec emax : Z) (s : bool) (m e : Z) (l : location) :
  binary_round_aux prec emax (negb s) m e l = SFopp (binary_round_aux prec emax s m e l).
Proof.
  unfold binary_round_aux. destruct (shr_fexp prec emax m e l) as [r e'].
  destruct (shr_fexp prec emax _ e' loc_Exact) as [r' e''].
  destruct (shr_m r'); [reflexivity | | reflexivity].
  destruct (e'' <=? emax - prec); reflexivity.
Qed.

Lemma SFmul_opp (prec emax : Z) (x y : spec_float) :
  SFmul prec emax (SFopp x) y = SFopp (SFmul prec emax x y).
Proof.
  destruct x as [sx|sx| |sx mx ex], y as [sy|sy| |sy my ey]; simpl;
    rewrite <- ?Bool.negb_xorb_l; try reflexivity.
  apply binary_round_aux_opp.
Qed.

Lemma SFdiv_opp (prec emax : Z) (x y : spec_float) :
  SFdiv prec emax (SFopp x) y = SFopp (SFdiv prec emax x y).
Proof.
  destruct x as [sx|sx| |sx mx ex], y as [sy|sy| |sy my ey]; simpl;
    rewrite <- ?Bool.negb_xorb_l; try reflexivity.
  destruct (SFdiv_core_binary prec emax (Z.pos mx) ex (Z.pos my) ey) as [[mz ez] lz].
  apply binary_round_aux_opp.
Qed.

Lemma float_mul_opp (x y : float) : (- x * y)%float = (- (x * y))%float.
Proof. apply Prim2SF_inj. rewrite opp_spec, !mul_spec, opp_spec. apply SFmul_opp. Qed.

Lemma float_div_opp (x y : float) : (- x / y)%float = (- (x / y))%float.
Proof. apply Prim2SF_inj. rewrite opp_spec, !div_spec, opp_spec. apply SFdiv_opp. Qed.

(** Adding the zero offset keeps the symmetry, except at zero: both zeros
    come out as the positive zero. *)
Lemma float_add_0_opp (w : float) :
  (- w + 0)%float = (- (w + 0))%float \/
  ((w + 0)%float = 0%float /\ (- w + 0)%float = 0%float).
Proof.
  destruct (Prim2SF w) as [s|s| |s m e] eqn:E.
  - right. rewrite <- (SF2Prim_Prim2SF w), E. destruct s; split; reflexivity.
  - left. apply Prim2SF_inj. rewrite opp_spec, !add_spec, opp_spec, E. reflexivity.
  - left. apply Prim2SF_inj. rewrite opp_spec, !add_spec, opp_spec, E. reflexivity.
  - left. apply Prim2SF_inj. rewrite opp_spec, !add_spec, opp_spec, E. reflexivity.
Qed.

(** ** NaN *)

Lemma float_nan_sub (y : float) : (nan - y)%float = nan.
Proof. apply Prim2SF_inj. now rewrite sub_spec. Qed.

Lemma float_nan_div (y : float) : (nan / y)%float = nan.
Proof. apply Prim2SF_inj. now rewrite div_spec. Qed.

Lemma float_nan_mul (y : float) : (nan * y)%float = nan.
Proof. apply Prim2SF_inj. now rewrite mul_spec. Qed.

Lemma float_nan_add (y : float) : (nan + y)%float = nan.
Proof. apply Prim2SF_inj. now rewrite add_spec. Qed.

(** ** Which operations can produce a NaN *)

Definition is_nanb (x : spec_float) : bool :=
  match x with S754_nan => true | _ => false end.

Definition finiteb (x : spec_float) : bool :=
  match x with S754_zero _ | S754_finite _ _ _ => true | _ => false end.

Definition finite_nonzerob (x : spec_float) : bool :=
  match x with S754_finite _ _ _ => true | _ => false end.

(** Not a NaN and not below zero: a zero of either sign, a positive number
    or the positive infinity. *)
Definition nonnegb (x : spec_float) : bool :=
  match x with
  | S754_zero _ | S754_infinity false | S754_finite false _ _ => true
  | _ => false
  end.

(** A positive number. *)
Definition positiveb (x : spec_float) : bool :=
  match x with S754_finite false _ _ => true | _ => false end.

Section NoNaN.
Variables prec emax : Z.

Lemma shr_1_nonneg (mrs : shr_record) : 0 <= shr_m mrs -> 0 <= shr_m (shr_1 mrs).
Proof. destruct mrs as [[|[p|p|]|p] r s]; simpl; lia. Qed.

Lemma iter_shr_1_nonneg (p : positive) (mrs : shr_record) :
  0 <= shr_m mrs -> 0 <= shr_m (iter_pos shr_1 p mrs).
Proof.
  intros H. rewrite iter_pos_iter.
  apply (Pos.iter_invariant p _ shr_1 (fun r => 0 <= shr_m r)); [|exact H].
  intros x. apply shr_1_nonneg.
Qed.

Lemma shr_nonneg (mrs : shr_record) (e n : Z) :
  0 <= shr_m mrs -> 0 <= shr_m (fst (shr mrs e n)).
Proof. destruct n; simpl; trivial. apply iter_shr_1_nonneg. Qed.

Lemma shr_record_of_loc_m (m : Z) (l : location) : shr_m (shr_record_of_loc m l) = m.
Proof. now destruct l as [|[]]. Qed.

Lemma round_nearest_even_nonneg (m : Z) (l : location) :
  0 <= m -> 0 <= round_nearest_even m l.
Proof. destruct l as [|[]]; simpl; try lia. destruct (Z.even m); lia. Qed.

Lemma binary_round_aux_not_nan (s : bool) (m e : Z) (l : location) :
  0 <= m -> is_nanb (binary_round_aux prec emax s m e l) = false.
Proof.
  intros Hm. unfold binary_round_aux, shr_fexp.
  pose proof (shr_nonneg (shr_record_of_loc m l) e
                (fexp prec emax (Zdigits2 m + e) - e)) as H1.
  rewrite shr_record_of_loc_m in H1. specialize (H1 Hm).
  destruct (shr (shr_record_of_loc m l) e _) as [mrs' e']. simpl in H1.
  set (m' := round_nearest_even (shr_m mrs') (loc_of_shr_record mrs')).
  assert (Hm' : 0 <= m') by now apply round_nearest_even_nonneg.
  pose proof (shr_nonneg (shr_record_of_loc m' loc_Exact) e'
                (fexp prec emax (Zdigits2 m' + e') - e')) as H2.
  simpl in H2. specialize (H2 Hm').
  destruct (shr _ e' _) as [mrs'' e'']. simpl in H2.
  destruct (shr_m mrs'') as [|q|q]; [reflexivity| |lia].
  now destruct (e'' <=? emax - prec).
Qed.

Lemma binary_normalize_not_nan (m e : Z) (z : bool) :
  is_nanb (binary_normalize prec emax m e z) = false.
Proof.
  destruct m as [|p|p]; simpl; [reflexivity| |]; unfold binary_round;
    destruct (shl_align _ _ _) as [mz ez]; now apply binary_round_aux_not_nan.
Qed.

Lemma SFmul_not_nan (x y : spec_float) :
  is_nanb x = false -> finite_nonzerob y = true -> is_nanb (SFmul prec emax x y) = false.
Proof.
  destruct x as [sx|sx| |sx mx ex], y as [sy|sy| |sy my ey]; try discriminate; intros _ _;
    try reflexivity.
  now apply binary_round_aux_not_nan.
Qed.

Lemma SFdiv_not_nan (x y : spec_float) :
  is_nanb x = false -> finite_nonzerob y = true -> is_nanb (SFdiv prec emax x y) = false.
Proof.
  destruct x as [sx|sx| |sx mx ex], y as [sy|sy| |sy my ey]; try discriminate; intros _ _;
    try reflexivity.
  unfold SFdiv, SFdiv_core_binary.
  set (m' := match _ with Z.pos _ => _ | 0 => _ | Z.neg _ => _ end).
  assert (Hm' : 0 <= m').
  { subst m'. destruct (_ - _ - _) as [|p|p]; try lia. apply Z.shiftl_nonneg. lia. }
  pose proof (Z_div_mod m' (Z.pos my) ltac:(lia)) as D.
  destruct (Z.div_eucl m' (Z.pos my)) as [q r]. destruct D as [E Hr].
  apply binary_round_aux_not_nan. nia.
Qed.

Lemma SFsub_not_nan (x y : spec_float) :
  is_nanb x = false -> finiteb y = true -> is_nanb (SFsub prec emax x y) = false.
Proof.
  destruct x as [sx|sx| |sx mx ex], y as [sy|sy| |sy my ey]; try discriminate; intros _ _;
    try reflexivity; try (now destruct sx, sy).
  apply binary_normalize_not_nan.
Qed.

Lemma SFadd_not_nan (x y : spec_float) :
  is_nanb x = false -> finiteb y = true -> is_nanb (SFadd prec emax x y) = false.
Proof.
  destruct x as [sx|sx| |sx mx ex], y as [sy|sy| |sy my ey]; try discriminate; intros _ _;
    try reflexivity; try (now destruct sx, sy).
  apply binary_normalize_not_nan.
Qed.

(** The sign of a rounded value is the sign given. *)
Lemma binary_round_aux_nonneg (m e : Z) (l : location) :
  0 <= m -> nonnegb (binary_round_aux prec emax false m e l) = true.
Proof.
  intros Hm. pose proof (binary_round_aux_not_nan false m e l Hm) as N. revert N.
  unfold binary_round_aux. destruct (shr_fexp prec emax m e l) as [r e'].
  destruct (shr_fexp prec emax _ e' loc_Exact) as [r' e''].
  destruct (shr_m r'); [reflexivity | | discriminate].
  now destruct (e'' <=? emax - prec).
Qed.

Lemma SFmul_nonneg (x y : spec_float) :
  nonnegb x = true -> positiveb y = true -> nonnegb (SFmul prec emax x y) = true.
Proof.
  destruct x as [sx|[]| |[] mx ex], y as [sy|sy| |[] my ey]; try discriminate; intros _ _;
    try reflexivity.
  now apply binary_round_aux_nonneg.
Qed.

Lemma SFdiv_nonneg (x y : spec_float) :
  nonnegb x = true -> positiveb y = true -> nonnegb (SFdiv prec emax x y) = true.
Proof.
  destruct x as [sx|[]| |[] mx ex], y as [sy|sy| |[] my ey]; try discriminate; intros _ _;
    try reflexivity.
  unfold SFdiv, SFdiv_core_binary.
  set (m' := match _ with Z.pos _ => _ | 0 => _ | Z.neg _ => _ end).
  assert (Hm' : 0 <= m').
  { subst m'. destruct (_ - _ - _) as [|p|p]; try lia. apply Z.shiftl_nonneg. lia. }
  pose proof (Z_div_mod m' (Z.pos my) ltac:(lia)) as D.
  destruct (Z.div_eucl m' (Z.pos my)) as [q r]. destruct D as [E Hr].
  apply binary_round_aux_nonneg. nia.
Qed.
End NoNaN.

Lemma SFeqb_refl (x : spec_float) : SFeqb x x = negb (is_nanb x).
Proof.
  destruct x as [s|s| |s m e]; try reflexivity; try (now destruct s).
  unfold SFeqb, SFcompare. rewrite Z.compare_refl, Pos.compare_cont_refl. now destruct s.
Qed.

Lemma is_nan_SF (x : float) : is_nan x = is_nanb (Prim2SF x).
Proof. unfold is_nan. rewrite eqb_spec, SFeqb_refl. apply negb_involutive. Qed.

(** On primitive floats: [a op b] is not a NaN when [a] is not and [b] is
    finite, and nonzero for [*] and [/]. *)
Lemma float_sub_not_nan (x y : float) :
  is_nan x = false -> finiteb (Prim2SF y) = true -> is_nan (x - y) = false.
Proof. rewrite !is_nan_SF, sub_spec. apply SFsub_not_nan. Qed.

Lemma float_add_not_nan (x y : float) :
  is_nan x = false -> finiteb (Prim2SF y) = true -> is_nan (x + y) = false.
Proof. rewrite !is_nan_SF, add_spec. apply SFadd_not_nan. Qed.

Lemma float_mul_not_nan (x y : float) :
  is_nan x = false -> finite_nonzerob (Prim2SF y) = true -> is_nan (x * y) = false.
Proof. rewrite !is_nan_SF, mul_spec. apply SFmul_not_nan. Qed.

Lemma float_div_not_nan (x y : float) :
  is_nan x = false -> finite_nonzerob (Prim2SF y) = true -> is_nan (x / y) = false.
Proof. rewrite !is_nan_SF, div_spec. apply SFdiv_not_nan. Qed.

Lemma is_nan_nan (x : float) : is_nan x = true -> x = nan.
Proof.
  rewrite is_nan_SF. intros H. apply Prim2SF_inj.
  destruct (Prim2SF x); try discriminate. reflexivity.
Qed.

(** The shapes in terms of the predicates of [PrimFloat]. *)
Lemma finiteb_is_finite (x : float) : finiteb (Prim2SF x) = true -> is_finite x = true.
Proof.
  unfold is_finite, is_infinity. rewrite is_nan_SF, eqb_spec, abs_spec.
  now destruct (Prim2SF x) as [s|s| |s m e].
Qed.

Lemma finite_nonzerob_is_zero (x : float) :
  finite_nonzerob (Prim2SF x) = true -> is_zero x = false.
Proof.
  unfold is_zero. rewrite eqb_spec.
  destruct (Prim2SF x) as [s|s| |s m e]; try discriminate. now destruct s.
Qed.

Lemma finite_nonzerob_finiteb (x : spec_float) : finite_nonzerob x = true -> finiteb x = true.
Proof. now destruct x. Qed.

(** ** Sign *)

Lemma leb_0_SF (x : float) : (0 <=? x)%float = nonnegb (Prim2SF x).
Proof.
  rewrite leb_spec. change (Prim2SF 0) with (S754_zero false).
  now destruct (Prim2SF x) as [[]|[]| |[] m e].
Qed.

Lemma float_mul_nonneg (x y : float) :
  (0 <=? x)%float = true -> positiveb (Prim2SF y) = true -> (0 <=? x * y)%float = true.
Proof. rewrite !leb_0_SF, mul_spec. apply SFmul_nonneg. Qed.

Lemma float_div_nonneg (x y : float) :
  (0 <=? x)%float = true -> positiveb (Prim2SF y) = true -> (0 <=? x / y)%float = true.
Proof. rewrite !leb_0_SF, div_spec. apply SFdiv_nonneg. Qed.

Lemma float_add_0_nonneg (x : float) :
  (0 <=? x)%float = true -> (0 <=? x + 0)%float = true.
Proof.
  rewrite !leb_0_SF, add_spec. change (Prim2SF 0) with (S754_zero false).
  now destruct (Prim2SF x) as [[]|[]| |[] m e].
Qed.

Create Rewrite HintDb float_laws.
#[export] Hint Rewrite float_sub_0 float_div_1 float_mul_1
  float_nan_sub float_nan_div float_nan_mul float_nan_add : float_laws.
