(* ===== verification/Engine.v ===== *)
(** * The conversion engine

    The class [Converter] of [base_class.py], which [src/Converters.py]
    instantiates once per table.  Its source is not part of the repository
    sources; the definitions follow the specification: an engine wraps one
    table from unit name to [(scale, offset)]; [convert] looks both names up,
    computes [base = (value - offset_from) / scale_from] and returns
    [base * scale_to + offset_to]; a name absent from the table is the error
    [UnknownUnit] that lists the offending name(s); [hasUnit] is membership
    and [listUnits] the names in table order.

    The engine is generic in its numbers (class [Num]): on primitive floats it
    is the program, on [Q] it is the exact specification.  [Converter_of] is
    the expression [Converter({...})]: it evaluates the entries of the dict
    display from left to right, stores them and wraps the dict.

    A table meets the interface [ExactTable] when its base unit has
    coefficients [(1, 0)] and no scale is zero; the algebraic theorems
    (there-and-back, composition, monotonicity) are proved against that
    interface, and each table file discharges it by computation through
    [exact_tableb].  Relations between two units of a table are checked by
    [relationb] (exactly) and [nearb] (up to [10^-d]); with a verdict
    recorded beside the relation ([verdictb], [near_verdictb]) the check
    decides it.  On floats the engine is the identity on a base unit, up to
    the sign of zero, carries a NaN through, is odd when the offsets are
    zero and keeps the sign when the scales are positive (section
    [FloatEngine]). *)

From Stdlib Require Import List String Bool ZArith QArith Qabs Lia Lqa Floats.
From Stdlib Require Import Morphisms Setoid.
From S2P Require Import Prelude PyDict PyNum FloatLaws.
Import ListNotations.
Local Open Scope res_scope.

Set Implicit Arguments.

(** ** Numbers *)

Class Num (A : Type) : Type := {
  num_sub : A -> A -> A;
  num_div : A -> A -> A;
  num_mul : A -> A -> A;
  num_add : A -> A -> A
}.

#[export] Instance Num_float : Num float := {|
  num_sub := PrimFloat.sub;
  num_div := PrimFloat.div;
  num_mul := PrimFloat.mul;
  num_add := PrimFloat.add
|}.

#[export] Instance Num_Q : Num Q := {|
  num_sub := Qminus;
  num_div := Qdiv;
  num_mul := Qmult;
  num_add := Qplus
|}.

(** ** The engine *)

Inductive error : Type :=
| UnknownUnit (names : list string).

Record Converter (A : Type) : Type := new { units : dict (A * A) }.

Arguments new {A} units.
Arguments units {A} c.

Section Engine.
Context {A : Type} {NA : Num A}.

Definition convert (c : Converter A) (value : A) (fromUnit toUnit : string)
  : result error A :=
  match dict_get fromUnit (units c), dict_get toUnit (units c) with
  | Some (scale_from, offset_from), Some (scale_to, offset_to) =>
      let base := num_div (num_sub value offset_from) scale_from in
      ok (num_add (num_mul base scale_to) offset_to)
  | None, Some _ => raise (UnknownUnit [fromUnit])
  | Some _, None => raise (UnknownUnit [toUnit])
  | None, None => raise (UnknownUnit [fromUnit; toUnit])
  end.

Definition hasUnit (c : Converter A) (name : string) : bool :=
  dict_mem name (units c).

Definition listUnits (c : Converter A) : list string :=
  dict_keys (units c).

(** The names among [fromUnit; toUnit] that the table lacks, in that order. *)
Definition unknown_names (c : Converter A) (fromUnit toUnit : string) : list string :=
  filter (fun n => negb (hasUnit c n)) [fromUnit; toUnit].

(** ** [convert] on every branch *)

Lemma hasUnit_get (c : Converter A) (u : string) :
  hasUnit c u = true <-> exists s o, dict_get u (units c) = Some (s, o).
Proof.
  unfold hasUnit. rewrite dict_mem_get. split.
  - intros ([s o] & H). eauto.
  - intros (s & o & H). eauto.
Qed.

Lemma hasUnit_false (c : Converter A) (u : string) :
  hasUnit c u = false <-> dict_get u (units c) = None.
Proof. unfold hasUnit, dict_mem. destruct (dict_get u (units c)); split; congruence. Qed.

Lemma hasUnit_listUnits (c : Converter A) (u : string) :
  hasUnit c u = true <-> In u (listUnits c).
Proof. apply dict_mem_In. Qed.

Lemma convert_known (c : Converter A) (x : A) (u v : string) (su ou sv ov : A) :
  dict_get u (units c) = Some (su, ou) ->
  dict_get v (units c) = Some (sv, ov) ->
  convert c x u v = inr (num_add (num_mul (num_div (num_sub x ou) su) sv) ov).
Proof. intros Hu Hv. unfold convert. now rewrite Hu, Hv. Qed.

(** The error lists exactly the unknown names, [fromUnit] first. *)
Lemma convert_unknown (c : Converter A) (x : A) (u v : string) :
  unknown_names c u v <> [] ->
  convert c x u v = inl (UnknownUnit (unknown_names c u v)).
Proof.
  unfold convert, unknown_names, hasUnit, dict_mem, raise. simpl.
  destruct (dict_get u (units c)) as [[su ou]|], (dict_get v (units c)) as [[sv ov]|];
    simpl; intros H; congruence.
Qed.

(** One unknown name beside a known one is reported alone, whichever side it
    is on. *)
Lemma convert_unknown_one (c : Converter A) (x : A) (u v : string) :
  hasUnit c u = false -> hasUnit c v = true ->
  convert c x u v = inl (UnknownUnit [u]) /\
  convert c x v u = inl (UnknownUnit [u]).
Proof.
  intros Hu Hv. split; rewrite convert_unknown; unfold unknown_names; simpl;
    rewrite ?Hu, ?Hv; simpl; congruence.
Qed.

Lemma convert_unknown_both (c : Converter A) (x : A) (u v : string) :
  hasUnit c u = false -> hasUnit c v = false ->
  convert c x u v = inl (UnknownUnit [u; v]).
Proof.
  intros Hu Hv. rewrite convert_unknown; unfold unknown_names; simpl;
    rewrite ?Hu, ?Hv; simpl; congruence.
Qed.

(** [convert] succeeds exactly when both names are in the table. *)
Lemma convert_is_ok (c : Converter A) (x : A) (u v : string) :
  is_ok (convert c x u v) = hasUnit c u && hasUnit c v.
Proof.
  unfold convert, hasUnit, dict_mem.
  now destruct (dict_get u (units c)) as [[su ou]|], (dict_get v (units c)) as [[sv ov]|].
Qed.

Lemma convert_inl (c : Converter A) (x : A) (u v : string) (e : error) :
  convert c x u v = inl e ->
  e = UnknownUnit (unknown_names c u v) /\ unknown_names c u v <> [].
Proof.
  unfold convert, unknown_names, hasUnit, dict_mem, raise, ok. simpl.
  destruct (dict_get u (units c)) as [[su ou]|], (dict_get v (units c)) as [[sv ov]|];
    simpl; intros H; inv H; split; congruence.
Qed.

(** Two names with the same entry are interchangeable, as source and as
    target, for every value and on every branch. *)
Lemma convert_synonym (c : Converter A) (u1 u2 : string) :
  dict_get u1 (units c) = dict_get u2 (units c) ->
  dict_get u1 (units c) <> None ->
  forall x v, convert c x u1 v = convert c x u2 v /\
              convert c x v u1 = convert c x v u2.
Proof.
  unfold convert. intros E Hne x v. rewrite <- E.
  destruct (dict_get u1 (units c)) as [[s o]|]; [|contradiction].
  split; [reflexivity|]. now destruct (dict_get v (units c)) as [[sv ov]|].
Qed.

(** [convert] reads the table and nothing else: two engines with the same
    lookups convert alike. *)
Lemma convert_ext (c c' : Converter A) :
  (forall u, dict_get u (units c) = dict_get u (units c')) ->
  forall x u v, convert c x u v = convert c' x u v.
Proof. intros H x u v. unfold convert. now rewrite !H. Qed.

End Engine.

(** ** Construction from a dict display *)

Section Construction.
Context {A : Type} (ev : pyexpr -> result pyerr A).

(** One entry [k: (scale, offset)]: scale first, then offset. *)
Definition eval_item (it : item) : result pyerr (string * (A * A)) :=
  s <- ev (fst (snd it)) ;; o <- ev (snd (snd it)) ;; ok (fst it, (s, o)).

(** [Converter({...})] *)
Definition Converter_of (items : list item) : result pyerr (Converter A) :=
  l <- mapM eval_item items ;; ok (new (dict_of_items l)).

Lemma eval_item_inr (it : item) (k : string) (c : A * A) :
  eval_item it = inr (k, c) <->
  k = fst it /\ ev (fst (snd it)) = inr (fst c) /\ ev (snd (snd it)) = inr (snd c).
Proof.
  unfold eval_item. rewrite bind_inr. split.
  - intros (s & Hs & H). apply bind_inr in H as (o & Ho & H). inv H. auto.
  - intros (-> & Hs & Ho). exists (fst c). split; [assumption|].
    rewrite Ho. destruct c. reflexivity.
Qed.

Lemma mapM_eval_item_keys (items : list item) (l : list (string * (A * A))) :
  mapM eval_item items = inr l -> map fst l = map fst items.
Proof.
  rewrite mapM_Forall2. induction 1 as [|it [k c] items l H _ IH]; [reflexivity|].
  apply eval_item_inr in H as (-> & _). simpl. now rewrite IH.
Qed.

(** The engine's table is well formed whatever the display. *)
Lemma Converter_of_wf (items : list item) (c : Converter A) :
  Converter_of items = inr c -> dict_wf (units c).
Proof.
  unfold Converter_of. rewrite bind_inr. intros (l & _ & H). inv H.
  apply dict_of_items_wf.
Qed.

(** With distinct names in the display, [listUnits] is the names as written. *)
Lemma Converter_of_listUnits (items : list item) (c : Converter A) :
  NoDup (map fst items) ->
  Converter_of items = inr c -> listUnits c = map fst items.
Proof.
  unfold Converter_of. rewrite bind_inr. intros Hnd (l & Hl & H). inv H.
  apply mapM_eval_item_keys in Hl as Hk. unfold listUnits. simpl.
  rewrite dict_of_items_distinct by now rewrite Hk. exact Hk.
Qed.

(** With distinct names, the lookup of a name is the value of its entry. *)
Lemma Converter_of_get (items : list item) (c : Converter A) (k : string) (es eo : pyexpr) :
  NoDup (map fst items) ->
  Converter_of items = inr c ->
  In (k, (es, eo)) items ->
  exists s o, ev es = inr s /\ ev eo = inr o /\ dict_get k (units c) = Some (s, o).
Proof.
  unfold Converter_of. rewrite bind_inr. intros Hnd (l & Hl & H) Hin. inv H.
  apply mapM_eval_item_keys in Hl as Hk.
  destruct (mapM_In _ _ _ Hl Hin) as ([k' [s o]] & Hit & Hin').
  apply eval_item_inr in Hit as (-> & Hs & Ho). simpl in *.
  exists s, o. repeat split; [assumption..|].
  rewrite dict_of_items_distinct by now rewrite Hk.
  apply dict_get_In; [|assumption]. unfold dict_wf, dict_keys. now rewrite Hk.
Qed.

(** Conversely, every coefficient of the engine is the value of an entry. *)
Lemma Converter_of_get_inv (items : list item) (c : Converter A) (k : string) (s o : A) :
  NoDup (map fst items) ->
  Converter_of items = inr c ->
  dict_get k (units c) = Some (s, o) ->
  exists es eo, In (k, (es, eo)) items /\ ev es = inr s /\ ev eo = inr o.
Proof.
  unfold Converter_of. rewrite bind_inr. intros Hnd (l & Hl & H) Hget. inv H.
  apply mapM_eval_item_keys in Hl as Hk. simpl in Hget.
  rewrite dict_of_items_distinct in Hget by now rewrite Hk.
  apply dict_get_Some_In in Hget.
  destruct (mapM_In_inv _ _ _ Hl Hget) as ([k' [es eo]] & Hit & Hin).
  apply eval_item_inr in Hit as (-> & Hs & Ho). simpl in *. eauto.
Qed.

(** Two names written with the same coefficients in the display have the
    same entry in the engine. *)
Lemma Converter_of_same_entry (items : list item) (c : Converter A) (u1 u2 : string)
    (e : coef_expr) :
  NoDup (map fst items) ->
  Converter_of items = inr c ->
  In (u1, e) items -> In (u2, e) items ->
  dict_get u1 (units c) = dict_get u2 (units c) /\ dict_get u1 (units c) <> None.
Proof.
  intros Hnd Hc H1 H2. destruct e as [es eo].
  destruct (Converter_of_get items u1 es eo Hnd Hc H1) as (s & o & Hs & Ho & G1).
  destruct (Converter_of_get items u2 es eo Hnd Hc H2) as (s' & o' & Hs' & Ho' & G2).
  rewrite Hs in Hs'. rewrite Ho in Ho'. inv Hs'. inv Ho'.
  rewrite G1, G2. split; [reflexivity | discriminate].
Qed.

(** Construction succeeds exactly when every coefficient evaluates. *)
Lemma Converter_of_is_ok (items : list item) :
  is_ok (Converter_of items) =
  forallb (fun it => is_ok (ev (fst (snd it))) && is_ok (ev (snd (snd it)))) items.
Proof.
  unfold Converter_of. transitivity (is_ok (mapM eval_item items)).
  - now destruct (mapM eval_item items).
  - rewrite mapM_is_ok. apply forallb_ext. intros [k [es eo]]. unfold eval_item. simpl.
    destruct (ev es), (ev eo); reflexivity.
Qed.

End Construction.

(** ** Synonyms *)

(** [synonymsb items syn]: both names of every pair of [syn] are written in
    the display, with the same coefficient expressions. *)
Definition synonymsb (items : list item) (syn : list (string * string)) : bool :=
  forallb (fun p =>
    match dict_get (fst p) items, dict_get (snd p) items with
    | Some e1, Some e2 => coef_eqb e1 e2
    | _, _ => false
    end) syn.

(** Synonyms convert alike, as source and as target, for every value and on
    every branch. *)
Lemma synonymsb_sound {A : Type} {NA : Num A} (ev : pyexpr -> result pyerr A)
    (items : list item) (syn : list (string * string)) (c : Converter A) :
  NoDup (map fst items) ->
  Converter_of ev items = inr c ->
  synonymsb items syn = true ->
  forall p, In p syn ->
  forall x v, convert c x (fst p) v = convert c x (snd p) v /\
              convert c x v (fst p) = convert c x v (snd p).
Proof.
  intros Hnd Hc Hsyn p Hin.
  apply (forallb_In _ _ _ Hsyn) in Hin.
  destruct (dict_get (fst p) items) as [e1|] eqn:E1; [|discriminate].
  destruct (dict_get (snd p) items) as [e2|] eqn:E2; [|discriminate].
  apply coef_eqb_eq in Hin as <-.
  apply dict_get_Some_In in E1, E2.
  destruct (Converter_of_same_entry ev items (fst p) (snd p) e1 Hnd Hc E1 E2) as [E Hne].
  now apply convert_synonym.
Qed.

(** The program's engine and its exact specification, from the same display. *)
Definition Converter_float : list item -> result pyerr (Converter float) :=
  Converter_of eval_float.

Definition Converter_exact : list item -> result pyerr (Converter Q) :=
  Converter_of exact.

(** ** The two engines of one display agree on names and on errors *)

Section SameDisplay.
Context {A B : Type} {NA : Num A} {NB : Num B}.
Context (eva : pyexpr -> result pyerr A) (evb : pyexpr -> result pyerr B).
Context (items : list item) (ca : Converter A) (cb : Converter B).
Context (Ha : Converter_of eva items = inr ca) (Hb : Converter_of evb items = inr cb).

Lemma same_listUnits : listUnits ca = listUnits cb.
Proof.
  unfold Converter_of in Ha, Hb.
  apply bind_inr in Ha as (la & Hla & Hca). apply bind_inr in Hb as (lb & Hlb & Hcb).
  inv Hca. inv Hcb. unfold listUnits. simpl.
  apply dict_keys_of_items_congr.
  now rewrite (mapM_eval_item_keys _ _ Hla), (mapM_eval_item_keys _ _ Hlb).
Qed.

Lemma same_hasUnit (u : string) : hasUnit ca u = hasUnit cb u.
Proof.
  apply eq_true_iff_eq. rewrite !hasUnit_listUnits, same_listUnits. reflexivity.
Qed.

Lemma same_unknown_names (u v : string) : unknown_names ca u v = unknown_names cb u v.
Proof. unfold unknown_names. simpl. now rewrite !same_hasUnit. Qed.

(** A conversion fails in one engine exactly when it fails in the other, and
    with the same error. *)
Lemma same_errors (x : A) (y : B) (u v : string) (e : error) :
  convert ca x u v = inl e <-> convert cb y u v = inl e.
Proof.
  split; intros H; apply convert_inl in H as [-> Hne].
  - rewrite same_unknown_names in *. now apply convert_unknown.
  - rewrite <- same_unknown_names in *. now apply convert_unknown.
Qed.

Lemma same_is_ok (x : A) (y : B) (u v : string) :
  is_ok (convert ca x u v) = is_ok (convert cb y u v).
Proof. now rewrite !convert_is_ok, !same_hasUnit. Qed.
End SameDisplay.

(** ** Results over [Q], up to [==] *)

Definition res_eq (r1 r2 : result error Q) : Prop :=
  match r1, r2 with
  | inl e1, inl e2 => e1 = e2
  | inr x, inr y => x == y
  | _, _ => False
  end.

Infix "=r=" := res_eq (at level 70, no associativity).

#[export] Instance res_eq_Equivalence : Equivalence res_eq.
Proof.
  split.
  - intros [e|x]; simpl; reflexivity.
  - intros [e|x] [e'|y]; simpl; auto. intros H. now symmetry.
  - intros [e|x] [e'|y] [e''|z]; simpl; try tauto; try congruence.
    intros H1 H2. now rewrite H1.
Qed.

Lemma res_eq_inr (r : result error Q) (x : Q) :
  r =r= inr x <-> exists y, r = inr y /\ y == x.
Proof.
  destruct r as [e|y]; simpl; split; try tauto.
  - intros (y & H & _). discriminate.
  - eauto.
  - intros (y' & H & Hy). now inv H.
Qed.

#[export] Instance convert_Proper (c : Converter Q) :
  Proper (Qeq ==> eq ==> eq ==> res_eq) (convert c).
Proof.
  intros x x' Hx u ? <- v ? <-. unfold convert.
  destruct (dict_get u (units c)) as [[su ou]|], (dict_get v (units c)) as [[sv ov]|];
    simpl; try reflexivity.
  now rewrite Hx.
Qed.

(** ** The interface of a table *)

Class ExactTable (c : Converter Q) (base : string) : Prop := {
  table_base : exists s o, dict_get base (units c) = Some (s, o) /\ s == 1 /\ o == 0;
  table_scale : forall u s o, dict_get u (units c) = Some (s, o) -> ~ s == 0
}.

Definition exact_tableb (c : Converter Q) (base : string) : bool :=
  match dict_get base (units c) with
  | Some (s, o) => Qeq_bool s 1 && Qeq_bool o 0
  | None => false
  end &&
  forallb (fun kv => negb (Qeq_bool (fst (snd kv)) 0)) (units c).

Lemma exact_tableb_sound (c : Converter Q) (base : string) :
  exact_tableb c base = true -> ExactTable c base.
Proof.
  unfold exact_tableb. rewrite andb_true_iff. intros [Hb Hs]. split.
  - destruct (dict_get base (units c)) as [[s o]|]; [|discriminate].
    apply andb_true_iff in Hb as [H1 H0]. exists s, o.
    split; [reflexivity|]. split; now apply Qeq_bool_eq.
  - intros u s o Hu Hz. apply dict_get_Some_In in Hu.
    apply (forallb_In _ _ _ Hs) in Hu. simpl in Hu.
    apply negb_true_iff in Hu. apply Qeq_eq_bool in Hz. congruence.
Qed.

(** The scales of [u] and [v] have opposite signs. *)
Definition reversedb (c : Converter Q) (u v : string) : bool :=
  match dict_get u (units c), dict_get v (units c) with
  | Some (su, _), Some (sv, _) => negb (Qle_bool 0 (su * sv))
  | _, _ => false
  end.

(** ** The algebra of exact conversion *)

Lemma Qabs_pos (q : Q) : ~ q == 0 -> 0 < Qabs q.
Proof.
  intros H. apply Qabs_case; intros Hq; lra.
Qed.

(** A quotient has the sign of the product. *)
Lemma Qdiv_pos_of_mul_pos (a b : Q) : 0 < a * b -> ~ a == 0 /\ 0 < b / a.
Proof.
  intros H. assert (Ha : ~ a == 0) by (intros E; rewrite E in H; lra).
  split; [assumption|].
  setoid_replace (b / a) with (a * b * (/ a * / a)) by (field; assumption).
  apply Qmult_lt_0_compat; [assumption|].
  destruct (Q_dec a 0) as [[Hlt|Hgt]|Heq]; [| |contradiction].
  - setoid_replace (/ a * / a) with (/ - a * / - a) by (field; assumption).
    assert (0 < / - a) by (apply Qinv_lt_0_compat; lra).
    now apply Qmult_lt_0_compat.
  - assert (0 < / a) by now apply Qinv_lt_0_compat.
    now apply Qmult_lt_0_compat.
Qed.

Section Exact.
Context (c : Converter Q) (base : string) {T : ExactTable c base}.

Lemma known_unit (u : string) :
  hasUnit c u = true ->
  exists s o, dict_get u (units c) = Some (s, o) /\ ~ s == 0.
Proof.
  intros H. apply hasUnit_get in H as (s & o & H).
  exists s, o. split; [assumption | eapply table_scale, H].
Qed.

Lemma base_unit : hasUnit c base = true.
Proof. destruct table_base as (s & o & H & _). apply hasUnit_get. eauto. Qed.

(** [convert] is the affine map [x * (sv / su) + (ov - ou * sv / su)]. *)
Lemma convert_affine (x : Q) (u v : string) (su ou sv ov : Q) :
  dict_get u (units c) = Some (su, ou) ->
  dict_get v (units c) = Some (sv, ov) ->
  convert c x u v =r= ok (x * (sv / su) + (ov - ou * (sv / su))).
Proof.
  intros Hu Hv. rewrite (convert_known _ _ _ _ Hu Hv). simpl.
  assert (~ su == 0) by (eapply table_scale, Hu). field. assumption.
Qed.

(** There and back is the identity. *)
Lemma convert_round_trip (x : Q) (u v : string) :
  hasUnit c u = true -> hasUnit c v = true ->
  (y <- convert c x u v ;; convert c y v u) =r= ok x.
Proof.
  intros Hu Hv.
  apply known_unit in Hu as (su & ou & Hu & Hsu), Hv as (sv & ov & Hv & Hsv).
  rewrite (convert_known _ _ _ _ Hu Hv). simpl.
  rewrite (convert_known _ _ _ _ Hv Hu). simpl. field. auto.
Qed.

(** Conversions compose: through any intermediate unit the result is the same. *)
Lemma convert_compose (x : Q) (u v w : string) :
  hasUnit c u = true -> hasUnit c v = true -> hasUnit c w = true ->
  (y <- convert c x u v ;; convert c y v w) =r= convert c x u w.
Proof.
  intros Hu Hv Hw.
  apply known_unit in Hu as (su & ou & Hu & Hsu), Hv as (sv & ov & Hv & Hsv),
    Hw as (sw & ow & Hw & Hsw).
  rewrite (convert_known _ _ _ _ Hu Hv). simpl.
  rewrite (convert_known _ _ _ _ Hv Hw), (convert_known _ _ _ _ Hu Hw). simpl.
  field. auto.
Qed.

(** Converting a unit to itself changes nothing. *)
Lemma convert_same_unit (x : Q) (u : string) :
  hasUnit c u = true -> convert c x u u =r= ok x.
Proof.
  intros Hu. apply known_unit in Hu as (su & ou & Hu & Hsu).
  rewrite (convert_known _ _ _ _ Hu Hu). simpl. field. auto.
Qed.

(** The coefficients of a unit are the affine map from the base unit. *)
Lemma convert_from_base (x : Q) (u : string) (s o : Q) :
  dict_get u (units c) = Some (s, o) ->
  convert c x base u =r= ok (x * s + o).
Proof.
  intros Hu. destruct table_base as (sb & ob & Hb & Hsb & Hob).
  rewrite (convert_known _ _ _ _ Hb Hu). simpl. rewrite Hsb, Hob. field.
Qed.

Lemma convert_to_base (x : Q) (u : string) (s o : Q) :
  dict_get u (units c) = Some (s, o) ->
  convert c x u base =r= ok ((x - o) / s).
Proof.
  intros Hu. destruct table_base as (sb & ob & Hb & Hsb & Hob).
  rewrite (convert_known _ _ _ _ Hu Hb). simpl. rewrite Hsb, Hob.
  assert (~ s == 0) by (eapply table_scale, Hu). field. assumption.
Qed.

(** Distinct values convert to distinct values. *)
Lemma convert_injective (x x' y y' : Q) (u v : string) :
  convert c x u v = inr y -> convert c x' u v = inr y' -> y == y' -> x == x'.
Proof.
  intros H H' Hy.
  assert (Hu : hasUnit c u = true /\ hasUnit c v = true).
  { apply andb_true_iff. rewrite <- (convert_is_ok c x u v), H. reflexivity. }
  destruct Hu as [Hu Hv].
  pose proof (convert_round_trip x u v Hu Hv) as R. rewrite H in R.
  pose proof (convert_round_trip x' u v Hu Hv) as R'. rewrite H' in R'.
  change (ok x =r= ok x').
  etransitivity; [symmetry; exact R|]. etransitivity; [|exact R'].
  now apply convert_Proper.
Qed.

(** Scales of the same sign keep the order of values; scales of opposite
    signs reverse it. *)
Lemma convert_monotone (x x' y y' : Q) (u v : string) (su ou sv ov : Q) :
  dict_get u (units c) = Some (su, ou) ->
  dict_get v (units c) = Some (sv, ov) ->
  0 < su * sv ->
  convert c x u v = inr y -> convert c x' u v = inr y' ->
  x < x' -> y < y'.
Proof.
  intros Hu Hv Hs H H' Hx.
  rewrite (convert_known _ _ _ _ Hu Hv) in H. rewrite (convert_known _ _ _ _ Hu Hv) in H'.
  inv H. inv H'. simpl.
  destruct (Qdiv_pos_of_mul_pos Hs) as [Hsu Hr].
  setoid_replace ((x - ou) / su * sv + ov) with ((x - ou) * (sv / su) + ov)
    by (field; assumption).
  setoid_replace ((x' - ou) / su * sv + ov) with ((x' - ou) * (sv / su) + ov)
    by (field; assumption).
  apply Qplus_lt_l, Qmult_lt_compat_r; [assumption | lra].
Qed.

Lemma convert_antitone (x x' y y' : Q) (u v : string) (su ou sv ov : Q) :
  dict_get u (units c) = Some (su, ou) ->
  dict_get v (units c) = Some (sv, ov) ->
  su * sv < 0 ->
  convert c x u v = inr y -> convert c x' u v = inr y' ->
  x < x' -> y' < y.
Proof.
  intros Hu Hv Hs H H' Hx.
  rewrite (convert_known _ _ _ _ Hu Hv) in H. rewrite (convert_known _ _ _ _ Hu Hv) in H'.
  inv H. inv H'. simpl.
  assert (Hs' : 0 < su * - sv) by lra.
  destruct (Qdiv_pos_of_mul_pos Hs') as [Hsu Hr].
  assert (Hm : (x - ou) * (- sv / su) < (x' - ou) * (- sv / su))
    by (apply Qmult_lt_compat_r; [assumption | lra]).
  setoid_replace ((x - ou) / su * sv + ov) with (ov - (x - ou) * (- sv / su))
    by (field; assumption).
  setoid_replace ((x' - ou) / su * sv + ov) with (ov - (x' - ou) * (- sv / su))
    by (field; assumption).
  lra.
Qed.

(** The same two laws with the results produced rather than assumed. *)
Lemma convert_order (x x' : Q) (u v : string) (su ou sv ov : Q) :
  dict_get u (units c) = Some (su, ou) ->
  dict_get v (units c) = Some (sv, ov) ->
  ~ su * sv == 0 ->
  x < x' ->
  exists y y', convert c x u v = inr y /\ convert c x' u v = inr y' /\
               if Qlt_le_dec 0 (su * sv) then y < y' else y' < y.
Proof.
  intros Hu Hv Hs Hx.
  pose proof (convert_known c x u v Hu Hv) as Hy.
  pose proof (convert_known c x' u v Hu Hv) as Hy'.
  eexists _, _. split; [exact Hy|]. split; [exact Hy'|].
  destruct (Qlt_le_dec 0 (su * sv)) as [Hpos|Hneg].
  - exact (convert_monotone u v Hu Hv Hpos Hy Hy' Hx).
  - refine (convert_antitone u v Hu Hv _ Hy Hy' Hx).
    destruct (Qle_lt_or_eq _ _ Hneg) as [Hlt|Heq]; [assumption | contradiction].
Qed.

(** In a table whose scales are all positive, a larger value converts to a
    larger value. *)
Lemma convert_increasing (x x' : Q) (u v : string) :
  (forall w s o, dict_get w (units c) = Some (s, o) -> 0 < s) ->
  hasUnit c u = true -> hasUnit c v = true -> x < x' ->
  exists y y', convert c x u v = inr y /\ convert c x' u v = inr y' /\ y < y'.
Proof.
  intros Hpos Hu Hv Hx.
  apply hasUnit_get in Hu as (su & ou & Hu), Hv as (sv & ov & Hv).
  pose proof (Hpos _ _ _ Hu) as Psu. pose proof (Hpos _ _ _ Hv) as Psv.
  assert (Hs : 0 < su * sv) by now apply Qmult_lt_0_compat.
  eexists _, _. split; [exact (convert_known c x u v Hu Hv)|].
  split; [exact (convert_known c x' u v Hu Hv)|].
  exact (convert_monotone u v Hu Hv Hs (convert_known c x u v Hu Hv)
           (convert_known c x' u v Hu Hv) Hx).
Qed.

(** Between two units whose scales have opposite signs, a larger value
    converts to a smaller value. *)
Lemma reversedb_sound (x x' : Q) (u v : string) :
  reversedb c u v = true -> x < x' ->
  exists y y', convert c x u v = inr y /\ convert c x' u v = inr y' /\ y' < y.
Proof.
  unfold reversedb. intros H Hx.
  destruct (dict_get u (units c)) as [[su ou]|] eqn:Hu; [|discriminate].
  destruct (dict_get v (units c)) as [[sv ov]|] eqn:Hv; [|discriminate].
  apply negb_true_iff in H.
  assert (Hs : su * sv < 0).
  { apply Qnot_le_lt. intros Hle. apply Qle_bool_iff in Hle. congruence. }
  eexists _, _. split; [exact (convert_known c x u v Hu Hv)|].
  split; [exact (convert_known c x' u v Hu Hv)|].
  exact (convert_antitone u v Hu Hv Hs (convert_known c x u v Hu Hv)
           (convert_known c x' u v Hu Hv) Hx).
Qed.
End Exact.

(** ** Float coefficients against exact coefficients *)

(** Every coefficient of the display evaluates, as a float and exactly, and
    the float is within [2^-k] of the exact value. *)
Definition accurate_display (k : Z) (items : list item) : bool :=
  forallb (fun it => accurate k (fst (snd it)) && accurate k (snd (snd it))) items.

Lemma accurate_inv (k : Z) (a : pyexpr) (f : float) :
  accurate k a = true -> eval_float a = inr f ->
  exists q, exact a = inr q /\ approx k f q = true.
Proof.
  unfold accurate. intros H Hf. rewrite Hf in H.
  destruct (exact a) as [e|q]; [discriminate | eauto].
Qed.

(** The float engine's table refines the exact engine's table coefficient by
    coefficient. *)
Lemma accurate_display_sound (k : Z) (items : list item)
    (cf : Converter float) (cq : Converter Q) :
  NoDup (map fst items) ->
  accurate_display k items = true ->
  Converter_float items = inr cf ->
  Converter_exact items = inr cq ->
  forall u s o, dict_get u (units cf) = Some (s, o) ->
  exists s' o', dict_get u (units cq) = Some (s', o') /\
                approx k s s' = true /\ approx k o o' = true.
Proof.
  intros Hnd Hacc Hf Hq u s o Hu.
  destruct (Converter_of_get_inv _ _ _ Hnd Hf Hu) as (es & eo & Hin & Hs & Ho).
  apply (forallb_In _ _ _ Hacc) in Hin as Hit. simpl in Hit.
  apply andb_true_iff in Hit as [Has Hao].
  destruct (accurate_inv _ _ Has Hs) as (s' & Hs' & Hss).
  destruct (accurate_inv _ _ Hao Ho) as (o' & Ho' & Hoo).
  destruct (Converter_of_get _ _ _ _ _ Hnd Hq Hin) as (s2 & o2 & E1 & E2 & Hget).
  rewrite Hs' in E1. rewrite Ho' in E2. inv E1. inv E2. eauto.
Qed.

(** ** Tables without offsets *)

(** Every table but [Temperature] has offset 0 in every entry: its
    conversions are linear. *)
Class OffsetFree (c : Converter Q) : Prop :=
  offset_zero : forall u s o, dict_get u (units c) = Some (s, o) -> o == 0.

Definition offset_freeb (c : Converter Q) : bool :=
  forallb (fun kv => Qeq_bool (snd (snd kv)) 0) (units c).

Lemma offset_freeb_sound (c : Converter Q) : offset_freeb c = true -> OffsetFree c.
Proof.
  intros H u s o Hu. apply dict_get_Some_In in Hu.
  apply (forallb_In _ _ _ H) in Hu. now apply Qeq_bool_eq.
Qed.

(** Every scale of the table is positive. *)
Definition positive_scalesb (c : Converter Q) : bool :=
  forallb (fun kv => negb (Qle_bool (fst (snd kv)) 0)) (units c).

Lemma positive_scalesb_sound (c : Converter Q) :
  positive_scalesb c = true ->
  forall u s o, dict_get u (units c) = Some (s, o) -> 0 < s.
Proof.
  intros H u s o Hu. apply dict_get_Some_In in Hu.
  apply (forallb_In _ _ _ H) in Hu. simpl in Hu. apply negb_true_iff in Hu.
  apply Qnot_le_lt. intros Hle. apply Qle_bool_iff in Hle. congruence.
Qed.

(** A stated relation between two units, "one [u] is [k] [v]", checked
    against the table: the scale of [v] is [k] times the scale of [u]. *)
Definition relationb (c : Converter Q) (r : string * Q * string) : bool :=
  match dict_get (fst (fst r)) (units c), dict_get (snd r) (units c) with
  | Some (su, _), Some (sv, _) => Qeq_bool sv (snd (fst r) * su)
  | _, _ => false
  end.

(** A relation as a comment of the source states it, with a verdict: [true]
    when the coefficients of the table meet it, [false] when they do not.
    Both units are units of the table either way. *)
Definition verdictb (c : Converter Q) (r : string * Q * string * bool) : bool :=
  hasUnit c (fst (fst (fst r))) && hasUnit c (snd (fst r)) &&
  Bool.eqb (relationb c (fst r)) (snd r).

(** A relation "one [u] is [k] [v]" up to a relative error [10^-d], with a
    verdict: the scale of [v] is [k] times the scale of [u] within [10^-d]
    of itself. *)
Definition nearb (d : Z) (c : Converter Q) (r : string * Q * string) : bool :=
  match dict_get (fst (fst r)) (units c), dict_get (snd r) (units c) with
  | Some (su, _), Some (sv, _) => Qle_bool (Qabs (sv - snd (fst r) * su) * 10 ^ d) (Qabs sv)
  | _, _ => false
  end.

Definition near_verdictb (d : Z) (c : Converter Q) (r : string * Q * string * bool) : bool :=
  hasUnit c (fst (fst (fst r))) && hasUnit c (snd (fst r)) &&
  Bool.eqb (nearb d c (fst r)) (snd r).

(** A unit of a derived quantity beside the unit of length it is a power of:
    the scale of the derived unit [snd p] of [cd] is the scale of the
    reference unit [ref] of [cd] times the [n]-th power of the scale of the
    length [fst p] of [cl]. *)
Definition dimensionb (n : positive) (cl cd : Converter Q) (ref : string)
    (p : string * string) : bool :=
  match dict_get (fst p) (units cl), dict_get (snd p) (units cd), dict_get ref (units cd) with
  | Some (sl, _), Some (sd, _), Some (k, _) => Qeq_bool sd (k * Qpower_positive sl n)
  | _, _, _ => false
  end.

Section Linear.
Context (c : Converter Q) (base : string) {T : ExactTable c base} {F : OffsetFree c}.

(** A conversion multiplies by the ratio of the scales. *)
Lemma convert_ratio (x : Q) (u v : string) (su ou sv ov : Q) :
  dict_get u (units c) = Some (su, ou) ->
  dict_get v (units c) = Some (sv, ov) ->
  convert c x u v =r= ok (x * (sv / su)).
Proof.
  intros Hu Hv. rewrite (convert_affine (base := base) x u v Hu Hv). simpl.
  rewrite (offset_zero _ Hu), (offset_zero _ Hv). field.
  eapply table_scale, Hu.
Qed.

(** Scaling the value scales the result. *)
Lemma convert_linear (k x : Q) (u v : string) :
  hasUnit c u = true -> hasUnit c v = true ->
  exists y, convert c x u v = inr y /\ convert c (k * x) u v =r= ok (k * y).
Proof.
  intros Hu Hv.
  apply hasUnit_get in Hu as (su & ou & Hu), Hv as (sv & ov & Hv).
  pose proof (convert_ratio x u v Hu Hv) as R. apply res_eq_inr in R as (y & Hy & Ey).
  exists y. split; [assumption|].
  rewrite (convert_ratio (k * x) u v Hu Hv). simpl. rewrite Ey. ring.
Qed.

(** Zero converts to zero. *)
Lemma convert_zero (u v : string) :
  hasUnit c u = true -> hasUnit c v = true -> convert c 0 u v =r= ok 0.
Proof.
  intros Hu Hv.
  apply hasUnit_get in Hu as (su & ou & Hu), Hv as (sv & ov & Hv).
  rewrite (convert_ratio 0 u v Hu Hv). simpl. ring.
Qed.

(** A relation [(u, k, v)], "one [u] is [k] [v]", holds in the table when the
    scale of [v] is [k] times the scale of [u]. *)
Lemma relationb_sound (r : string * Q * string) (x : Q) :
  relationb c r = true ->
  convert c x (fst (fst r)) (snd r) =r= ok (snd (fst r) * x).
Proof.
  destruct r as [[u k] v]. unfold relationb. simpl.
  destruct (dict_get u (units c)) as [[su ou]|] eqn:Hu; [|discriminate].
  destruct (dict_get v (units c)) as [[sv ov]|] eqn:Hv; [|discriminate].
  intros E. apply Qeq_bool_eq in E.
  rewrite (convert_ratio x u v Hu Hv). simpl. rewrite E. field.
  eapply table_scale, Hu.
Qed.

Lemma relationsb_sound (rels : list (string * Q * string)) (r : string * Q * string) (x : Q) :
  forallb (relationb c) rels = true -> In r rels ->
  convert c x (fst (fst r)) (snd r) =r= ok (snd (fst r) * x).
Proof. intros H Hin. apply relationb_sound. exact (forallb_In _ _ _ H Hin). Qed.

(** Conversely, a relation that holds of one nonzero value holds of the
    coefficients. *)
Lemma relationb_complete (r : string * Q * string) (x : Q) :
  ~ x == 0 ->
  convert c x (fst (fst r)) (snd r) =r= ok (snd (fst r) * x) ->
  relationb c r = true.
Proof.
  destruct r as [[u k] v]. unfold relationb. simpl. intros Hx H.
  destruct (dict_get u (units c)) as [[su ou]|] eqn:Hu;
    [|unfold convert in H; rewrite Hu in H; destruct (dict_get v (units c)); destruct H].
  destruct (dict_get v (units c)) as [[sv ov]|] eqn:Hv;
    [|unfold convert in H; rewrite Hu, Hv in H; destruct H].
  rewrite (convert_ratio x u v Hu Hv) in H. simpl in H.
  assert (Hsu : ~ su == 0) by (eapply table_scale, Hu).
  apply Qeq_eq_bool.
  setoid_replace sv with (x * (sv / su) * (su / x)) by (field; split; assumption).
  rewrite H. field. assumption.
Qed.

(** The verdict of a stated relation is right: the relation holds of every
    nonzero value when the verdict is [true], and of none when it is
    [false]. *)
Lemma verdictb_sound (rels : list (string * Q * string * bool))
    (r : string * Q * string) (b : bool) (x : Q) :
  forallb (verdictb c) rels = true -> In (r, b) rels -> ~ x == 0 ->
  (convert c x (fst (fst r)) (snd r) =r= ok (snd (fst r) * x)) <-> b = true.
Proof.
  intros H Hin Hx. pose proof (forallb_In _ _ _ H Hin) as V.
  unfold verdictb in V. simpl in V. apply andb_true_iff in V as [_ V].
  apply Bool.eqb_prop in V. rewrite <- V. split.
  - now apply relationb_complete.
  - apply relationb_sound.
Qed.

(** A relation up to [10^-d]: the conversion is within [10^-d] of itself of
    the stated multiple, for every nonzero value, exactly when [nearb] says
    so. *)
Lemma nearb_iff (d : Z) (r : string * Q * string) (x : Q) :
  ~ x == 0 ->
  hasUnit c (fst (fst r)) = true -> hasUnit c (snd r) = true ->
  (exists y, convert c x (fst (fst r)) (snd r) = inr y /\
             Qabs (y - snd (fst r) * x) * 10 ^ d <= Qabs y) <-> nearb d c r = true.
Proof.
  destruct r as [[u k] v]. unfold nearb. cbn [fst snd]. intros Hx Hu Hv.
  apply hasUnit_get in Hu as (su & ou & Hu), Hv as (sv & ov & Hv). rewrite Hu, Hv.
  assert (Hsu : ~ su == 0) by (eapply table_scale, Hu).
  pose proof (convert_ratio x u v Hu Hv) as R. apply res_eq_inr in R as (y & Hy & Ey).
  assert (E : y - k * x == x / su * (sv - k * su)) by (rewrite Ey; field; assumption).
  assert (E' : y == x / su * sv) by (rewrite Ey; field; assumption).
  assert (Ht : 0 < Qabs (x / su)).
  { apply Qabs_pos. intros H0. apply Hx.
    setoid_replace x with (x / su * su) by (field; assumption). rewrite H0. ring. }
  rewrite Qle_bool_iff. split.
  - intros (y' & Hy' & H). rewrite Hy in Hy'. inv Hy'.
    rewrite E, E', !Qabs_Qmult, <- Qmult_assoc in H. now apply Qmult_le_l in H.
  - intros H. exists y. split; [assumption|].
    rewrite E, E', !Qabs_Qmult, <- Qmult_assoc. now apply Qmult_le_l.
Qed.

Lemma near_verdictb_sound (d : Z) (rels : list (string * Q * string * bool))
    (r : string * Q * string) (b : bool) (x : Q) :
  forallb (near_verdictb d c) rels = true -> In (r, b) rels -> ~ x == 0 ->
  (exists y, convert c x (fst (fst r)) (snd r) = inr y /\
             Qabs (y - snd (fst r) * x) * 10 ^ d <= Qabs y) <-> b = true.
Proof.
  intros H Hin Hx. pose proof (forallb_In _ _ _ H Hin) as V.
  unfold near_verdictb in V. simpl in V.
  apply andb_true_iff in V as [V E]. apply andb_true_iff in V as [Hu Hv].
  apply Bool.eqb_prop in E. rewrite <- E. now apply nearb_iff.
Qed.
End Linear.

(** ** Two tables of different dimension *)

Section Dimension.
Context (cl cd : Converter Q) (bl bd : string).
Context {Tl : ExactTable cl bl} {Fl : OffsetFree cl}.
Context {Td : ExactTable cd bd} {Fd : OffsetFree cd}.

(** When [dimensionb] holds of [(l, d)], the [n]-th power of a length [x] in
    [l], read in [d], is the [n]-th power of that length in the base unit of
    [cl], read in [ref]: a cube of side [x] km has volume [x^3] km³. *)
Lemma dimensionb_sound (n : positive) (ref : string) (p : string * string) (x : Q) :
  dimensionb n cl cd ref p = true ->
  exists y, convert cl x (fst p) bl = inr y /\
            (convert cd (Qpower_positive x n) (snd p) ref =r= ok (Qpower_positive y n)).
Proof.
  unfold dimensionb.
  destruct (dict_get (fst p) (units cl)) as [[sl ol]|] eqn:Hl; [|discriminate].
  destruct (dict_get (snd p) (units cd)) as [[sd od]|] eqn:Hd; [|discriminate].
  destruct (dict_get ref (units cd)) as [[k ok']|] eqn:Hr; [|discriminate].
  intros E. apply Qeq_bool_eq in E.
  destruct (table_base (c := cl)) as (s1 & o1 & Hb & Hs1 & _).
  pose proof (convert_ratio (base := bl) x _ _ Hl Hb) as R.
  apply res_eq_inr in R as (y & Hy & Ey). exists y. split; [assumption|].
  rewrite (convert_ratio (base := bd) _ _ _ Hd Hr). simpl.
  assert (Hsl : ~ sl == 0) by (eapply (table_scale (c := cl)), Hl).
  assert (Hk : ~ k == 0) by (eapply (table_scale (c := cd)), Hr).
  pose proof (Qpower.Qpower_not_0_positive sl n Hsl) as Hp.
  rewrite Ey, Hs1, E.
  setoid_replace (x * (1 / sl)) with (x * / sl) by (field; assumption).
  rewrite Qpower.Qmult_power_positive, Qpower.Qinv_power_positive.
  field. split; assumption.
Qed.
End Dimension.

(** ** The float engine on a base unit and on NaN *)

(** Every scale of the float table is finite and nonzero, every offset
    finite: no division by zero, and no NaN from the coefficients. *)
Definition safe_tableb (c : Converter float) : bool :=
  forallb (fun kv => finite_nonzerob (Prim2SF (fst (snd kv))) &&
                     finiteb (Prim2SF (snd (snd kv)))) (units c).

(** Every offset of the float table is the positive zero. *)
Definition zero_offsetsb (c : Converter float) : bool :=
  forallb (fun kv => match Prim2SF (snd (snd kv)) with
                     | S754_zero false => true
                     | _ => false
                     end) (units c).

(** Every scale of the float table is a positive number. *)
Definition positive_floatb (c : Converter float) : bool :=
  forallb (fun kv => positiveb (Prim2SF (fst (snd kv)))) (units c).

Section FloatEngine.
Context (c : Converter float).

Lemma safe_tableb_sound (u : string) (s o : float) :
  safe_tableb c = true -> dict_get u (units c) = Some (s, o) ->
  finite_nonzerob (Prim2SF s) = true /\ finiteb (Prim2SF o) = true.
Proof.
  intros H Hu. apply dict_get_Some_In in Hu.
  apply (forallb_In _ _ _ H) in Hu. now apply andb_true_iff in Hu.
Qed.

(** Through a unit with coefficients [(1, 0)] the float engine computes
    [(x - 0) / 1 * 1 + 0], which is [x + 0]. *)
Lemma convert_base_float (b : string) (x : float) :
  dict_get b (units c) = Some (1%float, 0%float) ->
  convert c x b b = inr (x + 0)%float.
Proof.
  intros H. unfold convert. rewrite H. simpl.
  now rewrite float_sub_0, float_div_1, float_mul_1.
Qed.

(** Identity through the base: the result compares equal to the value
    unless the value is a NaN, and is the value itself unless it is the
    negative zero. *)
Lemma convert_base_identity (b : string) (x : float) :
  dict_get b (units c) = Some (1%float, 0%float) ->
  exists y, convert c x b b = inr y /\
            (is_nan x = false -> (y =? x)%float = true) /\
            (x <> (-0)%float -> y = x).
Proof.
  intros H. exists (x + 0)%float. split; [now apply convert_base_float|].
  split; [apply float_add_0_eqb | apply float_add_0].
Qed.

(** A NaN converts to a NaN between any two known units. *)
Lemma convert_nan (u v : string) :
  hasUnit c u = true -> hasUnit c v = true -> convert c nan u v = inr nan.
Proof.
  intros Hu Hv.
  apply hasUnit_get in Hu as (su & ou & Hu), Hv as (sv & ov & Hv).
  rewrite (convert_known _ _ _ _ Hu Hv). simpl.
  now rewrite float_nan_sub, float_nan_div, float_nan_mul, float_nan_add.
Qed.

(** In a safe table the result is a NaN exactly when the value is. *)
Lemma convert_nan_iff (x : float) (u v : string) :
  safe_tableb c = true ->
  hasUnit c u = true -> hasUnit c v = true ->
  exists y, convert c x u v = inr y /\ is_nan y = is_nan x.
Proof.
  intros Hs Hu Hv. destruct (is_nan x) eqn:Hx.
  - apply is_nan_nan in Hx. subst x. exists nan. split; [now apply convert_nan | reflexivity].
  - apply hasUnit_get in Hu as (su & ou & Hu), Hv as (sv & ov & Hv).
    destruct (safe_tableb_sound _ Hs Hu) as [Fsu Fou].
    destruct (safe_tableb_sound _ Hs Hv) as [Fsv Fov].
    eexists. split; [exact (convert_known c x u v Hu Hv)|]. simpl.
    auto using float_add_not_nan, float_mul_not_nan, float_div_not_nan, float_sub_not_nan.
Qed.

(** In a safe table no division of [convert] is by zero, and every
    coefficient is finite. *)
Lemma safe_table_division (u : string) (s o : float) :
  safe_tableb c = true -> dict_get u (units c) = Some (s, o) ->
  is_zero s = false /\ is_finite s = true /\ is_finite o = true.
Proof.
  intros H Hu. destruct (safe_tableb_sound _ H Hu) as [Fs Fo].
  auto using finite_nonzerob_is_zero, finiteb_is_finite, finite_nonzerob_finiteb.
Qed.

Lemma zero_offsetsb_sound (u : string) (s o : float) :
  zero_offsetsb c = true -> dict_get u (units c) = Some (s, o) -> o = 0%float.
Proof.
  intros H Hu. apply dict_get_Some_In in Hu.
  apply (forallb_In _ _ _ H) in Hu. simpl in Hu. apply Prim2SF_inj.
  destruct (Prim2SF o) as [[]| | |]; try discriminate. reflexivity.
Qed.

(** Without offsets the float conversion is odd: the negated value converts
    to the negated result, bit for bit, except that a zero result is the
    positive zero for both. *)
Lemma convert_opp (x : float) (u v : string) :
  zero_offsetsb c = true ->
  hasUnit c u = true -> hasUnit c v = true ->
  exists y y', convert c x u v = inr y /\ convert c (- x)%float u v = inr y' /\
               (y' = (- y)%float \/ (y = 0%float /\ y' = 0%float)).
Proof.
  intros Hz Hu Hv.
  apply hasUnit_get in Hu as (su & ou & Hu), Hv as (sv & ov & Hv).
  rewrite (zero_offsetsb_sound _ Hz Hu) in Hu. rewrite (zero_offsetsb_sound _ Hz Hv) in Hv.
  do 2 eexists. split; [exact (convert_known c x u v Hu Hv)|].
  split; [exact (convert_known c (- x)%float u v Hu Hv)|]. simpl.
  rewrite !float_sub_0, float_div_opp, float_mul_opp. apply float_add_0_opp.
Qed.

Lemma positive_floatb_sound (u : string) (s o : float) :
  positive_floatb c = true -> dict_get u (units c) = Some (s, o) ->
  positiveb (Prim2SF s) = true.
Proof.
  intros H Hu. apply dict_get_Some_In in Hu. exact (forallb_In _ _ _ H Hu).
Qed.

(** Without offsets and with positive scales, a value that is not below
    zero converts to a result that is not below zero: no rounding, underflow
    or overflow of the three operations changes the sign. *)
Lemma convert_nonneg (x : float) (u v : string) :
  zero_offsetsb c = true -> positive_floatb c = true ->
  hasUnit c u = true -> hasUnit c v = true ->
  (0 <=? x)%float = true ->
  exists y, convert c x u v = inr y /\ (0 <=? y)%float = true.
Proof.
  intros Hz Hp Hu Hv Hx.
  apply hasUnit_get in Hu as (su & ou & Hu), Hv as (sv & ov & Hv).
  pose proof (positive_floatb_sound _ Hp Hu) as Psu.
  pose proof (positive_floatb_sound _ Hp Hv) as Psv.
  rewrite (zero_offsetsb_sound _ Hz Hu) in Hu. rewrite (zero_offsetsb_sound _ Hz Hv) in Hv.
  eexists. split; [exact (convert_known c x u v Hu Hv)|]. simpl.
  rewrite float_sub_0. auto using float_add_0_nonneg, float_mul_nonneg, float_div_nonneg.
Qed.
End FloatEngine.
