(* ===== verification/PyEngine.v ===== *)
(** * The engine as Python runs it

    [Engine] computes on floats: the coefficients of a table are converted
    to floats when the table is built.  The tables of [src/Converters.py]
    hold Python values, ints beside floats (["ºC": (1, 0)],
    ["°F": (1.8, 32)]), and the formula of the engine,
    [(value - offset_from) / scale_from * scale_to + offset_to], is run by
    Python's arithmetic: an int operand beside a float is converted to a
    float, two ints are subtracted exactly and divided by true division, and
    a division by zero raises [ZeroDivisionError] instead of giving an
    infinity.

    This file runs the formula on Python values ([py_convert], over the table
    [Converter_py] of Python values) and proves that the float engine is
    what Python computes: for a float value, and a table whose scales are
    nonzero, [py_convert] returns the float that [convert] returns, and
    fails as [convert] fails ([py_convert_float]).  The condition on the
    scales is [safe_tableb], which every table of the module meets. *)

From Stdlib Require Import List String Bool ZArith QArith Floats.
From S2P Require Import Prelude PyDict PyNum FloatLaws Engine.
Import ListNotations.
Local Open Scope res_scope.

Set Implicit Arguments.

(** What a conversion can raise: the engine's error, or an error of Python's
    arithmetic. *)
Inductive pyexn : Type :=
| Unknown (e : error)
| Arithmetic (e : pyerr).

(** [Converter({...})] with the coefficients as Python values. *)
Definition Converter_py : list item -> result pyerr (Converter pyval) :=
  Converter_of eval.

(** The formula of the engine on Python values. *)
Definition py_formula (value scale_from offset_from scale_to offset_to : pyval)
  : result pyerr pyval :=
  d <- py_sub value offset_from ;;
  base <- py_truediv d scale_from ;;
  m <- py_mul base scale_to ;;
  py_add m offset_to.

Definition py_convert (c : Converter pyval) (value : pyval) (fromUnit toUnit : string)
  : result pyexn pyval :=
  match dict_get fromUnit (units c), dict_get toUnit (units c) with
  | Some (scale_from, offset_from), Some (scale_to, offset_to) =>
      match py_formula value scale_from offset_from scale_to offset_to with
      | inr r => ok r
      | inl e => raise (Arithmetic e)
      end
  | None, Some _ => raise (Unknown (UnknownUnit [fromUnit]))
  | Some _, None => raise (Unknown (UnknownUnit [toUnit]))
  | None, None => raise (Unknown (UnknownUnit [fromUnit; toUnit]))
  end.

(** The result of the float engine as a Python result. *)
Definition as_python (r : result error float) : result pyexn pyval :=
  match r with
  | inr y => ok (VFloat y)
  | inl e => raise (Unknown e)
  end.

(** ** A float operand makes a float *)

Section FloatOperand.
Variables (x : float) (v : pyval) (f : float).
Hypothesis Hv : as_float v = inr f.

Lemma py_sub_float : py_sub (VFloat x) v = inr (VFloat (x - f)).
Proof. unfold py_sub. simpl. destruct v; now rewrite Hv. Qed.

Lemma py_add_float : py_add (VFloat x) v = inr (VFloat (x + f)).
Proof. unfold py_add. simpl. destruct v; now rewrite Hv. Qed.

Lemma py_mul_float : py_mul (VFloat x) v = inr (VFloat (x * f)).
Proof. unfold py_mul. simpl. destruct v; now rewrite Hv. Qed.

Lemma py_truediv_nonzero :
  is_zero f = false -> py_truediv (VFloat x) v = inr (VFloat (x / f)).
Proof.
  unfold is_zero. intros Hz. change zero with 0%float in Hz.
  unfold py_truediv. simpl. destruct v; rewrite Hv; simpl; now rewrite Hz.
Qed.

Lemma py_truediv_zero :
  is_zero f = true -> py_truediv (VFloat x) v = inl ZeroDivisionError.
Proof.
  unfold is_zero. intros Hz. change zero with 0%float in Hz.
  unfold py_truediv. simpl. destruct v; rewrite Hv; simpl; now rewrite Hz.
Qed.
End FloatOperand.

(** The formula on a float value is the formula on floats, unless the scale
    of the source unit is zero. *)
Lemma py_formula_float (x : float) (vsf vof vst vot : pyval) (sf of_ st ot : float) :
  as_float vsf = inr sf -> as_float vof = inr of_ ->
  as_float vst = inr st -> as_float vot = inr ot ->
  py_formula (VFloat x) vsf vof vst vot =
  if is_zero sf then inl ZeroDivisionError
  else inr (VFloat ((x - of_) / sf * st + ot)).
Proof.
  intros Hsf Hof Hst Hot. unfold py_formula.
  rewrite (py_sub_float x vof Hof). change (inr ?a) with (@ok pyerr _ a). rewrite bind_ok.
  destruct (is_zero sf) eqn:Hz.
  - now rewrite (py_truediv_zero _ vsf Hsf Hz).
  - rewrite (py_truediv_nonzero _ vsf Hsf Hz). change (inr ?a) with (@ok pyerr _ a).
    rewrite bind_ok, (py_mul_float _ vst Hst). change (inr ?a) with (@ok pyerr _ a).
    rewrite bind_ok. apply (py_add_float _ vot Hot).
Qed.

(** ** The float engine is what Python computes *)

Section Refinement.
Variables (items : list item) (cp : Converter pyval) (cf : Converter float).
Hypothesis Hnd : NoDup (map fst items).
Hypothesis Hp : Converter_py items = inr cp.
Hypothesis Hf : Converter_float items = inr cf.

(** The entries of the two tables are the same expressions, evaluated and
    then read as floats. *)
Lemma py_entry (u : string) (s o : float) :
  dict_get u (units cf) = Some (s, o) ->
  exists vs vo, dict_get u (units cp) = Some (vs, vo) /\
                as_float vs = inr s /\ as_float vo = inr o.
Proof.
  intros Hu.
  destruct (Converter_of_get_inv eval_float items u Hnd Hf Hu) as (es & eo & Hin & Hs & Ho).
  unfold eval_float in Hs, Ho.
  apply bind_inr in Hs as (vs & Hvs & Hs). apply bind_inr in Ho as (vo & Hvo & Ho).
  destruct (Converter_of_get eval items u es eo Hnd Hp Hin) as (vs' & vo' & Es & Eo & Hget).
  rewrite Hvs in Es. rewrite Hvo in Eo. inv Es. inv Eo. eauto.
Qed.

Lemma py_unknown (u : string) :
  dict_get u (units cf) = None -> dict_get u (units cp) = None.
Proof.
  intros H. apply hasUnit_false. rewrite (same_hasUnit eval eval_float items Hp Hf).
  now apply hasUnit_false.
Qed.

(** For a float value: when no scale of the table is zero, Python returns
    the float of the float engine, and raises as it raises. *)
Theorem py_convert_float (x : float) (u v : string) :
  safe_tableb cf = true ->
  py_convert cp (VFloat x) u v = as_python (convert cf x u v).
Proof.
  intros Hsafe. unfold py_convert, convert.
  destruct (dict_get u (units cf)) as [[su ou]|] eqn:Hu;
    destruct (dict_get v (units cf)) as [[sv ov]|] eqn:Hv.
  - destruct (py_entry _ Hu) as (vsu & vou & -> & Hsu & Hou).
    destruct (py_entry _ Hv) as (vsv & vov & -> & Hsv & Hov).
    rewrite (py_formula_float x _ _ _ _ Hsu Hou Hsv Hov).
    destruct (safe_table_division _ _ Hsafe Hu) as (-> & _). reflexivity.
  - destruct (py_entry _ Hu) as (vsu & vou & -> & _). now rewrite (py_unknown _ Hv).
  - destruct (py_entry _ Hv) as (vsv & vov & -> & _). now rewrite (py_unknown _ Hu).
  - now rewrite (py_unknown _ Hu), (py_unknown _ Hv).
Qed.

(** Python succeeds on a float value exactly when both names are known. *)
Corollary py_convert_is_ok (x : float) (u v : string) :
  safe_tableb cf = true ->
  is_ok (py_convert cp (VFloat x) u v) = hasUnit cf u && hasUnit cf v.
Proof.
  intros Hsafe. rewrite (py_convert_float x u v Hsafe), <- (convert_is_ok cf x u v).
  now destruct (convert cf x u v).
Qed.
End Refinement.

(** The display of a float engine also evaluates to Python values. *)
Lemma Converter_py_total (items : list item) (cf : Converter float) :
  Converter_float items = inr cf -> exists cp, Converter_py items = inr cp.
Proof.
  intros Hf. assert (H : is_ok (Converter_py items) = true).
  { unfold Converter_py. rewrite Converter_of_is_ok.
    assert (G : is_ok (Converter_float items) = true) by now rewrite Hf.
    unfold Converter_float in G. rewrite Converter_of_is_ok in G.
    apply forallb_forall. intros it Hin.
    apply (forallb_In _ _ _ G) in Hin. apply andb_true_iff in Hin as [H1 H2].
    unfold eval_float in H1, H2.
    destruct (eval (fst (snd it))); [discriminate|].
    destruct (eval (snd (snd it))); [discriminate|]. reflexivity. }
  destruct (Converter_py items) as [e|cp]; [discriminate | eauto].
Qed.
