(* ===== verification/DictSpec.v ===== *)
(** * The dict as a finite map

    [PyDict] keeps a dict as the list of its entries, because the order of
    the names is observable (the unit listing).  What a lookup, a membership
    test and a store promise does not depend on the order: this file gives
    that contract as a finite map ([gmap string V] of stdpp) and proves that
    the list refines it.  [dict_abs] is the abstraction function; [dict_get]
    is the map's lookup, [dict_set] its insertion, a display is the map in
    which the last entry written under a name wins, and the keys of a dict
    are the domain of its map.  The same is then read off for an engine:
    the unit-existence query is membership in the domain, and [convert]
    depends on the table through its map alone. *)

From stdpp Require Import base strings list gmap.
From S2P Require Import Prelude PyDict Engine.

Section Abstract.
Context {V : Type}.
Implicit Types (d : dict V) (k : string) (v : V).

(** The abstraction function: the map that the entries denote. *)
Definition dict_abs (d : dict V) : gmap string V := list_to_map d.

Lemma dict_abs_cons k v d : dict_abs ((k, v) :: d) = <[k:=v]> (dict_abs d).
Proof. reflexivity. Qed.

(** [d[k]] is the lookup of the map. *)
Lemma dict_abs_lookup k d : dict_abs d !! k = dict_get k d.
Proof.
  induction d as [|[k' v'] d IH]; [apply lookup_empty|].
  rewrite dict_abs_cons, lookup_insert. simpl.
  destruct (String.eqb_spec k k') as [->|Hne].
  - by rewrite decide_True.
  - by rewrite decide_False.
Qed.

(** [k in d] is membership in the domain. *)
Lemma dict_abs_mem k d : dict_mem k d = true <-> k ∈ dom (dict_abs d).
Proof.
  rewrite elem_of_dom, dict_abs_lookup. unfold dict_mem.
  destruct (dict_get k d); [split; eauto | split; [done | by intros [? ?]]].
Qed.

(** [d[k] = v] is the insertion of the map, whether the key is new or not. *)
Lemma dict_abs_set k v d : dict_abs (dict_set k v d) = <[k:=v]> (dict_abs d).
Proof.
  apply map_eq. intros j. rewrite lookup_insert, !dict_abs_lookup.
  case_decide as E.
  - subst. apply dict_get_set_eq.
  - apply dict_get_set_ne. congruence.
Qed.

Lemma dict_abs_fold (items : list (string * V)) d :
  dict_abs (fold_left (fun d kv => dict_set (fst kv) (snd kv) d) items d)
  = foldr (fun kv m => <[kv.1:=kv.2]> m) (dict_abs d) (reverse items).
Proof.
  revert d. induction items as [|[k v] items IH]; intros d; [reflexivity|].
  simpl. rewrite IH, dict_abs_set, reverse_cons, foldr_app. reflexivity.
Qed.

(** A display denotes the map of its entries read from the right: of two
    entries with one name the later is kept. *)
Lemma dict_abs_of_items (items : list (string * V)) :
  dict_abs (dict_of_items items) = list_to_map (reverse items).
Proof. unfold dict_of_items. rewrite dict_abs_fold. reflexivity. Qed.

(** The keys of a dict are the domain of its map, once each. *)
Lemma dict_abs_dom d : dom (dict_abs d) = list_to_set (dict_keys d).
Proof. unfold dict_abs. rewrite dom_list_to_map_L. reflexivity. Qed.

Lemma dict_abs_size d : dict_wf d -> size (dict_abs d) = length d.
Proof. intros Hwf. apply map_size_list_to_map, NoDup_ListNoDup, Hwf. Qed.

(** Dicts with the same map answer every lookup alike. *)
Lemma dict_abs_ext d d' k : dict_abs d = dict_abs d' -> dict_get k d = dict_get k d'.
Proof. intros H. by rewrite <- !dict_abs_lookup, H. Qed.
End Abstract.

(** ** The engine over the map *)

Section EngineAbstract.
Context {A : Type} {NA : Num A}.
Implicit Types (c : Converter A) (u v : string).

(** The table of an engine as a map from names to coefficients. *)
Definition table (c : Converter A) : gmap string (A * A) := dict_abs (units c).

Lemma hasUnit_dom c u : hasUnit c u = true <-> u ∈ dom (table c).
Proof. apply dict_abs_mem. Qed.

Lemma listUnits_dom c : dom (table c) = list_to_set (listUnits c).
Proof. apply dict_abs_dom. Qed.

(** [convert] written over the map. *)
Definition convert_spec (m : gmap string (A * A)) (value : A) (fromUnit toUnit : string)
  : result error A :=
  match m !! fromUnit, m !! toUnit with
  | Some (scale_from, offset_from), Some (scale_to, offset_to) =>
      let base := num_div (num_sub value offset_from) scale_from in
      inr (num_add (num_mul base scale_to) offset_to)
  | None, Some _ => inl (UnknownUnit [fromUnit])
  | Some _, None => inl (UnknownUnit [toUnit])
  | None, None => inl (UnknownUnit [fromUnit; toUnit])
  end.

(** The engine refines it: a conversion depends on the table through its
    map alone, not on the order of the entries. *)
Theorem convert_refines_spec c (x : A) u v :
  convert c x u v = convert_spec (table c) x u v.
Proof.
  unfold convert, convert_spec, table. rewrite !dict_abs_lookup.
  destruct (dict_get u (units c)) as [[??]|], (dict_get v (units c)) as [[??]|]; reflexivity.
Qed.

Corollary convert_table_ext c c' (x : A) u v :
  table c = table c' -> convert c x u v = convert c' x u v.
Proof. intros H. by rewrite !convert_refines_spec, H. Qed.
End EngineAbstract.
