(* ===== verification/Temperature.v ===== *)
(** * The temperature table ([src/Converters.py], lines 25-91)

    [Temperature = Converter({...})]: 52 names of temperature scales, with
    Celsius (["ºC"]) as the base unit.  The display is written here entry for
    entry, one definition per commented section of the source;
    [Temperature_items] is the whole display, [Temperature] the float engine
    built from it and [Temperature_exact] its exact specification.

    The construction lemmas ([Temperature_distinct], [Temperature_float_ok],
    [Temperature_exact_ok]) and the checks of the synonyms and of the
    accuracy of the float coefficients are what the module-wide theorems of
    [Converters] need of this table.  The theorems of
    this file are the ones particular to temperatures: the scenarios of the
    specification on floats; the fixed point of Celsius and Fahrenheit; the
    kelvin and its prefixes as pure multiples of one another; the scales
    that run downwards; the spelling of the degree sign; and where the
    floats leave the exact laws. *)

From Stdlib Require Import List String Bool ZArith QArith Qabs Lia Lqa Floats.
From S2P Require Import Prelude PyDict PyNum Engine.
Import ListNotations.
Local Open Scope string_scope.
Local Open Scope py_scope.

(** ** The display *)

Definition Temperature_base : list item := [
  (* --- 1. Base Unit & Synonyms --- *)
  ("ºC", (1, 0));  (* Base Unit *)
  ("C", (1, 0));  (* Synonym *)
  ("Celsius", (1, 0))  (* Synonym *)
].

Definition Temperature_common : list item := [
  (* --- 2. Common Scales --- *)
  ("°F", (1.8, 32));
  ("F", (1.8, 32));  (* Synonym (32/212 scale) *)
  ("Fahrenheit", (1.8, 32));  (* Synonym (32/212 scale) *)
  ("ºR", (1.8, 491.67));  (* Rankine *)
  ("Rankine", (1.8, 491.67))  (* Synonym *)
].

Definition Temperature_kelvin : list item := [
  (* --- 3. Kelvin (SI Absolute) & SI Prefixes --- *)
  ("K", (1, 273.15));
  ("Kelvin", (1, 273.15));  (* Synonym *)
  (* Multiples *)
  ("daK", (1e-1, 273.15e-1));
  ("hK", (1e-2, 273.15e-2));
  ("kK", (1e-3, 273.15e-3));
  ("MK", (1e-6, 273.15e-6));
  ("GK", (1e-9, 273.15e-9));
  ("TK", (1e-12, 273.15e-12));
  ("PK", (1e-15, 273.15e-15));
  ("EK", (1e-18, 273.15e-18));
  ("ZK", (1e-21, 273.15e-21));
  ("YK", (1e-24, 273.15e-24));
  ("RK", (1e-27, 273.15e-27));
  ("QK", (1e-30, 273.15e-30));
  (* Submultiples *)
  ("dK", (1e1, 273.15e1));
  ("cK", (1e2, 273.15e2));
  ("mK", (1e3, 273.15e3));
  ("µK", (1e6, 273.15e6));
  ("nK", (1e9, 273.15e9));
  ("pK", (1e12, 273.15e12));
  ("fK", (1e15, 273.15e15));
  ("aK", (1e18, 273.15e18));
  ("zK", (1e21, 273.15e21));
  ("yK", (1e24, 273.15e24));
  ("rK", (1e27, 273.15e27));
  ("qK", (1e30, 273.15e30))
].

Definition Temperature_historical : list item := [
  (* --- 4. Historical & Obsolete Scales --- *)
  ("ºD", (-1.5, 150));
  ("Delisle", (-1.5, 150));  (* Synonym *)
  ("ºRe", (0.8, 0));
  ("Reaumur", (0.8, 0));  (* Synonym *)
  ("ºN", (0.33, 0));
  ("Newton", (0.33, 0));  (* Synonym *)
  ("ºRø", (21 / 40, 7.5));
  ("Rømer", (21 / 40, 7.5));  (* Synonym *)
  ("ºDu", (1.104, -10.4));  (* Du Crest *)
  ("DuCrest", (1.104, -10.4));  (* Synonym *)
  ("ºLi", (-1, 100));  (* Linnaeus (Inverted Celsius) *)
  ("Linnaeus", (-1, 100));  (* Synonym *)
  ("ºF(96)", (64 / 37, 32));  (* Fahrenheit (Original 32/96) *)
  ("Fahrenheit-96", (64 / 37, 32));  (* Synonym *)
  ("ºW", (9 / 650, -2091 / 260));  (* Wedgwood *)
  ("ºL", (1, 253))  (* Leiden *)
].

Definition Temperature_scientific : list item := [
  (* --- 5. Specialized & Scientific --- *)
  ("GM", (0.072, -8.72));  (* Gas Mark *)
  ("T_P", (7.058e-33, 0))  (* Planck Temperature *)
].

(** The dict display of lines 27-91. *)
Definition Temperature_items : list item :=
  Temperature_base ++ Temperature_common ++ Temperature_kelvin ++
  Temperature_historical ++ Temperature_scientific.

(** Evaluating the display raises nothing. *)
Lemma Temperature_loads : is_ok (Converter_float Temperature_items) = true.
Proof. vm_compute. reflexivity. Qed.

Lemma Temperature_exact_loads : is_ok (Converter_exact Temperature_items) = true.
Proof. vm_compute. reflexivity. Qed.

(** [Temperature = Converter({...})] *)
Definition Temperature : Converter float :=
  get_ok (Converter_float Temperature_items) Temperature_loads.

(** The same table over the rationals: the specification of [Temperature]. *)
Definition Temperature_exact : Converter Q :=
  get_ok (Converter_exact Temperature_items) Temperature_exact_loads.

Arguments Temperature_items : simpl never.
Arguments Temperature : simpl never.
Arguments Temperature_exact : simpl never.

(** The synonyms the source's comments declare: (synonym, name it stands for). *)
Definition Temperature_synonyms : list (string * string) := [
  ("C", "ºC"); ("Celsius", "ºC");
  ("F", "°F"); ("Fahrenheit", "°F");
  ("Rankine", "ºR");
  ("Kelvin", "K");
  ("Delisle", "ºD"); ("Reaumur", "ºRe"); ("Newton", "ºN"); ("Rømer", "ºRø");
  ("DuCrest", "ºDu"); ("Linnaeus", "ºLi"); ("Fahrenheit-96", "ºF(96)")
].

(** The scales that run downwards: Delisle and Linnaeus. *)
Definition Temperature_reversed : list string := ["ºD"; "Delisle"; "ºLi"; "Linnaeus"].

(** An entry whose offset is 273.15 times its scale: a multiple of the kelvin. *)
Definition kelvin_multipleb (it : item) : bool :=
  match exact (fst (snd it)), exact (snd (snd it)) with
  | inr s, inr o => Qeq_bool o (Qmake 27315 100 * s)
  | _, _ => false
  end.

#[local] Set Warnings "-inexact-float".
Local Close Scope py_scope.
Local Open Scope Q_scope.

(** ** Construction *)

Lemma Temperature_distinct : NoDup (map fst Temperature_items).
Proof. apply nodupb_NoDup. vm_compute. reflexivity. Qed.

Lemma Temperature_float_ok : Converter_float Temperature_items = inr Temperature.
Proof. apply get_ok_inr. Qed.

Lemma Temperature_exact_ok : Converter_exact Temperature_items = inr Temperature_exact.
Proof. apply get_ok_inr. Qed.

(** ** The scenarios of the specification *)

(** C1. The scenarios of the specification and the example of the module's
    docstring, on the float engine, bit for bit. *)
Theorem Temperature_scenarios :
  convert Temperature 0%float "ºC" "°F" = inr 32%float /\
  convert Temperature 100%float "ºC" "°F" = inr 212%float /\
  convert Temperature 0%float "K" "ºC" = inr (-273.15)%float /\
  convert Temperature 25%float "ºC" "°F" = inr 77%float /\
  convert Temperature 100%float "ºC" "ºD" = inr 0%float /\
  convert Temperature 0%float "ºC" "ºD" = inr 150%float.
Proof. repeat split; vm_compute; reflexivity. Qed.

(** C22. Celsius and Fahrenheit agree at -40 and nowhere else. *)
Theorem Temperature_fixed_point (x : Q) :
  convert Temperature_exact x "ºC" "°F" =r= ok x <-> x == -40.
Proof.
  rewrite (convert_known Temperature_exact x "ºC" "°F" (su := 1) (ou := 0)
             (sv := 18 # 10) (ov := 32) eq_refl eq_refl).
  simpl. setoid_replace ((x - 0) / 1 * (18 # 10) + 32) with (x * (18 # 10) + 32) by field.
  split; intros H; lra.
Qed.

(** ** The kelvin and its prefixes *)

(** C4. Every entry of the Kelvin section has an offset that is exactly 273.15
    times its scale, so converting kelvins to a prefixed kelvin is a pure
    scaling: the offsets cancel. *)
Theorem Temperature_kelvin_family (k : string) (es eo : pyexpr) (x : Q) :
  In (k, (es, eo)) Temperature_kelvin ->
  exists s, exact es = inr s /\
            (convert Temperature_exact x "K" k =r= ok (x * s)).
Proof.
  intros Hin.
  assert (F : forallb kelvin_multipleb Temperature_kelvin = true) by (vm_compute; reflexivity).
  pose proof (forallb_In _ _ _ F Hin) as E. unfold kelvin_multipleb in E. simpl in E.
  assert (Hin' : In (k, (es, eo)) Temperature_items)
    by (unfold Temperature_items; rewrite !in_app_iff; tauto).
  destruct (Converter_of_get exact Temperature_items k es eo Temperature_distinct
              Temperature_exact_ok Hin') as (s & o & Hs & Ho & Hget).
  rewrite Hs, Ho in E. apply Qeq_bool_eq in E. exists s. split; [assumption|].
  rewrite (convert_known Temperature_exact x "K" k (su := 1) (ou := 27315 # 100)
             eq_refl Hget).
  simpl. rewrite E. field.
Qed.

Lemma Temperature_kelvin_family_witness :
  exists s, exact (Flt 1 3) = inr s /\
            (convert Temperature_exact 300 "K" "mK" =r= ok (300 * s)).
Proof. apply (Temperature_kelvin_family "mK" (Flt 1 3) (Flt 27315 1)). simpl. tauto. Defined.

(** C38. The Planck temperature has offset 0 against Celsius although it is an
    absolute scale: absolute zero converts to a negative Planck temperature. *)
Theorem Temperature_planck_below_zero :
  exists y, convert Temperature_exact 0 "K" "T_P" = inr y /\ y < 0.
Proof. eexists. split; [vm_compute; reflexivity | reflexivity]. Qed.

(** ** The scales that run downwards *)

(** C21. Delisle and Linnaeus have negative scale factors: over the rationals,
    a strictly warmer Celsius value converts to a strictly smaller value of
    either.  (On floats two close values may round to one result.) *)
Theorem Temperature_reversed_scales (v : string) (x x' : Q) :
  In v Temperature_reversed -> x < x' ->
  exists y y', convert Temperature_exact x "ºC" v = inr y /\
               convert Temperature_exact x' "ºC" v = inr y' /\ y' < y.
Proof.
  intros Hv. apply (reversedb_sound Temperature_exact).
  assert (F : forallb (reversedb Temperature_exact "ºC") Temperature_reversed = true)
    by (vm_compute; reflexivity).
  exact (forallb_In _ _ _ F Hv).
Qed.

Lemma Temperature_reversed_scales_witness :
  exists y y', convert Temperature_exact 0 "ºC" "ºD" = inr y /\
               convert Temperature_exact 100 "ºC" "ºD" = inr y' /\ y' < y.
Proof. apply Temperature_reversed_scales; [simpl; tauto | reflexivity]. Defined.

(** ** Names *)

(** C36. The degree sign is not the ordinal indicator: the table writes ["ºC"] with
    U+00BA and ["°F"] with U+00B0, and neither name exists with the other sign. *)
Theorem Temperature_degree_signs :
  hasUnit Temperature "ºC" = true /\ hasUnit Temperature "°C" = false /\
  hasUnit Temperature "°F" = true /\ hasUnit Temperature "ºF" = false.
Proof. repeat split; vm_compute; reflexivity. Qed.

(** ** Where the floats leave the exact laws *)

(** C31. There and back is not the identity on floats, and not within any relative
    tolerance: a small Celsius value is absorbed by the kelvin offset. *)
Theorem Temperature_float_round_trip_fails :
  (y <- convert Temperature 1e-20%float "ºC" "K" ;; convert Temperature y "K" "ºC")%res
  = inr 0%float.
Proof. vm_compute. reflexivity. Qed.

(** ** What the module-wide theorems need of this table *)

(** The synonyms are written with the same coefficients as the names they
    stand for. *)
Lemma Temperature_synonyms_same : synonymsb Temperature_items Temperature_synonyms = true.
Proof. vm_compute. reflexivity. Qed.

(** The float coefficients are within [2^-53] of the exact ones. *)
Lemma Temperature_accurate : accurate_display 53 Temperature_items = true.
Proof. vm_compute. reflexivity. Qed.

(** Every float scale is finite and nonzero, every float offset finite. *)
Lemma Temperature_safe : safe_tableb Temperature = true.
Proof. vm_compute. reflexivity. Qed.
