(* ===== verification/Length.v ===== *)
(** * The length table ([src/Converters.py], lines 92-343)

    [Length = Converter({...})]: 213 names of units of length, with the metre
    (["m"]) as the base unit and every offset zero.  The display is written
    entry for entry, one definition per commented section or subsection of
    the source; [Length_items] is the whole display, [Length] the float engine
    and [Length_exact] its exact specification.

    The construction lemmas, the interfaces [ExactTable] and [OffsetFree]
    and the checks of the synonyms and of the accuracy of the float
    coefficients are what the module-wide theorems of [Converters] need of
    this table.  The theorems of this file are the ones particular to
    lengths: the scenarios of the specification; the relations between units
    that hold exactly and the customary ones around the inch and the foot
    that do not; the SI prefixes as powers of ten. *)

From Stdlib Require Import List String Bool ZArith QArith Qabs Lia Lqa Floats.
From S2P Require Import Prelude PyDict PyNum Engine.
Import ListNotations.
Local Open Scope string_scope.
Local Open Scope py_scope.

(** ** The display *)

Definition Length_metric : list item := [
  (* 1. Metric (SI) Units *)
  ("m", (1, 0));  (* Base Unit *)
  ("metre", (1, 0));  (* Synonym for m *)
  (* Multiples *)
  ("dam", (0.1, 0));
  ("hm", (0.01, 0));
  ("km", (0.001, 0));
  ("Mm", (1e-6, 0));
  ("Gm", (1e-9, 0));
  ("Tm", (1e-12, 0));
  ("Pm", (1e-15, 0));
  ("Em", (1e-18, 0));
  ("Zm", (1e-21, 0));
  ("Ym", (1e-24, 0));
  ("Rm", (1e-27, 0));  (* Ronna *)
  ("Qm", (1e-30, 0));  (* Quetta *)
  (* Submultiples *)
  ("dm", (10, 0));
  ("cm", (100, 0));
  ("mm", (1000, 0));
  ("µm", (1e6, 0));
  ("nm", (1e9, 0));
  ("pm", (1e12, 0));
  ("fm", (1e15, 0));
  ("am", (1e18, 0));
  ("zm", (1e21, 0));
  ("ym", (1e24, 0));
  ("rm", (1e27, 0));  (* Ronto *)
  ("qm", (1e30, 0))  (* Quecto *)
].

Definition Length_imperial : list item := [
  (* 2. Imperial & US Customary Units *)
  ("in", (39.3700787, 0));
  ("inch", (39.3700787, 0));  (* Synonym for in *)
  ("ft", (3.2808399, 0));
  ("foot", (3.2808399, 0));  (* Synonym for ft *)
  ("yd", (1.0936133, 0));
  ("yard", (1.0936133, 0));  (* Synonym for yd *)
  ("mi", (0.000621371192, 0));
  ("mile", (0.000621371192, 0));  (* Synonym for mi *)
  ("mil", (39370.0787, 0));
  ("barleycorn", (3 / 0.0254, 0));
  ("line", (12 / 0.0254, 0));
  ("fath", (1 / 1.8288, 0));  (* Also Nautical *)
  ("fathom-en", (1 / 1.8288, 0));  (* Synonym for fath *)
  ("fur", (1 / 201.168, 0));  (* Also Surveying *)
  ("furlong", (1 / 201.168, 0));  (* Synonym for fur *)
  ("ch", (1 / 20.1168, 0));  (* Gunter's Chain, also Surveying *)
  ("rd", (1 / 5.0292, 0));  (* Rod, also Surveying *)
  ("pole", (1 / 5.0292, 0));  (* Synonym for rd *)
  ("perch", (1 / 5.0292, 0));  (* Synonym for rd *)
  ("lea-en", (1 / 4828.032, 0));  (* English League *)
  ("hh", (1 / 0.1016, 0));  (* Hand *)
  ("hand", (1 / 0.1016, 0));  (* Synonym for hh *)
  ("span", (1 / 0.2286, 0));
  ("quarter", (1 / 0.2286, 0));
  ("pace-en", (1 / 0.762, 0));  (* English Pace *)
  ("rope", (1 / 6.096, 0));
  ("bolt-us", (1 / 91.44, 0));  (* US Bolt *)
  ("ell-en", (1 / 1.143, 0));  (* English Ell *)
  ("finger", (1 / 0.1143, 0));
  ("nail", (1 / 0.05715, 0));
  ("caliber", (100 / 0.0254, 0));
  ("button", (8 / 0.0254, 0))  (* Also Typographical (Ligne) *)
].

Definition Length_nautical : list item := [
  (* 3. Surveying & Nautical Units *)
  ("nmi", (1 / 1852, 0));  (* Nautical Mile *)
  ("cbl", (1 / 185.2, 0));  (* Cable *)
  ("shackle", (1 / 27.432, 0));
  ("ft-us", (3937 / 1200, 0));  (* US Survey Foot *)
  ("li-gunter", (1 / 0.201168, 0));  (* Gunter's Link *)
  ("li-ramden", (1 / 0.3048, 0));  (* Ramden's Link *)
  ("ch-ramden", (1 / 30.48, 0));  (* Ramden's Chain *)
  ("ch-rathbone", (1 / 10.0584, 0));  (* Rathbone's Chain *)
  ("yd-mega", (1 / 0.829, 0))  (* Megaphone-corrected yard? *)
].

Definition Length_astronomical : list item := [
  (* 4. Astronomical & Physics Units *)
  ("au", (1 / 1.495978707e11, 0));  (* Astronomical Unit *)
  ("ly", (1 / 9.4607e15, 0));  (* Light-year *)
  ("light-ns", (1 / 0.299792458, 0));  (* Light-nanosecond *)
  ("pc", (1 / 3.085677581e16, 0));  (* Parsec *)
  ("kpc", (1 / 3.085677581e19, 0));  (* Kiloparsec *)
  ("Mpc", (1 / 3.085677581e22, 0));  (* Megaparsec *)
  ("Gpc", (1 / 3.085677581e25, 0));  (* Gigaparsec *)
  ("Tpc", (1 / 3.085677581e28, 0));  (* Teraparsec *)
  ("Ppc", (1 / 3.085677581e31, 0));  (* Petaparsec *)
  ("Epc", (1 / 3.085677581e34, 0));  (* Exaparsec *)
  ("Zpc", (1 / 3.085677581e37, 0));  (* Zettaparsec *)
  ("Ypc", (1 / 3.085677581e40, 0));  (* Yottaparsec *)
  ("siriometer", (1 / 1.4959787e17, 0));
  ("D_H", (1 / 1.303e26, 0));  (* Hubble distance *)
  ("Å", (1e10, 0));  (* Ångström *)
  ("micron", (1e6, 0));  (* Synonym for µm *)
  ("fermi", (1e15, 0));  (* Synonym for fm *)
  ("a_0", (1 / 5.29177e-11, 0));  (* Bohr radius *)
  ("l_P", (1 / 1.616255e-35, 0));  (* Planck length *)
  ("xu", (1 / 1.0021e-13, 0));  (* X-unit *)
  ("S", (1e-12, 0))  (* Note: Identical to "Tm" *)
].

Definition Length_typographical : list item := [
  (* 5. Typographical & Digital Units *)
  ("pt", (72 / 0.0254, 0));  (* Point *)
  ("pica", (6 / 0.0254, 0));
  ("px", (96 / 0.0254, 0));  (* Pixel (at 96 DPI) *)
  ("twip", (1440 / 0.0254, 0));  (* Twentieth of a point *)
  ("agate", (72 / (5.5 * 0.0254), 0));
  ("cicero", (1 / 0.004511658, 0));
  ("didot-pt", (1 / 0.00037597, 0));  (* Didot point *)
  ("pcl-pt", (300 / 0.0254, 0));
  ("ligne", (144 / 0.3248, 0))  (* French Ligne (Typographical) *)
].

Definition Length_ancient : list item := [
  (* 6. Historical & Regional Units *)
  (* Ancient *)
  ("cubit-egy", (1 / 0.524, 0));  (* Egyptian Cubit *)
  ("pes-rom", (1 / 0.296, 0));  (* Roman Foot *)
  ("passus-rom", (1 / 1.48, 0));  (* Roman Pace *)
  ("mi-rom", (1 / 1480, 0));  (* Roman Mile *)
  ("stadion-gr", (1 / 185, 0));  (* Greek Stadion *)
  ("beru-bab", (1 / 10800, 0));  (* Babylonian Beru *)
  ("kus-sumer", (1 / 0.495, 0));  (* Sumerian Kus *)
  ("su-si", (1 / 0.0165, 0));  (* Sumerian Su-si *)
  ("tefach", (1 / 0.0762, 0));  (* Hebrew Tefach *)
  ("zeret", (1 / 0.2286, 0));  (* Hebrew Zeret *)
  ("amah", (1 / 0.4572, 0))  (* Hebrew Amah *)
].

Definition Length_french : list item := [
  (* French *)
  ("point-fr", (1 / 0.000188, 0));  (* Point (Truchet) *)
  ("ligne-fr", (1 / 0.002256, 0));  (* Ligne (Paris) *)
  ("pouce-fr", (1 / 0.02707, 0));  (* Pouce (Paris inch) *)
  ("pied-fr", (1 / 0.3248394, 0));  (* Pied du roi (Paris foot) *)
  ("toise-fr", (1 / 1.949036, 0));  (* Toise (Paris fathom) *)
  ("perche-fr-arpent", (1 / 7.146, 0));  (* Perche d'arpent *)
  ("perche-fr-roi", (1 / 5.847, 0));  (* Perche du roi *)
  ("perche-fr-ord", (1 / 6.497, 0));  (* Perche ordinaire *)
  ("arpent-fr-arpent", (1 / 71.46, 0));  (* Arpent (10 perches d'arpent) *)
  ("arpent-fr-roi", (1 / 58.47, 0));  (* Arpent (10 perches du roi) *)
  ("lieue-fr-ancienne", (1 / 3248, 0));  (* Lieue ancienne *)
  ("lieue-fr", (1 / 3898, 0));  (* Lieue de Paris (French League) *)
  ("lieue-fr-postes", (1 / 4288, 0));  (* Lieue des Postes *)
  ("lieue-fr-degre", (1 / 4448, 0));  (* Lieue de 25 au degré *)
  ("lieue-fr-tarif", (1 / 4678, 0))  (* Lieue tarifaire *)
].

Definition Length_spanish : list item := [
  (* Spanish *)
  ("ponto-es", (1 / 0.0001613, 0));  (* Punto *)
  ("línea-es", (1 / 0.001935, 0));  (* Línea *)
  ("pulgada-es", (1 / 0.023216, 0));  (* Pulgada (Spanish inch) *)
  ("pie-es", (1 / 0.2786, 0));  (* Pie (Spanish foot) *)
  ("codo-es", (1 / 0.41783, 0));  (* Codo geométrico *)
  ("codo-real-es", (1 / 0.55778, 0));  (* Codo real *)
  ("vara-es", (1 / 0.8359, 0));  (* Vara *)
  ("paso-es", (1 / 1.3932, 0));  (* Paso *)
  ("braza-es", (1 / 1.6718, 0));  (* Braza (2 varas) *)
  ("estadal-es", (1 / 3.3436, 0));  (* Estadal (4 varas) *)
  ("milla-es", (1 / 1393.2, 0));  (* Milla *)
  ("legua-es", (1 / 4179.5, 0))  (* Legua (League) *)
].

Definition Length_portuguese : list item := [
  (* Portuguese *)
  ("ponto-pt", (1 / 0.00019, 0));  (* Ponto *)
  ("linha-pt", (1 / 0.00229, 0));  (* Linha *)
  ("polegada-pt", (1 / 0.0275, 0));  (* Polegada (Portuguese inch) *)
  ("palmo-pt", (1 / 0.22, 0));  (* Palmo de craveira (Span) *)
  ("pé-pt", (1 / 0.33, 0));  (* Pé (Portuguese foot) *)
  ("côvado-pt", (1 / 0.66, 0));  (* Côvado (Cubit) *)
  ("vara-pt", (1 / 1.1, 0));  (* Vara *)
  ("passo-pt", (1 / 1.65, 0));  (* Passo geométrico *)
  ("toesa-pt", (1 / 1.98, 0));  (* Toesa *)
  ("braça-pt", (1 / 2.2, 0));  (* Braça (Fathom) *)
  ("légua-pt-20", (1 / 5555, 0));  (* Légua de 20 ao grau *)
  ("légua-pt-18", (1 / 6173, 0));  (* Légua de 18 ao grau *)
  ("milha-pt", (1 / 1852, 0))  (* Milha geográfica (same as nmi) *)
].

Definition Length_italian : list item := [
  (* Italian (Regional) *)
  ("linea-it-genoa", (1 / 0.00172, 0));  (* Linea (Genoa) *)
  ("oncia-it-rome", (1 / 0.0186, 0));  (* Oncia (Rome) *)
  ("pollice-it-genoa", (1 / 0.02067, 0));  (* Pollice (Genoa) *)
  ("palmo-it-rome-arch", (1 / 0.22319, 0));  (* Palmo architettonica (Rome) *)
  ("palmo-it-sicily", (1 / 0.24203, 0));  (* Palmo (Sicily) *)
  ("palmo-it-rome-merc", (1 / 0.24908, 0));  (* Palmo mercantile (Rome) *)
  ("palmo-it-naples", (1 / 0.26455, 0));  (* Palmo (Naples) *)
  ("piede-it-rome", (1 / 0.297587, 0));  (* Piede (Rome) *)
  ("piede-it", (1 / 0.2977, 0));  (* Piede (General Italian Foot) *)
  ("piede-it-venice", (1 / 0.347735, 0));  (* Piede (Venice) *)
  ("piede-it-bologna", (1 / 0.38, 0));  (* Piede (Bologna) *)
  ("piede-it-milan", (1 / 0.435185, 0));  (* Piede (Milan) *)
  ("piede-it-liprando", (1 / 0.51377, 0));  (* Piede liprando (Sardinia) *)
  ("braccio-fl", (1 / 0.583, 0));  (* Braccio (Florentine) *)
  ("braccio-it-milan", (1 / 0.59494, 0));  (* Braccio (Milan) *)
  ("braccio-it-rome-tele", (1 / 0.635, 0));  (* Braccia per le tele (Rome) *)
  ("braccio-it-bologna", (1 / 0.64, 0));  (* Braccio (Bologna) *)
  ("braccio-it-rome-merc", (1 / 0.67, 0));  (* Braccia da mercante (Rome) *)
  ("braccio-it-venice", (1 / 0.683, 0));  (* Braccio (Venice) *)
  ("canna-it-rome-merc", (1 / 1.99263, 0));  (* Canna mercantile (Rome) *)
  ("canna-it-sicily", (1 / 2.0648, 0));  (* Canna (Sicily) *)
  ("canna-it-rome-arch", (1 / 2.2319, 0));  (* Canna architettonica (Rome) *)
  ("canna-it-naples", (1 / 2.6455, 0));  (* Canna (Naples) *)
  ("miglio-it-sicily", (1 / 1486.66, 0));  (* Miglio (Sicily) *)
  ("miglio-it-rome", (1 / 1487.93, 0));  (* Miglio (Rome) *)
  ("miglio-it-venice", (1 / 1738.67, 0));  (* Miglio (Venice) *)
  ("miglio-it-milan", (1 / 1784.81, 0))  (* Miglio (Milan) *)
].

Definition Length_german : list item := [
  (* German/Prussian *)
  ("linie-de", (1 / 0.002179, 0));  (* Linie (Prussian) *)
  ("zoll-de-pruss", (1 / 0.026154, 0));  (* Zoll (Prussian inch) *)
  ("fuss-pruss", (1 / 0.31385, 0));  (* Fuss (Prussian foot) *)
  ("fuss-de-rhine", (1 / 0.31387, 0));  (* Rheinfuss (Rhine foot) *)
  ("elle-pruss", (1 / 0.58847, 0));  (* Elle (Prussian, 1.875 Fuss) *)
  ("klafter-de", (1 / 1.8831, 0));  (* Klafter (Prussian, 6 Fuss) *)
  ("rute-pruss", (1 / 3.7662, 0));  (* Rute (Prussian, 12 Fuss) *)
  ("wegstunde-de", (1 / 3710, 0));  (* Wegstunde (1/2 Meile) *)
  ("meile-de-bavaria", (1 / 7415, 0));  (* Meile (Bavaria) *)
  ("meile-de-geo", (1 / 7420.54, 0));  (* Geographische Meile *)
  ("meile-de", (1 / 7500, 0));  (* Meile (German mile, 'Reichsmeile') *)
  ("meile-de-pruss", (1 / 7532.5, 0))  (* Meile (Prussian) *)
].

Definition Length_european : list item := [
  (* Other European *)
  ("verst", (1 / 1066.8, 0));  (* Russian *)
  ("arshin", (1 / 0.7112, 0));  (* Russian/Turkish *)
  ("mi-scot", (1 / 1814.2, 0));  (* Scottish Mile *)
  ("ell-scot", (1 / 0.9413, 0));  (* Scottish Ell *)
  ("mil-scan", (1 / 10000, 0));  (* Scandinavian Mile *)
  ("alen-dk", (1 / 0.6277, 0));  (* Danish Alen *)
  ("aln-se", (1 / 0.5938, 0));  (* Swedish Aln *)
  ("tum-se", (24 / 0.5938, 0))  (* Swedish Tum (inch) *)
].

Definition Length_asian : list item := [
  (* Asian *)
  ("li-cn", (1 / 500, 0));  (* Chinese Li *)
  ("zhang-cn", (0.3, 0));  (* Chinese Zhang *)
  ("chi-cn", (3, 0));  (* Chinese Chi *)
  ("cun-cn", (30, 0));  (* Chinese Cun *)
  ("fen-cn", (300, 0));  (* Chinese Fen *)
  ("sun-jp", (1 / 0.030303, 0));  (* Japanese Sun *)
  ("shaku-jp", (1 / 0.30303, 0));  (* Japanese Shaku *)
  ("ken-jp", (1 / 1.81818, 0));  (* Japanese Ken *)
  ("ri-jp", (1 / 3927.27, 0))  (* Japanese Ri *)
].

Definition Length_indian : list item := [
  (* Indian & Middle Eastern *)
  ("gaz", (1 / 0.9144, 0));  (* Indian *)
  ("kos", (1 / 3218.69, 0));  (* Indian *)
  ("angula", (1 / 0.01778, 0));  (* Indian *)
  ("farsakh", (1 / 5500, 0));  (* Persian *)
  ("arash", (1 / 0.95, 0))  (* Persian *)
].

Definition Length_industry : list item := [
  (* 7. Specialized Industry Units *)
  (* Textile *)
  ("hank-cotton", (1 / 768.096, 0));
  ("skein-wool", (1 / 109.728, 0));
  ("spyndle", (1 / 13167.36, 0));

  (* Manufacturing / Other *)
  ("U", (1 / 0.04445, 0))  (* Rack Unit *)
].

(** The dict display of lines 94-343. *)
Definition Length_items : list item :=
  Length_metric ++ Length_imperial ++ Length_nautical ++ Length_astronomical ++
  Length_typographical ++ Length_ancient ++ Length_french ++ Length_spanish ++
  Length_portuguese ++ Length_italian ++ Length_german ++ Length_european ++
  Length_asian ++ Length_indian ++ Length_industry.

(** Evaluating the display raises nothing. *)
Lemma Length_loads : is_ok (Converter_float Length_items) = true.
Proof. vm_compute. reflexivity. Qed.

Lemma Length_exact_loads : is_ok (Converter_exact Length_items) = true.
Proof. vm_compute. reflexivity. Qed.

(** [Length = Converter({...})] *)
Definition Length : Converter float :=
  get_ok (Converter_float Length_items) Length_loads.

(** The same table over the rationals: the specification of [Length]. *)
Definition Length_exact : Converter Q :=
  get_ok (Converter_exact Length_items) Length_exact_loads.

Arguments Length_items : simpl never.
Arguments Length : simpl never.
Arguments Length_exact : simpl never.

(** The synonyms the source's comments declare: (synonym, name it stands for). *)
Definition Length_synonyms : list (string * string) := [
  ("metre", "m");
  ("inch", "in"); ("foot", "ft"); ("yard", "yd"); ("mile", "mi");
  ("fathom-en", "fath"); ("furlong", "fur"); ("pole", "rd"); ("perch", "rd");
  ("hand", "hh");
  ("micron", "µm"); ("fermi", "fm"); ("S", "Tm");
  ("milha-pt", "nmi")
].

Local Close Scope py_scope.
Local Open Scope Q_scope.

(** Relations between units of the table that hold exactly: "one [u] is [k]
    [v]".  Each relates two units that the source writes through the same
    metric value ([0.0254], [1.8288], [201.168], ...). *)
Definition Length_relations : list (string * Q * string) := [
  ("km", 1000, "m"); ("m", 100, "cm"); ("yd", 3, "ft"); ("in", 1000, "mil");
  ("pica", 12, "pt"); ("pt", 20, "twip"); ("barleycorn", 4, "line");
  ("hh", 48, "line"); ("fur", 10, "ch"); ("ch", 4, "rd"); ("ch", 100, "li-gunter");
  ("lea-en", 24, "fur"); ("ell-en", 5, "span"); ("ell-en", 10, "finger");
  ("span", 4, "nail"); ("fath", 6, "li-ramden"); ("rope", 20, "li-ramden");
  ("ch-ramden", 100, "li-ramden"); ("shackle", 15, "fath"); ("nmi", 10, "cbl");
  ("kpc", 1000, "pc"); ("Mpc", 1000, "kpc")
].

(** The prefixed metres with the power of ten that the International System
    gives the prefix: ["km"] with [3], ["µm"] with [-6]. *)
Definition Length_prefixes : list (string * Z) := [
  ("dam", 1); ("hm", 2); ("km", 3); ("Mm", 6); ("Gm", 9); ("Tm", 12);
  ("Pm", 15); ("Em", 18); ("Zm", 21); ("Ym", 24); ("Rm", 27); ("Qm", 30);
  ("dm", -1); ("cm", -2); ("mm", -3); ("µm", -6); ("nm", -9); ("pm", -12);
  ("fm", -15); ("am", -18); ("zm", -21); ("ym", -24); ("rm", -27); ("qm", -30)
]%Z.

(** Customary relations that do not hold of the table: [in], [ft] and [mi]
    are decimals rounded to nine digits, the units beside them are written
    through the exact inch of [0.0254] m. *)
Definition Length_broken_relations : list (string * Q * string) := [
  ("ft", 12, "in"); ("mi", 1760, "yd"); ("in", 72, "pt"); ("in", 3, "barleycorn");
  ("hh", 4, "in"); ("fath", 6, "ft"); ("fur", 660, "ft"); ("mi", 8, "fur");
  ("ft", 1, "li-ramden")
].

#[local] Set Warnings "-inexact-float".

(** ** Construction *)

Lemma Length_distinct : NoDup (map fst Length_items).
Proof. apply nodupb_NoDup. vm_compute. reflexivity. Qed.

Lemma Length_float_ok : Converter_float Length_items = inr Length.
Proof. apply get_ok_inr. Qed.

Lemma Length_exact_ok : Converter_exact Length_items = inr Length_exact.
Proof. apply get_ok_inr. Qed.

(** The table meets the engine's interfaces: ["m"] has coefficients [(1, 0)],
    no scale is zero and every offset is zero. *)
#[export] Instance Length_table : ExactTable Length_exact "m".
Proof. apply exact_tableb_sound. vm_compute. reflexivity. Qed.

#[export] Instance Length_offset_free : OffsetFree Length_exact.
Proof. apply offset_freeb_sound. vm_compute. reflexivity. Qed.

(** ** The scenarios of the specification *)

(** A kilometre is 1000 metres exactly; twelve inches are not one foot
    exactly, because ["in"] and ["ft"] are two independently rounded
    decimals. *)
Theorem Length_scenarios :
  convert Length 1%float "km" "m" = inr 1000%float /\
  convert Length 12%float "in" "ft" = inr 1.00000000254%float.
Proof. split; vm_compute; reflexivity. Qed.

(** C14. Over the rationals twelve inches are [39370078800 / 39370078700] feet: the
    excess over one foot is more than [1e-9], the tolerance the specification
    names. *)
Theorem Length_inch_foot :
  exists y, convert Length_exact 12 "in" "ft" = inr y /\
            y == 39370078800 # 39370078700 /\ 1 # 1000000000 < y - 1.
Proof. eexists. split; [vm_compute; reflexivity|]. split; reflexivity. Qed.

(** ** Relations between units *)

(** C9. The relations of [Length_relations] hold exactly of the written
    coefficients, for every value. *)
Theorem Length_relation (r : string * Q * string) (x : Q) :
  In r Length_relations ->
  convert Length_exact x (fst (fst r)) (snd r) =r= ok (snd (fst r) * x).
Proof.
  intros Hin.
  apply (relationsb_sound (base := "m") Length_relations r x); [|exact Hin].
  vm_compute. reflexivity.
Qed.

Lemma Length_relation_witness :
  convert Length_exact 2 "fur" "ch" =r= ok (10 * 2).
Proof. apply (Length_relation ("fur", 10, "ch") 2). simpl. tauto. Defined.

(** ** The SI prefixes *)

(** C13. Each of the 24 prefixed metres is the power of ten of its prefix: [x]
    of the unit is [10^k * x] metres, exactly and for every value.  The
    prefixed units of [Weight], [Volume], [Area] and [Speed] are stated
    against these. *)
Theorem Length_prefix (p : string * Z) (x : Q) :
  In p Length_prefixes ->
  convert Length_exact x (fst p) "m" =r= ok (10 ^ snd p * x).
Proof.
  intros Hin.
  apply (relationsb_sound (base := "m")
           (map (fun p => (fst p, 10 ^ snd p, "m")) Length_prefixes) (fst p, 10 ^ snd p, "m") x).
  - vm_compute. reflexivity.
  - exact (in_map (fun p => (fst p, 10 ^ snd p, "m")) _ _ Hin).
Qed.

Lemma Length_prefix_witness :
  convert Length_exact 5 "km" "m" =r= ok (10 ^ 3 * 5).
Proof. apply (Length_prefix ("km", 3%Z) 5). simpl. tauto. Defined.

(** ** The customary relations that fail *)

(** C32. The customary relations around the inch, the foot and the mile do not
    hold of the table, and show on floats from the ninth digit on. *)
Theorem Length_imperial_inconsistent :
  forallb (fun r => negb (relationb Length_exact r)) Length_broken_relations = true /\
  convert Length 1%float "ft" "in" = inr 11.999999969520001%float /\
  convert Length 1%float "in" "pt" = inr 72.000000073440006%float /\
  convert Length 1%float "mi" "yd" = inr 1760.0000033474353%float /\
  convert Length 1%float "ft" "li-ramden" = inr 0.99999999847999987%float.
Proof. repeat split; vm_compute; reflexivity. Qed.

(** ** What the module-wide theorems need of this table *)

(** The synonyms are written with the same coefficients as the names they
    stand for. *)
Lemma Length_synonyms_same : synonymsb Length_items Length_synonyms = true.
Proof. vm_compute. reflexivity. Qed.

(** The float coefficients are within [2^-52] of the exact ones. *)
Lemma Length_accurate : accurate_display 52 Length_items = true.
Proof. vm_compute. reflexivity. Qed.

(** Every float scale is finite and nonzero, every float offset finite. *)
Lemma Length_safe : safe_tableb Length = true.
Proof. vm_compute. reflexivity. Qed.
