(* ===== verification/Speed.v ===== *)
(** * The speed table ([src/Converters.py], lines 823-983)

    [Speed = Converter({...})]: 106 names of units of speed, with the metre
    per second (["m/s"]) as the base unit and every offset zero.  The display
    is written entry for entry, one definition per commented section of the
    source; [Speed_items] is the whole display, [Speed] the float engine and
    [Speed_exact] its exact specification.

    The construction lemmas, the interfaces [ExactTable] and [OffsetFree]
    and the checks at the end of the file are what the module-wide theorems
    of [Converters] need of this table.  The theorems of this file are on
    the orientation of the coefficients.  The engine reads a scale as "units
    per base unit" (a metre is 0.001 km), and the other five tables are
    written that way; the scales of [Speed] are "base units per unit" (a
    km/h is 0.2777 m/s), so that every conversion of this table that leaves
    or enters a unit other than the metre per second goes the wrong way:
    [Speed] converts a length per second to metres per second as [Length]
    converts metres to that length.  Inside the table the units per minute,
    hour, day and year are the units per second divided by the seconds of
    the time unit, to the last digit written, except the astronomical unit
    per year and the parsec per year; the latter is a thousand times too
    small. *)

From Stdlib Require Import List String Bool ZArith QArith Qabs Lia Lqa Floats.
From S2P Require Import Prelude PyDict PyNum Engine Length.
Import ListNotations.
Local Open Scope string_scope.
Local Open Scope py_scope.

(** ** The display *)

Definition Speed_base : list item := [
  (* --- 1. Base Unit (SI) --- *)
  ("m/s", (1, 0));  (* Meter per Second *)
  ("mps", (1, 0))  (* Synonym *)
].

Definition Speed_metric : list item := [
  (* --- 2. SI (Metric) System --- *)

  (* Terameter (Tm) *)
  ("Tm/s", (1e12, 0));
  ("Tm/min", (16666666666.666666, 0));
  ("Tm/h", (277777777.7777778, 0));
  ("Tm/d", (11574074.074074075, 0));

  (* Gigameter (Gm) *)
  ("Gm/s", (1e9, 0));
  ("Gm/min", (16666666.666666668, 0));
  ("Gm/h", (277777.7777777778, 0));
  ("Gm/d", (11574.074074074075, 0));

  (* Megameter (Mm) *)
  ("Mm/s", (1e6, 0));
  ("Mm/min", (16666.666666666668, 0));
  ("Mm/h", (277.7777777777778, 0));
  ("Mm/d", (11.574074074074074, 0));

  (* Kilometer (km) *)
  ("km/s", (1000, 0));
  ("km/min", (16.666666666666668, 0));
  ("km/h", (0.2777777777777778, 0));  (* (1000 / 3600) *)
  ("kph", (0.2777777777777778, 0));  (* Synonym *)
  ("km/d", (0.011574074074074073, 0));

  (* Hectometer (hm) *)
  ("hm/s", (100, 0));
  ("hm/min", (1.6666666666666667, 0));
  ("hm/h", (0.027777777777777776, 0));
  ("hm/d", (0.0011574074074074074, 0));

  (* Decameter (dam) *)
  ("dam/s", (10, 0));
  ("dam/min", (0.16666666666666666, 0));
  ("dam/h", (0.002777777777777778, 0));
  ("dam/d", (0.00011574074074074074, 0));

  (* Meter (m) *)
  ("m/min", (0.016666666666666666, 0));  (* (1 / 60) *)
  ("m/h", (0.0002777777777777778, 0));  (* (1 / 3600) *)
  ("m/d", (1.1574074074074073e-05, 0));  (* (1 / 86400) *)

  (* Decimeter (dm) *)
  ("dm/s", (0.1, 0));
  ("dm/min", (0.0016666666666666668, 0));
  ("dm/h", (2.777777777777778e-05, 0));
  ("dm/d", (1.1574074074074074e-06, 0));

  (* Centimeter (cm) *)
  ("cm/s", (0.01, 0));
  ("cm/min", (0.00016666666666666666, 0));
  ("cm/h", (2.777777777777778e-06, 0));
  ("cm/d", (1.1574074074074074e-07, 0));

  (* Millimeter (mm) *)
  ("mm/s", (1e-3, 0));
  ("mm/min", (1.6666666666666667e-05, 0));
  ("mm/h", (2.777777777777778e-07, 0));
  ("mm/d", (1.1574074074074074e-08, 0));

  (* Micrometer (μm or um) *)
  ("um/s", (1e-6, 0));
  ("um/min", (1.6666666666666667e-08, 0));
  ("um/h", (2.777777777777778e-10, 0));
  ("um/d", (1.1574074074074074e-11, 0));
  ("μm/s", (1e-6, 0));
  ("μm/min", (1.6666666666666667e-08, 0));
  ("μm/h", (2.777777777777778e-10, 0));
  ("μm/d", (1.1574074074074074e-11, 0));

  (* Nanometer (nm) *)
  ("nm/s", (1e-9, 0));
  ("nm/min", (1.6666666666666667e-11, 0));
  ("nm/h", (2.777777777777778e-13, 0));
  ("nm/d", (1.1574074074074074e-14, 0));

  (* Picometer (pm) *)
  ("pm/s", (1e-12, 0));
  ("pm/min", (1.6666666666666667e-14, 0));
  ("pm/h", (2.777777777777778e-16, 0));
  ("pm/d", (1.1574074074074073e-17, 0))
].

Definition Speed_imperial : list item := [
  (* --- 3. Imperial & US Customary System --- *)

  (* Miles (mi) *)
  ("mi/s", (1609.344, 0));
  ("mi/min", (26.8224, 0));
  ("mi/h", (0.44704, 0));  (* (1609.344 / 3600) *)
  ("mph", (0.44704, 0));  (* Synonym *)
  ("mi/d", (0.018626666666666668, 0));

  (* Furlong (fur) *)
  ("fur/s", (201.168, 0));
  ("fur/min", (3.3528, 0));
  ("fur/h", (0.05588, 0));
  ("fur/d", (0.0023283333333333334, 0));

  (* Yard (yd) *)
  ("yd/s", (0.9144, 0));
  ("yd/min", (0.01524, 0));
  ("yd/h", (0.000254, 0));
  ("yd/d", (1.0583333333333334e-05, 0));

  (* Foot (ft) *)
  ("ft/s", (0.3048, 0));
  ("fps", (0.3048, 0));  (* Synonym *)
  ("ft/min", (0.00508, 0));
  ("fpm", (0.00508, 0));  (* Synonym *)
  ("ft/h", (8.466666666666667e-05, 0));
  ("ft/d", (3.527777777777778e-06, 0));

  (* Inch (in) *)
  ("in/s", (0.0254, 0));
  ("ips", (0.0254, 0));  (* Synonym *)
  ("in/min", (0.0004233333333333333, 0));
  ("in/h", (7.055555555555556e-06, 0));
  ("in/d", (2.9398148148148148e-07, 0))
].

Definition Speed_nautical : list item := [
  (* --- 4. Nautical & Aviation --- *)
  ("nmi/s", (1852, 0));
  ("nmi/min", (30.866666666666667, 0));
  ("nmi/h", (0.5144444444444445, 0));  (* (1852 / 3600) *)
  ("knots", (0.5144444444444445, 0));  (* Synonym *)
  ("knot", (0.5144444444444445, 0));  (* Synonym *)
  ("kn", (0.5144444444444445, 0));  (* Synonym *)
  ("nmi/d", (0.021435185185185185, 0))
].

Definition Speed_scientific : list item := [
  (* --- 5. Scientific & Astronomical --- *)
  ("c", (299792458, 0));  (* Speed of Light *)
  ("mach", (343, 0));  (* Mach 1 (approx. at sea level) *)

  (* Astronomical Unit (AU) *)
  ("AU/s", (149597870700, 0));
  ("AU/min", (2493297845.0, 0));
  ("AU/h", (41554964.083333336, 0));
  ("AU/d", (1731456.8368055556, 0));
  ("AU/year", (4740.47036326615, 0));  (* (per 365.25 days) *)

  (* Light-year (ly) *)
  ("ly/s", (9.4607304725808e15, 0));
  ("ly/min", (1.5767884120968e14, 0));
  ("ly/h", (2.627980686828e12, 0));
  ("ly/d", (1.094991952845e11, 0));
  ("ly/year", (299792458.00000006, 0));  (* (Effectively 1 * c) *)

  (* Parsec (pc) *)
  ("pc/s", (3.08567758149137e16, 0));
  ("pc/min", (5.142795969152284e14, 0));
  ("pc/h", (8.571326615253806e12, 0));
  ("pc/d", (3.571386089689086e11, 0));
  ("pc/year", (977792.208107572, 0))  (* (per 365.25 days) *)
].

(** The dict display of lines 825-983. *)
Definition Speed_items : list item :=
  Speed_base ++ Speed_metric ++ Speed_imperial ++ Speed_nautical ++ Speed_scientific.

(** Evaluating the display raises nothing. *)
Lemma Speed_loads : is_ok (Converter_float Speed_items) = true.
Proof. vm_compute. reflexivity. Qed.

Lemma Speed_exact_loads : is_ok (Converter_exact Speed_items) = true.
Proof. vm_compute. reflexivity. Qed.

(** [Speed = Converter({...})] *)
Definition Speed : Converter float :=
  get_ok (Converter_float Speed_items) Speed_loads.

(** The same table over the rationals: the specification of [Speed]. *)
Definition Speed_exact : Converter Q :=
  get_ok (Converter_exact Speed_items) Speed_exact_loads.

Arguments Speed_items : simpl never.
Arguments Speed : simpl never.
Arguments Speed_exact : simpl never.

(** The synonyms the source's comments declare, and the two spellings of the
    micrometre per second: (synonym, name it stands for). *)
Definition Speed_synonyms : list (string * string) := [
  ("mps", "m/s"); ("kph", "km/h"); ("mph", "mi/h");
  ("fps", "ft/s"); ("fpm", "ft/min"); ("ips", "in/s");
  ("knots", "nmi/h"); ("knot", "nmi/h"); ("kn", "nmi/h");
  ("μm/s", "um/s"); ("μm/min", "um/min"); ("μm/h", "um/h"); ("μm/d", "um/d")
].

(** A unit of length of [Length] beside the same length per second of
    [Speed]: the metric lengths, and the customary ones that [Length] writes
    through their exact metric value.  The foot per second ([0.3048], l.936)
    stands beside Ramden's link (["li-ramden"], [1 / 0.3048], l.165), which
    is one foot: the ["ft"] of [Length] is the rounded decimal [3.2808399]
    (l.128), which no coefficient of [Speed] mirrors; nor do the inch, the
    yard and the mile of [Length]. *)
Definition Speed_length_pairs : list (string * string) := [
  ("Tm", "Tm/s"); ("Gm", "Gm/s"); ("Mm", "Mm/s"); ("km", "km/s");
  ("hm", "hm/s"); ("dam", "dam/s"); ("m", "m/s"); ("dm", "dm/s");
  ("cm", "cm/s"); ("mm", "mm/s"); ("µm", "um/s"); ("µm", "μm/s");
  ("nm", "nm/s"); ("pm", "pm/s");
  ("nmi", "nmi/s"); ("fur", "fur/s"); ("li-ramden", "ft/s"); ("au", "AU/s")
].

Local Open Scope Q_scope.
(** Every unit per minute, hour, day or year of the table beside the same
    length per second, with the number of seconds in the time unit (a year
    is the 365.25 days of the comments, l.968 and l.982), and whether the two
    coefficients agree within [10^-15]: (unit, seconds, unit per second,
    verdict).  The table writes base units per unit, so that the coefficient
    of the unit per hour is that of the unit per second divided by 3600, and
    the engine converts [x] of the unit per hour to [3600 x] of the unit per
    second.  Two rows disagree: the astronomical unit per year and the
    parsec per year. *)
Definition Speed_per_time : list (string * Q * string * bool) := [
  ("Tm/min", 60, "Tm/s", true); ("Tm/h", 3600, "Tm/s", true); ("Tm/d", 86400, "Tm/s", true);
  ("Gm/min", 60, "Gm/s", true); ("Gm/h", 3600, "Gm/s", true); ("Gm/d", 86400, "Gm/s", true);
  ("Mm/min", 60, "Mm/s", true); ("Mm/h", 3600, "Mm/s", true); ("Mm/d", 86400, "Mm/s", true);
  ("km/min", 60, "km/s", true); ("km/h", 3600, "km/s", true); ("km/d", 86400, "km/s", true);
  ("hm/min", 60, "hm/s", true); ("hm/h", 3600, "hm/s", true); ("hm/d", 86400, "hm/s", true);
  ("dam/min", 60, "dam/s", true); ("dam/h", 3600, "dam/s", true); ("dam/d", 86400, "dam/s", true);
  ("m/min", 60, "m/s", true); ("m/h", 3600, "m/s", true); ("m/d", 86400, "m/s", true);
  ("dm/min", 60, "dm/s", true); ("dm/h", 3600, "dm/s", true); ("dm/d", 86400, "dm/s", true);
  ("cm/min", 60, "cm/s", true); ("cm/h", 3600, "cm/s", true); ("cm/d", 86400, "cm/s", true);
  ("mm/min", 60, "mm/s", true); ("mm/h", 3600, "mm/s", true); ("mm/d", 86400, "mm/s", true);
  ("um/min", 60, "um/s", true); ("um/h", 3600, "um/s", true); ("um/d", 86400, "um/s", true);
  ("μm/min", 60, "μm/s", true); ("μm/h", 3600, "μm/s", true); ("μm/d", 86400, "μm/s", true);
  ("nm/min", 60, "nm/s", true); ("nm/h", 3600, "nm/s", true); ("nm/d", 86400, "nm/s", true);
  ("pm/min", 60, "pm/s", true); ("pm/h", 3600, "pm/s", true); ("pm/d", 86400, "pm/s", true);
  ("mi/min", 60, "mi/s", true); ("mi/h", 3600, "mi/s", true); ("mi/d", 86400, "mi/s", true);
  ("fur/min", 60, "fur/s", true); ("fur/h", 3600, "fur/s", true); ("fur/d", 86400, "fur/s", true);
  ("yd/min", 60, "yd/s", true); ("yd/h", 3600, "yd/s", true); ("yd/d", 86400, "yd/s", true);
  ("ft/min", 60, "ft/s", true); ("ft/h", 3600, "ft/s", true); ("ft/d", 86400, "ft/s", true);
  ("in/min", 60, "in/s", true); ("in/h", 3600, "in/s", true); ("in/d", 86400, "in/s", true);
  ("nmi/min", 60, "nmi/s", true); ("nmi/h", 3600, "nmi/s", true); ("nmi/d", 86400, "nmi/s", true);
  ("AU/min", 60, "AU/s", true); ("AU/h", 3600, "AU/s", true); ("AU/d", 86400, "AU/s", true); ("AU/year", 31557600, "AU/s", false);
  ("ly/min", 60, "ly/s", true); ("ly/h", 3600, "ly/s", true); ("ly/d", 86400, "ly/s", true); ("ly/year", 31557600, "ly/s", true);
  ("pc/min", 60, "pc/s", true); ("pc/h", 3600, "pc/s", true); ("pc/d", 86400, "pc/s", true); ("pc/year", 31557600, "pc/s", false)
].

Local Close Scope Q_scope.
(** [mirrorsb]: the scale of the speed unit times the scale of the length
    unit is 1. *)
Definition mirrorsb (p : string * string) : bool :=
  match dict_get (fst p) (units Length_exact), dict_get (snd p) (units Speed_exact) with
  | Some (sl, _), Some (ss, _) => Qeq_bool (ss * sl) 1
  | _, _ => false
  end.

#[local] Set Warnings "-inexact-float".
Local Close Scope py_scope.
Local Open Scope Q_scope.

(** ** Construction *)

Lemma Speed_distinct : NoDup (map fst Speed_items).
Proof. apply nodupb_NoDup. vm_compute. reflexivity. Qed.

Lemma Speed_float_ok : Converter_float Speed_items = inr Speed.
Proof. apply get_ok_inr. Qed.

Lemma Speed_exact_ok : Converter_exact Speed_items = inr Speed_exact.
Proof. apply get_ok_inr. Qed.

#[export] Instance Speed_table : ExactTable Speed_exact "m/s".
Proof. apply exact_tableb_sound. vm_compute. reflexivity. Qed.

#[export] Instance Speed_offset_free : OffsetFree Speed_exact.
Proof. apply offset_freeb_sound. vm_compute. reflexivity. Qed.

(** ** The orientation of the coefficients *)

Lemma mirrorsb_sound (p : string * string) (x : Q) :
  mirrorsb p = true ->
  convert Speed_exact x (snd p) "m/s" =r= convert Length_exact x "m" (fst p).
Proof.
  unfold mirrorsb. intros H.
  destruct (dict_get (fst p) (units Length_exact)) as [[sl ol]|] eqn:El; [|discriminate].
  destruct (dict_get (snd p) (units Speed_exact)) as [[ss os]|] eqn:Es; [|discriminate].
  apply Qeq_bool_eq in H.
  rewrite (convert_ratio (base := "m/s") x _ _ Es (eq_refl : dict_get "m/s" (units Speed_exact) = Some (1, 0))).
  rewrite (convert_ratio (base := "m") x _ _ (eq_refl : dict_get "m" (units Length_exact) = Some (1, 0)) El).
  simpl. assert (Hss : ~ ss == 0) by (eapply table_scale, Es).
  setoid_replace sl with (/ ss); [field; assumption|].
  apply (Qmult_inj_l _ _ ss Hss). rewrite H. field. assumption.
Qed.

(** C2. [Speed] converts a length per second to metres per second exactly as
    [Length] converts metres to that length: the two tables of one module
    read their scales in opposite directions, and a kilometre per second
    comes out as a thousandth of a metre per second. *)
Theorem Speed_mirrors_Length (p : string * string) (x : Q) :
  In p Speed_length_pairs ->
  convert Speed_exact x (snd p) "m/s" =r= convert Length_exact x "m" (fst p).
Proof.
  intros Hin. apply mirrorsb_sound.
  assert (F : forallb mirrorsb Speed_length_pairs = true) by (vm_compute; reflexivity).
  exact (forallb_In _ _ _ F Hin).
Qed.

Lemma Speed_mirrors_Length_witness :
  convert Speed_exact 5 "km/s" "m/s" =r= convert Length_exact 5 "m" "km".
Proof. apply (Speed_mirrors_Length ("km", "km/s") 5). simpl. tauto. Defined.

(** C15. On floats: one kilometre per hour converts to 3.6 metres per second and
    one metre per second to 0.2778 kilometres per hour; 100 km/h to 160.9
    miles per hour; one kilometre per second to a thousandth of a metre per
    second, where [Length] makes a kilometre a thousand metres; the speed of
    light to 3.3 nanometres per second.  Each is the inverse of the physical
    conversion. *)
Theorem Speed_inverted :
  convert Speed 1%float "km/h" "m/s" = inr 3.5999999999999996%float /\
  convert Speed 1%float "m/s" "km/h" = inr 0.2777777777777778%float /\
  convert Speed 100%float "km/h" "mph" = inr 160.93440000000001%float /\
  convert Speed 1%float "km/s" "m/s" = inr 0.001%float /\
  convert Length 1%float "km" "m" = inr 1000%float /\
  convert Speed 1%float "c" "m/s" = inr 3.3356409519815204e-09%float.
Proof. repeat split; vm_compute; reflexivity. Qed.

(** ** The units per minute, hour, day and year *)

(** C16. Each of the 72 units per minute, hour, day or year is decided against
    the same length per second: for every nonzero value, converting from the
    unit per time to the unit per second multiplies by the number of seconds
    in the time unit, within a relative error of [10^-15], exactly when the
    verdict recorded is [true].  Seventy rows agree to the last digit
    written; the astronomical unit per year and the parsec per year do
    not. *)
Theorem Speed_time (r : string * Q * string) (b : bool) (x : Q) :
  In (r, b) Speed_per_time -> ~ x == 0 ->
  (exists y, convert Speed_exact x (fst (fst r)) (snd r) = inr y /\
             Qabs (y - snd (fst r) * x) * 10 ^ 15 <= Qabs y) <-> b = true.
Proof.
  intros Hin Hx. eapply (near_verdictb_sound (base := "m/s")); [|exact Hin|exact Hx].
  vm_compute. reflexivity.
Qed.

Lemma Speed_time_witness :
  (exists y, convert Speed_exact 90 "km/h" "km/s" = inr y /\
             Qabs (y - 3600 * 90) * 10 ^ 15 <= Qabs y) <-> true = true.
Proof.
  apply (Speed_time ("km/h", 3600, "km/s") true 90); [simpl; tauto | discriminate].
Defined.

(** C39. The two rows per year that disagree.  The parsec per year is a thousand
    times too small beside the parsec per second: its coefficient is the
    parsec per year in kilometres per second, in a table of metres per
    second.  The astronomical unit per year is off in the eighth digit. *)
Theorem Speed_year :
  exists p a, convert Speed_exact 1 "pc/year" "pc/s" = inr p /\
              convert Speed_exact 1 "AU/year" "AU/s" = inr a /\
              999.999 * 31557600 < p < 1000.001 * 31557600 /\
              1.00000002 * 31557600 < a < 1.00000003 * 31557600.
Proof.
  do 2 eexists. split; [|split]; [vm_compute; reflexivity..|].
  repeat split; reflexivity.
Qed.

(** ** Names *)

(** C37. The micrometre is written with the micro sign (U+00B5) in [Length] and
    with the Greek mu (U+03BC) in [Speed]; neither table knows the other
    spelling. *)
Theorem Speed_micro_signs :
  hasUnit Speed "μm/s" = true /\ hasUnit Speed "µm/s" = false /\
  hasUnit Length "µm" = true /\ hasUnit Length "μm" = false.
Proof. repeat split; vm_compute; reflexivity. Qed.

(** ** What the module-wide theorems need of this table *)

(** The synonyms are written with the same coefficients as the names they
    stand for. *)
Lemma Speed_synonyms_same : synonymsb Speed_items Speed_synonyms = true.
Proof. vm_compute. reflexivity. Qed.

(** The float coefficients are within [2^-53] of the exact ones. *)
Lemma Speed_accurate : accurate_display 53 Speed_items = true.
Proof. vm_compute. reflexivity. Qed.

(** Every float scale is finite and nonzero, every float offset finite. *)
Lemma Speed_safe : safe_tableb Speed = true.
Proof. vm_compute. reflexivity. Qed.
