(* ===== verification/Weight.v ===== *)
(** * The weight table ([src/Converters.py], lines 345-470)

    [Weight = Converter({...})]: 97 names of units of mass, with the kilogram
    (["kg"]) as the base unit and every offset zero.  The metric entries are
    written as literals; the customary and historical ones as quotients
    [1 / kilograms-per-unit], which Python evaluates to a float when the
    module is loaded.  The display is written entry for entry, one definition
    per commented section of the source; [Weight_items] is the whole display,
    [Weight] the float engine and [Weight_exact] its exact specification.

    The construction lemmas, the interfaces [ExactTable] and [OffsetFree]
    and the checks at the end of the file are what the module-wide theorems
    of [Converters] need of this table.  The theorems of this file: the
    relations between units that the comments of the source state (a stone
    is 14 pounds), which hold exactly in [Weight_exact]; the SI prefixes
    against those of [Length]; and conversions on floats. *)

From Stdlib Require Import List String Bool ZArith QArith Qabs Lia Lqa Floats.
From S2P Require Import Prelude PyDict PyNum Engine Length.
Import ListNotations.
Local Open Scope string_scope.
Local Open Scope py_scope.

(** ** The display *)

(** Lines 348-351. *)
Definition Weight_base : list item := [
  (* --- 1. Base Unit & Synonyms --- *)
  ("kg", (1, 0));  (* Kilogram (Base Unit) *)
  ("kilogram", (1, 0));  (* Synonym *)
  ("kilo", (1, 0))  (* Synonym *)
].

(** Lines 353-383. *)
Definition Weight_metric : list item := [
  (* --- 2. Metric (SI) Units (Full Range) --- *)
  ("g", (1000, 0));  (* Gram *)
  ("gram", (1000, 0));  (* Synonym *)
  ("tonne", (0.001, 0));  (* Tonne (Metric Ton) *)
  ("ton", (0.001, 0));  (* Synonym (same as Mg) *)
  (* Multiples *)
  ("dag", (100, 0));  (* Decagram *)
  ("hg", (10, 0));  (* Hectogram *)
  ("Mg", (0.001, 0));  (* Megagram *)
  ("Gg", (1e-6, 0));  (* Gigagram *)
  ("Tg", (1e-9, 0));  (* Teragram *)
  ("Pg", (1e-12, 0));  (* Petagram *)
  ("Eg", (1e-15, 0));  (* Exagram *)
  ("Zg", (1e-18, 0));  (* Zettagram *)
  ("Yg", (1e-21, 0));  (* Yottagram *)
  ("Rg", (1e-24, 0));  (* Ronnagram (New) *)
  ("Qg", (1e-27, 0));  (* Quettagram (New) *)
  (* Submultiples *)
  ("dg", (10000, 0));  (* Decigram *)
  ("cg", (100000, 0));  (* Centigram *)
  ("mg", (1e6, 0));  (* Milligram *)
  ("ug", (1e9, 0));  (* Microgram *)
  ("mcg", (1e9, 0));  (* Synonym for ug *)
  ("ng", (1e12, 0));  (* Nanogram *)
  ("pg", (1e15, 0));  (* Picogram *)
  ("fg", (1e18, 0));  (* Femtogram *)
  ("ag", (1e21, 0));  (* Attogram *)
  ("zg", (1e24, 0));  (* Zeptogram *)
  ("yg", (1e27, 0));  (* Yoctogram *)
  ("rg", (1e30, 0));  (* Rontogram (New) *)
  ("qg", (1e33, 0))  (* Quectogram (New) *)
].

(** Lines 385-397. *)
Definition Weight_imperial : list item := [
  (* --- 3. Imperial & US Customary (Avoirdupois) --- *)
  ("lb", (1 / 0.45359237, 0));  (* Pound *)
  ("pound", (1 / 0.45359237, 0));  (* Synonym *)
  ("oz", (1 / 0.028349523125, 0));  (* Ounce *)
  ("ounce", (1 / 0.028349523125, 0));  (* Synonym *)
  ("dr", (1 / 0.0017718451953125, 0));  (* Dram (1/16 oz) *)
  ("gr", (1 / 6.479891e-5, 0));  (* Grain (1/7000 lb) *)
  ("st", (1 / 6.35029318, 0));  (* Stone (14 lb) *)
  ("cwt", (1 / 45.359237, 0));  (* US Hundredweight (100 lb) *)
  ("lwt", (1 / 50.80234544, 0));  (* Imperial Hundredweight (112 lb) *)
  ("uston", (1 / 907.18474, 0));  (* US Ton (Short ton, 2000 lb) *)
  ("ukton", (1 / 1016.0469088, 0));  (* UK Ton (Long ton, 2240 lb) *)
  ("slug", (1 / 14.59390294, 0))  (* Slug *)
].

(** Lines 399-405. *)
Definition Weight_troy : list item := [
  (* --- 4. Troy & Apothecary --- *)
  ("lbt", (1 / 0.3732417216, 0));  (* Troy Pound (12 ozt) *)
  ("ozt", (1 / 0.0311034768, 0));  (* Troy Ounce (480 gr) *)
  ("dwt", (1 / 0.00155517384, 0));  (* Pennyweight (24 gr) *)
  ("ozap", (1 / 0.0311034768, 0));  (* Apothecary Ounce (same as ozt) *)
  ("drap", (1 / 0.0038879346, 0));  (* Apothecary Dram (60 gr) *)
  ("sgr", (1 / 0.0012959782, 0))  (* Scruple (Apothecary, 20 gr) *)
].

(** Lines 407-436. *)
Definition Weight_european : list item := [
  (* --- 5. Historical & Regional (European) --- *)
  (* French (Paris) *)
  ("livre-fr", (1 / 0.4895, 0));  (* Livre (Pound) *)
  ("marc-fr", (1 / 0.24475, 0));  (* Marc (1/2 livre) *)
  ("once-fr", (1 / 0.03059, 0));  (* Once (Ounce) *)
  ("gros-fr", (1 / 0.003824, 0));  (* Gros *)
  ("grain-fr", (1 / 5.311e-5, 0));  (* Grain *)
  (* Spanish (Castilian) *)
  ("libra-es", (1 / 0.460093, 0));  (* Libra (Pound) *)
  ("onza-es", (1 / 0.02875, 0));  (* Onza (Ounce) *)
  ("grano-es", (1 / 3.55e-5, 0));  (* Grano *)
  ("arroba-es", (1 / 11.502, 0));  (* Arroba (Mass) *)
  ("quintal-es", (1 / 46.009, 0));  (* Quintal *)
  (* Portuguese *)
  ("arratel-pt", (1 / 0.459, 0));  (* Arratel (Pound) *)
  ("libra-pt", (1 / 0.459, 0));  (* Libra (Synonym) *)
  ("onca-pt", (1 / 0.02868, 0));  (* Onca (Ounce) *)
  ("grao-pt", (1 / 4.99e-5, 0));  (* Grao *)
  ("arroba-pt", (1 / 14.688, 0));  (* Arroba (Mass) *)
  ("quintal-pt", (1 / 58.752, 0));  (* Quintal *)
  (* German (Prussian) *)
  ("pfund-de", (1 / 0.4677, 0));  (* Pfund (Pound) *)
  ("unze-de", (1 / 0.02923, 0));  (* Unze (Ounce) *)
  ("loth-de", (1 / 0.01461, 0));  (* Loth *)
  ("zentner-de", (1 / 46.77, 0));  (* Zentner *)
  (* Russian *)
  ("funt-ru", (1 / 0.4095, 0));  (* Funt (Pound) *)
  ("zolotnik-ru", (1 / 0.00426, 0));  (* Zolotnik *)
  ("dolia-ru", (1 / 4.44e-5, 0));  (* Dolia *)
  ("pood", (1 / 16.38, 0))  (* Pood *)
].

(** Lines 438-444. *)
Definition Weight_asian : list item := [
  (* --- 6. Historical & Regional (Asian) --- *)
  ("tael", (1 / 0.05, 0));  (* Tael (Chinese, approx 50g) *)
  ("catti", (1 / 0.6048, 0));  (* Catti (or Kati) *)
  ("picul", (1 / 60.48, 0));  (* Picul *)
  ("momme-jp", (1 / 0.00375, 0));  (* Momme (Japanese) *)
  ("tola-in", (1 / 0.01166, 0));  (* Tola (India) *)
  ("seer-in", (1 / 0.933, 0))  (* Seer (India) *)
].

(** Lines 446-459. *)
Definition Weight_ancient : list item := [
  (* --- 7. Historical (Ancient) --- *)
  (* Roman *)
  ("libra-rom", (1 / 0.3289, 0));  (* Roman Pound *)
  ("uncia-rom", (1 / 0.0274, 0));  (* Roman Ounce *)
  ("drachma-rom", (1 / 0.00342, 0));  (* Roman Drachma *)
  (* Greek (Attic) *)
  ("mina-gr", (1 / 0.431, 0));  (* Mina *)
  ("drachma-gr", (1 / 0.00431, 0));  (* Drachma *)
  ("obol-gr", (1 / 0.00072, 0));  (* Obol *)
  (* Hebrew *)
  ("shekel-heb", (1 / 0.0114, 0));  (* Shekel *)
  ("beka-heb", (1 / 0.0057, 0));  (* Beka *)
  ("gerah-heb", (1 / 0.00057, 0));  (* Gerah *)
  ("talent-heb", (1 / 34.2, 0))  (* Talent *)
].

(** Lines 461-469. *)
Definition Weight_scientific : list item := [
  (* --- 8. Scientific & Specialized --- *)
  ("ct", (5000, 0));  (* Carat *)
  ("Da", (1 / 1.660539e-27, 0));  (* Dalton / AMU *)
  ("gamma", (1e9, 0));  (* Gamma (1 microgram) *)
  ("m_p", (1 / 2.1764e-8, 0));  (* Planck Mass *)
  ("M_earth", (1 / 5.972e24, 0));  (* Earth Mass *)
  ("M_jup", (1 / 1.898e27, 0));  (* Jupiter Mass *)
  ("M_solar", (1 / 1.989e30, 0));  (* Solar Mass *)
  ("M_sun", (1 / 1.989e30, 0))  (* Synonym *)
].

(** The dict display of lines 347-470. *)
Definition Weight_items : list item :=
  Weight_base ++ Weight_metric ++ Weight_imperial ++ Weight_troy ++ Weight_european ++
  Weight_asian ++ Weight_ancient ++ Weight_scientific.

(** Evaluating the display raises nothing. *)
Lemma Weight_loads : is_ok (Converter_float Weight_items) = true.
Proof. vm_compute. reflexivity. Qed.

Lemma Weight_exact_loads : is_ok (Converter_exact Weight_items) = true.
Proof. vm_compute. reflexivity. Qed.

(** [Weight = Converter({...})] *)
Definition Weight : Converter float :=
  get_ok (Converter_float Weight_items) Weight_loads.

(** The same table over the rationals: the specification of [Weight]. *)
Definition Weight_exact : Converter Q :=
  get_ok (Converter_exact Weight_items) Weight_exact_loads.

Arguments Weight_items : simpl never.
Arguments Weight : simpl never.
Arguments Weight_exact : simpl never.

(** The synonyms the source's comments declare: (synonym, name it stands for). *)
Definition Weight_synonyms : list (string * string) := [
  ("kilogram", "kg"); ("kilo", "kg"); ("gram", "g"); ("ton", "tonne");
  ("Mg", "tonne"); ("mcg", "ug"); ("gamma", "ug"); ("pound", "lb");
  ("ounce", "oz"); ("ozap", "ozt"); ("libra-pt", "arratel-pt");
  ("M_sun", "M_solar")
].

(** A metric unit of [Length] beside the unit of [Weight] with the same SI
    prefix. *)
Definition Weight_prefixes : list (string * string) := [
  ("m", "g"); ("dam", "dag"); ("hm", "hg"); ("km", "kg"); ("Mm", "Mg");
  ("Gm", "Gg"); ("Tm", "Tg"); ("Pm", "Pg"); ("Em", "Eg"); ("Zm", "Zg");
  ("Ym", "Yg"); ("Rm", "Rg"); ("Qm", "Qg"); ("dm", "dg"); ("cm", "cg");
  ("mm", "mg"); ("µm", "ug"); ("nm", "ng"); ("pm", "pg"); ("fm", "fg");
  ("am", "ag"); ("zm", "zg"); ("ym", "yg"); ("rm", "rg"); ("qm", "qg")
].

Local Close Scope py_scope.
Local Open Scope Q_scope.

(** The relations the source's comments state, "one [u] is [k] [v]". *)
Definition Weight_relations : list (string * Q * string) := [
  ("oz", 16, "dr"); ("lb", 16, "oz"); ("lb", 7000, "gr"); ("st", 14, "lb");
  ("cwt", 100, "lb"); ("lwt", 112, "lb"); ("uston", 2000, "lb");
  ("ukton", 2240, "lb"); ("lbt", 12, "ozt"); ("ozt", 480, "gr");
  ("dwt", 24, "gr"); ("drap", 60, "gr"); ("sgr", 20, "gr");
  ("livre-fr", 2, "marc-fr"); ("tael", 50, "g"); ("kg", 1000, "g")
].

#[local] Set Warnings "-inexact-float".

(** ** Construction *)

Lemma Weight_distinct : NoDup (map fst Weight_items).
Proof. apply nodupb_NoDup. vm_compute. reflexivity. Qed.

Lemma Weight_float_ok : Converter_float Weight_items = inr Weight.
Proof. apply get_ok_inr. Qed.

Lemma Weight_exact_ok : Converter_exact Weight_items = inr Weight_exact.
Proof. apply get_ok_inr. Qed.

#[export] Instance Weight_table : ExactTable Weight_exact "kg".
Proof. apply exact_tableb_sound. vm_compute. reflexivity. Qed.

#[export] Instance Weight_offset_free : OffsetFree Weight_exact.
Proof. apply offset_freeb_sound. vm_compute. reflexivity. Qed.

(** ** The relations of the comments *)

(** C5. Every relation between two units that a comment of the table states
    holds exactly of the written coefficients: converting [x] of the larger
    unit gives [k * x] of the smaller. *)
Theorem Weight_relation (r : string * Q * string) (x : Q) :
  In r Weight_relations ->
  convert Weight_exact x (fst (fst r)) (snd r) =r= ok (snd (fst r) * x).
Proof.
  intros Hin.
  apply (relationsb_sound (base := "kg") Weight_relations r x); [|exact Hin].
  vm_compute. reflexivity.
Qed.

Lemma Weight_relation_witness :
  convert Weight_exact 3 "st" "lb" =r= ok (14 * 3).
Proof. apply (Weight_relation ("st", 14, "lb") 3). simpl. tauto. Defined.

(** ** The SI prefixes *)

(** C11. An SI prefix means in [Weight] what it means in [Length]: [x] of a
    prefixed gram is as many grams as [x] of the prefixed metre is metres. *)
Theorem Weight_prefix (p : string * string) (x : Q) :
  In p Weight_prefixes ->
  exists y, convert Length_exact x (fst p) "m" = inr y /\
            (convert Weight_exact x (snd p) "g" =r= ok y).
Proof.
  intros Hin. apply (dimensionb_sound (bl := "m") (bd := "kg") 1 "g" p x).
  assert (F : forallb (dimensionb 1 Length_exact Weight_exact "g") Weight_prefixes = true)
    by (vm_compute; reflexivity).
  exact (forallb_In _ _ _ F Hin).
Qed.

Lemma Weight_prefix_witness :
  exists y, convert Length_exact 5 "Mm" "m" = inr y /\
            (convert Weight_exact 5 "Mg" "g" =r= ok y).
Proof. apply (Weight_prefix ("Mm", "Mg") 5). simpl. tauto. Defined.

(** On floats the customary relations come out exact at 1, and a kilogram
    is 2.2046 pounds. *)
Theorem Weight_scenarios :
  convert Weight 1%float "lb" "oz" = inr 16%float /\
  convert Weight 1%float "st" "lb" = inr 14%float /\
  convert Weight 1%float "uston" "lb" = inr 2000%float /\
  convert Weight 1%float "kg" "lb" = inr 2.2046226218487757%float /\
  convert Weight 1%float "lb" "kg" = inr 0.45359237000000002%float.
Proof. repeat split; vm_compute; reflexivity. Qed.

(** ** What the module-wide theorems need of this table *)

(** The synonyms are written with the same coefficients as the names they
    stand for. *)
Lemma Weight_synonyms_same : synonymsb Weight_items Weight_synonyms = true.
Proof. vm_compute. reflexivity. Qed.

(** The float coefficients are within [2^-52] of the exact ones. *)
Lemma Weight_accurate : accurate_display 52 Weight_items = true.
Proof. vm_compute. reflexivity. Qed.

(** Every float scale is finite and nonzero, every float offset finite. *)
Lemma Weight_safe : safe_tableb Weight = true.
Proof. vm_compute. reflexivity. Qed.
