(* ===== verification/Volume.v ===== *)
(** * The volume table ([src/Converters.py], lines 472-691)

    [Volume = Converter({...})]: 171 names of units of volume, with the litre
    (["L"]) as the base unit and every offset zero.  The metric entries are
    written as literals; the customary and historical ones as quotients
    [1 / litres-per-unit].  The display is written entry for entry, one
    definition per commented section of the source; [Volume_items] is the
    whole display, [Volume] the float engine and [Volume_exact] its exact
    specification.

    The construction lemmas, the interfaces [ExactTable] and [OffsetFree]
    and the checks at the end of the file are what the module-wide theorems
    of [Converters] need of this table.  The theorems of this file: every
    relation between two units that a comment of the table states, decided
    over [Volume_exact] (six of them fail: the rundlet, the UK cup, the
    cord, the register ton, the tun and the butt), and the same for the
    customary chains that no comment states; the Planck volume against the
    cube of the Planck length; the SI prefixes and the cubic metric units
    against the units of [Length]; conversions on floats. *)

From Stdlib Require Import List String Bool ZArith QArith Qabs Lia Lqa Floats.
From S2P Require Import Prelude PyDict PyNum Engine Length.
Import ListNotations.
Local Open Scope string_scope.
Local Open Scope py_scope.

(** ** The display *)

(** Lines 475-505. *)
Definition Volume_metric : list item := [
  (* --- 1. Base & Metric (SI) Units (Liters) --- *)
  ("L", (1, 0));  (* Liter (Base Unit) *)
  ("liter", (1, 0));  (* Synonym *)
  ("cc", (1000, 0));  (* Cubic Centimeter (Synonym for mL) *)
  ("lambda", (1e6, 0));  (* Lambda (Synonym for µL in chemistry) *)
  (* Multiples *)
  ("daL", (0.1, 0));  (* Decaliter *)
  ("hL", (0.01, 0));  (* Hectoliter *)
  ("kL", (0.001, 0));  (* Kiloliter *)
  ("ML", (1e-6, 0));  (* Megaliter *)
  ("GL", (1e-9, 0));  (* Gigaliter *)
  ("TL", (1e-12, 0));  (* Teraliter *)
  ("PL", (1e-15, 0));  (* Petaliter *)
  ("EL", (1e-18, 0));  (* Exaliter *)
  ("ZL", (1e-21, 0));  (* Zettaliter *)
  ("YL", (1e-24, 0));  (* Yottaliter *)
  ("RL", (1e-27, 0));  (* Ronnaliter *)
  ("QL", (1e-30, 0));  (* Quettaliter *)
  (* Submultiples *)
  ("dL", (10, 0));  (* Deciliter *)
  ("cL", (100, 0));  (* Centiliter *)
  ("mL", (1000, 0));  (* Milliliter *)
  ("µL", (1e6, 0));  (* Microliter *)
  ("nL", (1e9, 0));  (* Nanoliter *)
  ("pL", (1e12, 0));  (* Picoliter *)
  ("fL", (1e15, 0));  (* Femtoliter *)
  ("aL", (1e18, 0));  (* Attoliter *)
  ("zL", (1e21, 0));  (* Zeptoliter *)
  ("yL", (1e24, 0));  (* Yoctoliter *)
  ("rL", (1e27, 0));  (* Rontoliter *)
  ("qL", (1e30, 0))  (* Quectoliter *)
].

(** Lines 507-535. *)
Definition Volume_cubic : list item := [
  (* --- 2. Cubic Metric Units (m³) --- *)
  ("m³", (0.001, 0));  (* Cubic Meter (Base for this section) *)
  ("stere", (0.001, 0));  (* Stere (Synonym for m³) *)
  (* Multiples *)
  ("dam³", (1e-6, 0));  (* Cubic Decameter (10³ m³) *)
  ("hm³", (1e-9, 0));  (* Cubic Hectometer (10⁶ m³) *)
  ("km³", (1e-12, 0));  (* Cubic Kilometer (10⁹ m³) *)
  ("Mm³", (1e-21, 0));  (* Cubic Megameter (10¹⁸ m³) *)
  ("Gm³", (1e-30, 0));  (* Cubic Gigameter (10²⁷ m³) *)
  ("Tm³", (1e-39, 0));  (* Cubic Terameter (10³⁶ m³) *)
  ("Pm³", (1e-48, 0));  (* Cubic Petameter (10⁴⁵ m³) *)
  ("Em³", (1e-57, 0));  (* Cubic Exameter (10⁵⁴ m³) *)
  ("Zm³", (1e-66, 0));  (* Cubic Zettameter (10⁶³ m³) *)
  ("Ym³", (1e-75, 0));  (* Cubic Yottameter (10⁷² m³) *)
  ("Rm³", (1e-84, 0));  (* Cubic Ronnameter (10⁸¹ m³) *)
  ("Qm³", (1e-93, 0));  (* Cubic Quettameter (10⁹⁰ m³) *)
  (* Submultiples *)
  ("dm³", (1, 0));  (* Cubic Decimeter (10⁻³ m³) *)
  ("cm³", (1000, 0));  (* Cubic Centimeter (10⁻⁶ m³) *)
  ("mm³", (1e6, 0));  (* Cubic Millimeter (10⁻⁹ m³) *)
  ("µm³", (1e15, 0));  (* Cubic Micrometer (10⁻¹⁸ m³) *)
  ("nm³", (1e24, 0));  (* Cubic Nanometer (10⁻²⁷ m³) *)
  ("pm³", (1e33, 0));  (* Cubic Picometer (10⁻³⁶ m³) *)
  ("fm³", (1e42, 0));  (* Cubic Femtometer (10⁻⁴⁵ m³) *)
  ("am³", (1e51, 0));  (* Cubic Attometer (10⁻⁵⁴ m³) *)
  ("zm³", (1e60, 0));  (* Cubic Zeptometer (10⁻⁶³ m³) *)
  ("ym³", (1e69, 0));  (* Cubic Yoctometer (10⁻⁷² m³) *)
  ("rm³", (1e78, 0));  (* Cubic Rontometer (10⁻⁸¹ m³) *)
  ("qm³", (1e87, 0))  (* Cubic Quectometer (10⁻⁹⁰ m³) *)
].

(** Lines 537-553. *)
Definition Volume_us_liquid : list item := [
  (* --- 3. US Customary (Liquid) & Apothecary --- *)
  ("gal", (1 / 3.785411784, 0));  (* US Gallon *)
  ("qt", (1 / 0.946352946, 0));  (* US Quart *)
  ("pt", (1 / 0.473176473, 0));  (* US Pint *)
  ("cup", (1 / 0.24, 0));  (* US Legal Cup (240mL) *)
  ("cup-us", (1 / 0.2365882365, 0));  (* US Customary Cup *)
  ("fl_oz", (1 / 0.0295735295625, 0));  (* US Fluid Ounce *)
  ("tbsp", (1 / 0.01478676478125, 0));  (* US Tablespoon *)
  ("tsp", (1 / 0.00492892159375, 0));  (* US Teaspoon *)
  ("gill-us", (1 / 0.11829411825, 0));  (* US Gill *)
  ("fldr", (1 / 0.0036966911953125, 0));  (* US Fluid Dram *)
  ("flsc-us", ((1 / 0.0295735295625) * 24, 0));  (* US Fluid Scruple (1/24 fl_oz) *)
  ("min", (1 / 6.1611519921875e-5, 0));  (* US Minim *)
  ("bbl-fl", (1 / 119.240471196, 0));  (* US Barrel (Fluid, 31.5 gal) *)
  ("bbl-oil", (1 / 158.987294928, 0));  (* US Barrel (Oil, 42 gal) *)
  ("rundlet", (1 / 69.9721179, 0));  (* Rundlet (18.5 US gal) *)
  ("tierce", (1 / 158.987294928, 0))  (* Tierce (Synonym for bbl-oil) *)
].

(** Lines 555-569. *)
Definition Volume_uk : list item := [
  (* --- 4. UK Imperial & Apothecary --- *)
  ("gal-uk", (1 / 4.54609, 0));  (* UK Gallon *)
  ("qt-uk", (1 / 1.1365225, 0));  (* UK Quart *)
  ("pt-uk", (1 / 0.56826125, 0));  (* UK Pint *)
  ("cup-uk", (1 / 0.284130625, 0));  (* UK Cup (284 mL) *)
  ("fl_oz-uk", (1 / 0.0284130625, 0));  (* UK Fluid Ounce *)
  ("tbsp-uk", (1 / 0.0177581640625, 0));  (* UK Tablespoon *)
  ("tsp-uk", (1 / 0.0059193880208333, 0));  (* UK Teaspoon *)
  ("gill-uk", (1 / 0.1420653125, 0));  (* UK Gill *)
  ("noggin-uk", (4 / 0.56826125, 0));  (* Noggin (1/4 UK pt) *)
  ("pottle-uk", (1 / 2.273045, 0));  (* Pottle (2 UK qt) *)
  ("fldr-uk", (8 / 0.0284130625, 0));  (* UK Fluid Drachm (1/8 fl_oz-uk) *)
  ("flsc-uk", (24 / 0.0284130625, 0));  (* UK Fluid Scruple (1/3 fldr-uk) *)
  ("firkin", (1 / 40.91481, 0));  (* Firkin (UK, 9 UK gal) *)
  ("kilderkin-uk", (1 / 81.82962, 0))  (* Kilderkin (18 UK gal) *)
].

(** Lines 571-576. *)
Definition Volume_us_dry : list item := [
  (* --- 5. US Customary (Dry) --- *)
  ("gal-us-dry", (1 / 4.40488377086, 0));  (* US Dry Gallon *)
  ("qt-us-dry", (1 / 1.101220942715, 0));  (* US Dry Quart *)
  ("pt-us-dry", (1 / 0.5506104713575, 0));  (* US Dry Pint *)
  ("pk-us", (1 / 8.80976754172, 0));  (* US Peck *)
  ("bu-us", (1 / 35.23907016688, 0))  (* US Bushel *)
].

(** Lines 578-583. *)
Definition Volume_cubic_imperial : list item := [
  (* --- 6. Cubic Imperial / US Units --- *)
  ("in³", (1 / 0.016387064, 0));  (* Cubic Inch *)
  ("ft³", (1 / 28.316846592, 0));  (* Cubic Foot *)
  ("yd³", (1 / 764.554857984, 0));  (* Cubic Yard *)
  ("mi³", (1 / 4.16818182544058e12, 0));  (* Cubic Mile *)
  ("af", (1 / 1233481.8375475, 0))  (* Acre-foot *)
].

(** Lines 585-591. *)
Definition Volume_cooking : list item := [
  (* --- 7. Cooking (Other Metric) --- *)
  ("tsp-met", (200, 0));  (* Teaspoon (Metric, 5 mL) *)
  ("tbsp-met", (1000 / 15, 0));  (* Tablespoon (Metric, 15 mL) *)
  ("cup-met", (4, 0));  (* Cup (Metric, 250 mL) *)
  ("cup-aus", (4, 0));  (* Cup (Australia, 250 mL) *)
  ("tbsp-aus", (50, 0));  (* Tablespoon (Australia, 20 mL) *)
  ("cup-jp", (5, 0))  (* Cup (Japan, 200 mL) *)
].

(** Lines 593-599. *)
Definition Volume_industry : list item := [
  (* --- 8. Industry & Specialized --- *)
  ("board-foot", (1 / 2.359737216, 0));  (* Board Foot (12x12x1 in) *)
  ("cord", (1 / 3624.55635, 0));  (* Cord (Firewood, 128 ft³) *)
  ("register-ton", (1 / 2831.68466, 0));  (* Register Ton (Shipping, 100 ft³) *)
  ("hogshead", (1 / 238.480942392, 0));  (* Hogshead (US, 63 gal) *)
  ("tun", (1 / 953.9238, 0));  (* Tun (Wine, 252 gal) *)
  ("butt", (1 / 476.9619, 0))  (* Butt (Wine, 126 gal) *)
].

(** Lines 601-662. *)
Definition Volume_regional : list item := [
  (* --- 9. Historical & Regional --- *)
  (* Spanish *)
  ("celemín-es", (1 / 4.625, 0));  (* Celemín *)
  ("fanega-es-dry", (1 / 55.5, 0));  (* Fanega (dry) *)
  ("cántara-es", (1 / 16.133, 0));  (* Cántara *)
  ("arroba-es-liq", (1 / 12.563, 0));  (* Arroba (liquid) *)
  ("almud-es", (1 / 4.625, 0));  (* Almud *)

  (* Portuguese *)
  ("quartilho-pt", (1 / 0.35, 0));  (* Quartilho *)
  ("canada-pt", (1 / 1.4, 0));  (* Canada *)
  ("pote-pt", (1 / 8.4, 0));  (* Pote *)
  ("almude-pt", (1 / 16.8, 0));  (* Almude *)
  ("pipa-pt", (1 / 420, 0));  (* Pipa *)
  ("tonel-pt", (1 / 840, 0));  (* Tonel *)

  (* French *)
  ("roquille-fr", (1 / 0.02975, 0));  (* Roquille *)
  ("poisson-fr", (1 / 0.119, 0));  (* Poisson *)
  ("demiard-fr", (1 / 0.238, 0));  (* Demiard *)
  ("chopine-fr", (1 / 0.4761, 0));  (* Chopine *)
  ("pinte-fr", (1 / 0.9521, 0));  (* Pinte (Paris) *)
  ("velte-fr", (1 / 7.617, 0));  (* Velte *)
  ("quartaut-fr", (1 / 68.55, 0));  (* Quartaut *)
  ("feuillette-fr", (1 / 137.1, 0));  (* Feuillette *)
  ("muid-fr-liq", (1 / 274.2, 0));  (* Muid (liquid) *)
  ("litron-fr-dry", (1 / 0.7935, 0));  (* Litron (dry) *)
  ("boisseau-fr-dry", (1 / 12.7, 0));  (* Boisseau (dry) *)
  ("minot-fr-dry", (1 / 38.09, 0));  (* Minot (dry) *)
  ("setier-fr-dry", (1 / 152.3, 0));  (* Setier (dry) *)
  ("muid-fr-dry", (1 / 1828, 0));  (* Muid (dry) *)

  (* German *)
  ("ahm-de", (1 / 137.4, 0));  (* Ahm (Prussian) *)
  ("ohm-de", (1 / 137.4, 0));  (* Ohm (Synonym for Ahm) *)
  ("anker-de", (1 / 34.35, 0));  (* Anker (Prussian) *)
  ("eimer-de", (1 / 68.7, 0));  (* Eimer (Prussian) *)

  (* Dutch *)
  ("anker-nl", (1 / 38.8, 0));  (* Anker (Dutch) *)
  ("stoop-nl", (1 / 2.4, 0));  (* Stoop (Dutch) *)
  ("mutsje-nl", (1 / 0.15, 0));  (* Mutsje (Dutch) *)

  (* Scandinavian *)
  ("kanna-se", (1 / 2.617, 0));  (* Kanna (Swedish) *)
  ("pot-dk", (1 / 0.966, 0));  (* Pot (Danish) *)

  (* Russian *)
  ("garnets-ru", (1 / 3.279, 0));  (* Garnets *)
  ("vedro-ru", (1 / 12.299, 0));  (* Vedro *)
  ("chetvert-ru-dry", (1 / 209.9, 0));  (* Chetvert (dry) *)
  ("bochka-ru", (1 / 491.96, 0));  (* Bochka *)

  (* Asian (Historical) *)
  ("go-jp", (1 / 0.18039, 0));  (* Go (Japanese) *)
  ("sho-jp", (1 / 1.8039, 0));  (* Sho (10 go) *)
  ("to-jp", (1 / 18.039, 0));  (* To (10 sho) *)
  ("koku-liq-jp", (1 / 180.39, 0));  (* Koku (liquid, 10 to) *)
  ("koku-dry-jp", (1 / 278.3, 0));  (* Koku (dry, historical) *)
  ("sheng-cn", (1 / 1.0354688, 0));  (* Sheng (Chinese) *)
  ("dou-cn", (1 / 10.354688, 0));  (* Dou (10 sheng) *)
  ("pao-in", (1 / 0.233, 0))  (* Pao (Indian) *)
].

(** Lines 664-687. *)
Definition Volume_ancient : list item := [
  (* --- 10. Ancient --- *)
  (* Roman *)
  ("hemina-rom", (1 / 0.273, 0));  (* Hemina *)
  ("sextarius-rom", (1 / 0.546, 0));  (* Sextarius *)
  ("congius-rom", (1 / 3.27, 0));  (* Congius *)
  ("modius-rom", (1 / 8.7, 0));  (* Modius (dry) *)
  ("urna-rom", (1 / 13.1, 0));  (* Urna *)
  ("amphora-rom", (1 / 26.2, 0));  (* Amphora *)

  (* Biblical/Hebrew *)
  ("log-heb", (1 / 0.31, 0));  (* Log *)
  ("kab-heb", (1 / 1.22, 0));  (* Kab *)
  ("hin-heb", (1 / 3.67, 0));  (* Hin *)
  ("omer-heb", (1 / 2.2, 0));  (* Omer (dry) *)
  ("seah-heb", (1 / 7.33, 0));  (* Seah (dry) *)
  ("bath-heb", (1 / 22, 0));  (* Bath (liquid) *)
  ("ephah-heb", (1 / 22, 0));  (* Ephah (dry) *)
  ("homer-heb", (1 / 220, 0));  (* Homer *)
  ("kor-heb", (1 / 220, 0));  (* Kor (Synonym for Homer) *)

  (* Babylonian/Egyptian *)
  ("qa-bab", (1 / 1.2, 0));  (* Qa (Babylonian) *)
  ("hekat-egy", (1 / 4.8, 0));  (* Hekat (Egyptian) *)
  ("hin-egy", (1 / 0.48, 0))  (* Hin (Egyptian) *)
].

(** Lines 689-690. *)
Definition Volume_physics : list item := [
  (* --- 11. Physics --- *)
  ("V_P", (1 / 4.22419e-102, 0))  (* Planck Volume (l_P³) *)
].

(** The dict display of lines 474-691. *)
Definition Volume_items : list item :=
  Volume_metric ++ Volume_cubic ++ Volume_us_liquid ++ Volume_uk ++ Volume_us_dry ++
  Volume_cubic_imperial ++ Volume_cooking ++ Volume_industry ++ Volume_regional ++
  Volume_ancient ++ Volume_physics.

(** Evaluating the display raises nothing. *)
Lemma Volume_loads : is_ok (Converter_float Volume_items) = true.
Proof. vm_compute. reflexivity. Qed.

Lemma Volume_exact_loads : is_ok (Converter_exact Volume_items) = true.
Proof. vm_compute. reflexivity. Qed.

(** [Volume = Converter({...})] *)
Definition Volume : Converter float :=
  get_ok (Converter_float Volume_items) Volume_loads.

(** The same table over the rationals: the specification of [Volume]. *)
Definition Volume_exact : Converter Q :=
  get_ok (Converter_exact Volume_items) Volume_exact_loads.

Arguments Volume_items : simpl never.
Arguments Volume : simpl never.
Arguments Volume_exact : simpl never.

(** The synonyms the source's comments declare: (synonym, name it stands for). *)
Definition Volume_synonyms : list (string * string) := [
  ("liter", "L"); ("dm³", "L"); ("cc", "mL"); ("cm³", "mL"); ("lambda", "µL");
  ("mm³", "µL"); ("stere", "m³"); ("kL", "m³"); ("tierce", "bbl-oil");
  ("ohm-de", "ahm-de"); ("kor-heb", "homer-heb"); ("cup-aus", "cup-met")
].

(** A metric unit of [Length] beside its cube in [Volume]. *)
Definition Volume_cubes : list (string * string) := [
  ("m", "m³"); ("dam", "dam³"); ("hm", "hm³"); ("km", "km³"); ("Mm", "Mm³");
  ("Gm", "Gm³"); ("Tm", "Tm³"); ("Pm", "Pm³"); ("Em", "Em³"); ("Zm", "Zm³");
  ("Ym", "Ym³"); ("Rm", "Rm³"); ("Qm", "Qm³"); ("dm", "dm³"); ("cm", "cm³");
  ("mm", "mm³"); ("µm", "µm³"); ("nm", "nm³"); ("pm", "pm³"); ("fm", "fm³");
  ("am", "am³"); ("zm", "zm³"); ("ym", "ym³"); ("rm", "rm³"); ("qm", "qm³")
].

(** A metric unit of [Length] beside the litre with the same SI prefix. *)
Definition Volume_prefixes : list (string * string) := [
  ("m", "L"); ("dam", "daL"); ("hm", "hL"); ("km", "kL"); ("Mm", "ML");
  ("Gm", "GL"); ("Tm", "TL"); ("Pm", "PL"); ("Em", "EL"); ("Zm", "ZL");
  ("Ym", "YL"); ("Rm", "RL"); ("Qm", "QL"); ("dm", "dL"); ("cm", "cL");
  ("mm", "mL"); ("µm", "µL"); ("nm", "nL"); ("pm", "pL"); ("fm", "fL");
  ("am", "aL"); ("zm", "zL"); ("ym", "yL"); ("rm", "rL"); ("qm", "qL")
].

Local Close Scope py_scope.
Local Open Scope Q_scope.

(** Every relation between two units of the table that a comment of the
    table states, "one [u] is [k] [v]", in source order and with the line of
    the comment, and what the coefficients make of it: [true] when they meet
    it exactly, [false] when they do not.  Six do not: the rundlet (l.552),
    the UK cup (l.559), the cord (l.595), the register ton (l.596), the tun
    (l.598) and the butt (l.599), whose coefficients are decimals rounded
    apart from the gallon and the cubic foot.  The comments that declare a
    synonym are in [Volume_synonyms]; the comment of the Planck volume
    (l.690) relates it to a unit of [Length] and is the matter of
    [Volume_planck]. *)
Definition Volume_relations : list (string * Q * string * bool) := [
  (* l.511-522: "Cubic Decameter (10³ m³)" ... "Cubic Quettameter (10⁹⁰ m³)" *)
  ("dam³", 10 ^ 3, "m³", true); ("hm³", 10 ^ 6, "m³", true); ("km³", 10 ^ 9, "m³", true);
  ("Mm³", 10 ^ 18, "m³", true); ("Gm³", 10 ^ 27, "m³", true); ("Tm³", 10 ^ 36, "m³", true);
  ("Pm³", 10 ^ 45, "m³", true); ("Em³", 10 ^ 54, "m³", true); ("Zm³", 10 ^ 63, "m³", true);
  ("Ym³", 10 ^ 72, "m³", true); ("Rm³", 10 ^ 81, "m³", true); ("Qm³", 10 ^ 90, "m³", true);
  (* l.524-535: "Cubic Decimeter (10⁻³ m³)" ... "Cubic Quectometer (10⁻⁹⁰ m³)" *)
  ("dm³", 10 ^ (-3), "m³", true); ("cm³", 10 ^ (-6), "m³", true);
  ("mm³", 10 ^ (-9), "m³", true); ("µm³", 10 ^ (-18), "m³", true);
  ("nm³", 10 ^ (-27), "m³", true); ("pm³", 10 ^ (-36), "m³", true);
  ("fm³", 10 ^ (-45), "m³", true); ("am³", 10 ^ (-54), "m³", true);
  ("zm³", 10 ^ (-63), "m³", true); ("ym³", 10 ^ (-72), "m³", true);
  ("rm³", 10 ^ (-81), "m³", true); ("qm³", 10 ^ (-90), "m³", true);
  (* l.541: "US Legal Cup (240mL)" *)
  ("cup", 240, "mL", true);
  (* l.548: "US Fluid Scruple (1/24 fl_oz)" *)
  ("flsc-us", 1 # 24, "fl_oz", true);
  (* l.550-552: "(Fluid, 31.5 gal)", "(Oil, 42 gal)", "Rundlet (18.5 US gal)" *)
  ("bbl-fl", 31.5, "gal", true); ("bbl-oil", 42, "gal", true); ("rundlet", 18.5, "gal", false);
  (* l.559: "UK Cup (284 mL)" *)
  ("cup-uk", 284, "mL", false);
  (* l.564-569: "Noggin (1/4 UK pt)", "Pottle (2 UK qt)", "(1/8 fl_oz-uk)",
     "(1/3 fldr-uk)", "Firkin (UK, 9 UK gal)", "Kilderkin (18 UK gal)" *)
  ("noggin-uk", 1 # 4, "pt-uk", true); ("pottle-uk", 2, "qt-uk", true);
  ("fldr-uk", 1 # 8, "fl_oz-uk", true); ("flsc-uk", 1 # 3, "fldr-uk", true);
  ("firkin", 9, "gal-uk", true); ("kilderkin-uk", 18, "gal-uk", true);
  (* l.586-591: "(Metric, 5 mL)", "(Metric, 15 mL)", "(Metric, 250 mL)",
     "(Australia, 250 mL)", "(Australia, 20 mL)", "(Japan, 200 mL)" *)
  ("tsp-met", 5, "mL", true); ("tbsp-met", 15, "mL", true); ("cup-met", 250, "mL", true);
  ("cup-aus", 250, "mL", true); ("tbsp-aus", 20, "mL", true); ("cup-jp", 200, "mL", true);
  (* l.594-599: "Board Foot (12x12x1 in)", "Cord (Firewood, 128 ft³)",
     "Register Ton (Shipping, 100 ft³)", "Hogshead (US, 63 gal)",
     "Tun (Wine, 252 gal)", "Butt (Wine, 126 gal)" *)
  ("board-foot", 12 * 12 * 1, "in³", true); ("cord", 128, "ft³", false);
  ("register-ton", 100, "ft³", false); ("hogshead", 63, "gal", true);
  ("tun", 252, "gal", false); ("butt", 126, "gal", false);
  (* l.656-658, l.661: "Sho (10 go)", "To (10 sho)", "Koku (liquid, 10 to)",
     "Dou (10 sheng)" *)
  ("sho-jp", 10, "go-jp", true); ("to-jp", 10, "sho-jp", true);
  ("koku-liq-jp", 10, "to-jp", true); ("dou-cn", 10, "sheng-cn", true)
].

(** Relations of the metric, US and UK systems that no comment states, with
    their verdicts: the chains of the liquid, dry and cubic measures hold of
    the coefficients; the UK teaspoon, the cubic mile, the acre-foot and the
    butt against the hogshead are decimals rounded on their own. *)
Definition Volume_customary : list (string * Q * string * bool) := [
  ("m³", 1000, "L", true);
  ("gal", 4, "qt", true); ("qt", 2, "pt", true); ("pt", 2, "cup-us", true);
  ("pt", 4, "gill-us", true); ("pt", 16, "fl_oz", true); ("cup-us", 8, "fl_oz", true);
  ("gal", 128, "fl_oz", true); ("fl_oz", 2, "tbsp", true); ("tbsp", 3, "tsp", true);
  ("gill-us", 4, "fl_oz", true); ("fl_oz", 8, "fldr", true); ("fldr", 60, "min", true);
  ("gal", 231, "in³", true);
  ("gal-uk", 4, "qt-uk", true); ("qt-uk", 2, "pt-uk", true); ("pt-uk", 20, "fl_oz-uk", true);
  ("pt-uk", 2, "cup-uk", true); ("pt-uk", 4, "gill-uk", true);
  ("gill-uk", 5, "fl_oz-uk", true); ("fl_oz-uk", 8 # 5, "tbsp-uk", true);
  ("tbsp-uk", 3, "tsp-uk", false);
  ("bu-us", 4, "pk-us", true); ("pk-us", 2, "gal-us-dry", true);
  ("gal-us-dry", 4, "qt-us-dry", true); ("qt-us-dry", 2, "pt-us-dry", true);
  ("ft³", 1728, "in³", true); ("yd³", 27, "ft³", true);
  ("mi³", 5451776000, "yd³", false); ("af", 43560, "ft³", false);
  ("tun", 2, "butt", true); ("butt", 2, "hogshead", false)
].

#[local] Set Warnings "-inexact-float".

(** ** Construction *)

Lemma Volume_distinct : NoDup (map fst Volume_items).
Proof. apply nodupb_NoDup. vm_compute. reflexivity. Qed.

Lemma Volume_float_ok : Converter_float Volume_items = inr Volume.
Proof. apply get_ok_inr. Qed.

Lemma Volume_exact_ok : Converter_exact Volume_items = inr Volume_exact.
Proof. apply get_ok_inr. Qed.

#[export] Instance Volume_table : ExactTable Volume_exact "L".
Proof. apply exact_tableb_sound. vm_compute. reflexivity. Qed.

#[export] Instance Volume_offset_free : OffsetFree Volume_exact.
Proof. apply offset_freeb_sound. vm_compute. reflexivity. Qed.

(** ** The relations of the comments *)

(** C8. Every relation that a comment of the table states between two of its
    units is decided: for every nonzero value the conversion between the two
    units is the stated multiple exactly when the verdict recorded with the
    relation is [true].  Forty-six relations hold of the coefficients; the
    rundlet, the UK cup, the cord, the register ton, the tun and the butt
    disagree with their own comments. *)
Theorem Volume_relation (r : string * Q * string) (b : bool) (x : Q) :
  In (r, b) Volume_relations -> ~ x == 0 ->
  (convert Volume_exact x (fst (fst r)) (snd r) =r= ok (snd (fst r) * x)) <-> b = true.
Proof.
  intros Hin Hx. eapply (verdictb_sound (base := "L")); [|exact Hin|exact Hx].
  vm_compute. reflexivity.
Qed.

Lemma Volume_relation_witness :
  (convert Volume_exact 2 "cord" "ft³" =r= ok (128 * 2)) <-> false = true.
Proof.
  apply (Volume_relation ("cord", 128, "ft³") false 2); [simpl; tauto | discriminate].
Defined.

(** The same for the relations of the customary systems that no comment
    states. *)
Lemma Volume_customary_relation (r : string * Q * string) (b : bool) (x : Q) :
  In (r, b) Volume_customary -> ~ x == 0 ->
  (convert Volume_exact x (fst (fst r)) (snd r) =r= ok (snd (fst r) * x)) <-> b = true.
Proof.
  intros Hin Hx. eapply (verdictb_sound (base := "L")); [|exact Hin|exact Hx].
  vm_compute. reflexivity.
Qed.

(** C33. The rundlet is commented as 18.5 US gallons; its coefficient makes it
    less than 18.49. *)
Theorem Volume_rundlet :
  exists y, convert Volume_exact 1 "rundlet" "gal" = inr y /\ 18.48 < y < 18.49.
Proof. eexists. split; [vm_compute; reflexivity | split; reflexivity]. Qed.

(** On floats: a US gallon is four quarts exactly, 3.785 litres up to the
    two roundings of [1 / 3.785411784], and a metric tablespoon, written
    [1000 / 15], is 15 millilitres. *)
Theorem Volume_scenarios :
  convert Volume 1%float "gal" "qt" = inr 4%float /\
  convert Volume 1%float "gal" "L" = inr 3.7854117839999994%float /\
  convert Volume 1%float "L" "gal" = inr 0.26417205235814845%float /\
  convert Volume 1%float "fl_oz" "flsc-us" = inr 24%float /\
  convert Volume 1%float "tbsp-met" "mL" = inr 15%float.
Proof. repeat split; vm_compute; reflexivity. Qed.

(** ** The SI prefixes *)

(** C12. An SI prefix means in [Volume] what it means in [Length]: [x] of a
    prefixed litre is as many litres as [x] of the prefixed metre is metres. *)
Theorem Volume_prefix (p : string * string) (x : Q) :
  In p Volume_prefixes ->
  exists y, convert Length_exact x (fst p) "m" = inr y /\
            (convert Volume_exact x (snd p) "L" =r= ok y).
Proof.
  intros Hin. apply (dimensionb_sound (bl := "m") (bd := "L") 1 "L" p x).
  assert (F : forallb (dimensionb 1 Length_exact Volume_exact "L") Volume_prefixes = true)
    by (vm_compute; reflexivity).
  exact (forallb_In _ _ _ F Hin).
Qed.

Lemma Volume_prefix_witness :
  exists y, convert Length_exact 5 "mm" "m" = inr y /\
            (convert Volume_exact 5 "mL" "L" =r= ok y).
Proof. apply (Volume_prefix ("mm", "mL") 5). simpl. tauto. Defined.

(** ** Cubes of lengths *)

(** C6. Every cubic metric unit of [Volume] is the cube of the unit of [Length]
    it is named after: a cube of side [x] in that unit, which is [y] metres,
    has volume [x^3] in the cubic unit, which is [y^3] cubic metres. *)
Theorem Volume_cube (p : string * string) (x : Q) :
  In p Volume_cubes ->
  exists y, convert Length_exact x (fst p) "m" = inr y /\
            (convert Volume_exact (x ^ 3) (snd p) "m³" =r= ok (y ^ 3)).
Proof.
  intros Hin. apply (dimensionb_sound (bl := "m") (bd := "L") 3 "m³" p x).
  assert (F : forallb (dimensionb 3 Length_exact Volume_exact "m³") Volume_cubes = true)
    by (vm_compute; reflexivity).
  exact (forallb_In _ _ _ F Hin).
Qed.

Lemma Volume_cube_witness :
  exists y, convert Length_exact 2 "km" "m" = inr y /\
            (convert Volume_exact (2 ^ 3) "km³" "m³" =r= ok (y ^ 3)).
Proof. apply (Volume_cube ("km", "km³") 2). simpl. tauto. Defined.

(** The Planck volume is commented as the cube of the Planck length
    ([l_P³], l.690).  Its coefficient is not the cube of the coefficient of
    ["l_P"] in [Length] (l.189): one Planck volume is between 1.0004 and
    1.0005 cubes of the Planck length. *)
Theorem Volume_planck :
  exists l v, convert Length_exact 1 "l_P" "m" = inr l /\
              convert Volume_exact 1 "V_P" "m³" = inr v /\
              1.0004 * l ^ 3 < v < 1.0005 * l ^ 3.
Proof. do 2 eexists. split; [|split]; [vm_compute; reflexivity..|split; reflexivity]. Qed.

(** ** What the module-wide theorems need of this table *)

(** The synonyms are written with the same coefficients as the names they
    stand for. *)
Lemma Volume_synonyms_same : synonymsb Volume_items Volume_synonyms = true.
Proof. vm_compute. reflexivity. Qed.

(** The float coefficients are within [2^-52] of the exact ones. *)
Lemma Volume_accurate : accurate_display 52 Volume_items = true.
Proof. vm_compute. reflexivity. Qed.

(** Every float scale is finite and nonzero, every float offset finite. *)
Lemma Volume_safe : safe_tableb Volume = true.
Proof. vm_compute. reflexivity. Qed.
