(* ===== verification/Area.v ===== *)
(** * The area table ([src/Converters.py], lines 693-821)

    [Area = Converter({...})]: 95 names of units of area, with the square
    metre (["m²"]) as the base unit and every offset zero.  The display is
    written entry for entry, one definition per commented section of the
    source; [Area_items] is the whole display, [Area] the float engine and
    [Area_exact] its exact specification.

    The construction lemmas, the interfaces [ExactTable] and [OffsetFree]
    and the checks at the end of the file are what the module-wide theorems
    of [Converters] need of this table.  The theorems of this file: every
    relation between two units that a comment of the table states, decided
    over [Area_exact] (three of them fail: the rood, the township and the
    qǐng), and the same for the customary relations that no comment states;
    the square metric units against the units of [Length]; the synonyms
    written as a quotient beside a literal; conversions on floats. *)

From Stdlib Require Import List String Bool ZArith QArith Qabs Lia Lqa Floats.
From S2P Require Import Prelude PyDict PyNum Engine Length.
Import ListNotations.
Local Open Scope string_scope.
Local Open Scope py_scope.

(** ** The display *)

(** Lines 696-724. *)
Definition Area_metric : list item := [
  (* --- 1. Base Unit & Metric (SI) Units --- *)
  ("m²", (1, 0));  (* Square Meter (Base Unit) *)
  ("sq m", (1, 0));  (* Synonym *)
  (* Multiples *)
  ("dam²", (1e-2, 0));  (* Square Decameter (Are) *)
  ("hm²", (1e-4, 0));  (* Square Hectometer (Hectare) *)
  ("km²", (1e-6, 0));  (* Square Kilometer *)
  ("Mm²", (1e-12, 0));  (* Square Megameter *)
  ("Gm²", (1e-18, 0));  (* Square Gigameter *)
  ("Tm²", (1e-24, 0));  (* Square Terameter *)
  ("Pm²", (1e-30, 0));  (* Square Petameter *)
  ("Em²", (1e-36, 0));  (* Square Exameter *)
  ("Zm²", (1e-42, 0));  (* Square Zettameter *)
  ("Ym²", (1e-48, 0));  (* Square Yottameter *)
  ("Rm²", (1e-54, 0));  (* Square Ronnameter *)
  ("Qm²", (1e-60, 0));  (* Square Quettameter *)
  (* Submultiples *)
  ("dm²", (1e2, 0));  (* Square Decimeter *)
  ("cm²", (1e4, 0));  (* Square Centimeter *)
  ("mm²", (1e6, 0));  (* Square Millimeter *)
  ("µm²", (1e12, 0));  (* Square Micrometer *)
  ("nm²", (1e18, 0));  (* Square Nanometer *)
  ("pm²", (1e24, 0));  (* Square Picometer *)
  ("fm²", (1e30, 0));  (* Square Femtometer *)
  ("am²", (1e36, 0));  (* Square Attometer *)
  ("zm²", (1e42, 0));  (* Square Zeptometer *)
  ("ym²", (1e48, 0));  (* Square Yoctometer *)
  ("rm²", (1e54, 0));  (* Square Rontometer *)
  ("qm²", (1e60, 0))  (* Square Quectometer *)
].

(** Lines 726-729. *)
Definition Area_land : list item := [
  (* --- 2. Metric Land/Common --- *)
  ("a", (1e-2, 0));  (* Are *)
  ("ha", (1e-4, 0));  (* Hectare *)
  ("decare", (1e-3, 0))  (* Decare (1,000 m²) *)
].

(** Lines 731-743. *)
Definition Area_imperial : list item := [
  (* --- 3. Imperial & US Customary --- *)
  ("in²", (1 / 0.00064516, 0));  (* Square Inch *)
  ("ft²", (1 / 0.09290304, 0));  (* Square Foot *)
  ("yd²", (1 / 0.83612736, 0));  (* Square Yard *)
  ("rd²", (1 / 25.2929538, 0));  (* Square Rod (Square Perch) *)
  ("perch²", (1 / 25.2929538, 0));  (* Square Perch (Synonym) *)
  ("rood", (1 / 1011.71415, 0));  (* Rood (1/4 acre) *)
  ("acre", (1 / 4046.85642, 0));  (* Acre (International) *)
  ("mi²", (1 / 2589988.11, 0));  (* Square Mile *)
  ("sq in", (1 / 0.00064516, 0));  (* Synonym *)
  ("sq ft", (1 / 0.09290304, 0));  (* Synonym *)
  ("sq yd", (1 / 0.83612736, 0));  (* Synonym *)
  ("sq mi", (1 / 2589988.11, 0))  (* Synonym *)
].

(** Lines 745-750. *)
Definition Area_survey : list item := [
  (* --- 4. US Surveying --- *)
  ("acre-us", (1 / 4046.87261, 0));  (* US Survey Acre *)
  ("ft²-us", (1 / 0.0929034116, 0));  (* US Survey Square Foot *)
  ("rd²-us", (1 / 25.2929997, 0));  (* US Survey Square Rod *)
  ("section", (1 / 2589998.47, 0));  (* Section (1 sq mi, US Survey) *)
  ("township", (1 / 93239944.9, 0))  (* Township (36 sections) *)
].

(** Lines 752-781. *)
Definition Area_european : list item := [
  (* --- 5. Historical & Regional (European) --- *)
  (* French *)
  ("arpent-fr-roi", (1 / 3418.89, 0));  (* Arpent (Paris, 100 perches du roi) *)
  ("perche²-fr-roi", (1 / 34.1889, 0));  (* Perche carrée (du roi) *)
  ("arpent-fr-ord", (1 / 4220.8, 0));  (* Arpent (ordinaire, 100 perches ordinaires) *)
  ("perche²-fr-ord", (1 / 42.208, 0));  (* Perche carrée (ordinaire) *)
  ("journal-fr", (1 / 3418.89, 0));  (* Journal (Synonym for arpent) *)
  (* Spanish *)
  ("fanega-es", (1 / 6450, 0));  (* Fanega (approx, varied) *)
  ("cuerda-pr", (1 / 3930.3956, 0));  (* Cuerda (Puerto Rico) *)
  ("caballería-es", (1 / 38624, 0));  (* Caballería (Spain) *)
  ("caballería-cu", (1 / 134200, 0));  (* Caballería (Cuba) *)
  (* Portuguese *)
  ("alqueire-pt-br", (1 / 24200, 0));  (* Alqueire Paulista (Brazil) *)
  ("alqueire-pt-mg", (1 / 48400, 0));  (* Alqueire Mineiro (Brazil) *)
  (* German/Dutch *)
  ("morgen-pruss", (1 / 2553.22, 0));  (* Morgen (Prussia) *)
  ("morgen-nl", (1 / 8516, 0));  (* Morgen (Netherlands) *)
  ("hufe-de", (1 / 76590, 0));  (* Hufe (Germany, approx) *)
  (* Italian *)
  ("braccio²-fl", (1 / 0.34, 0));  (* Braccio quadro (Florence) *)
  ("giornata-it", (1 / 3810, 0));  (* Giornata (Piedmont) *)
  (* Russian *)
  ("desyatina-ru", (1 / 10925, 0));  (* Desyatina *)
  ("sotka-ru", (1 / 100, 0));  (* Sotka (Synonym for Are) *)
  (* Scandinavian *)
  ("tunnland-se", (1 / 4936.4, 0));  (* Tunnland (Sweden) *)
  ("tønde-land-dk", (1 / 5516.2, 0));  (* Tønde land (Denmark) *)
  (* Irish *)
  ("acre-ie", (1 / 6555.2, 0))  (* Irish Acre *)
].

(** Lines 783-807. *)
Definition Area_asian : list item := [
  (* --- 6. Historical & Regional (Asian/Middle East) --- *)
  (* Japanese *)
  ("tsubo-jp", (1 / 3.305785, 0));  (* Tsubo *)
  ("tan-jp", (1 / 991.7355, 0));  (* Tan (10 se) *)
  ("se-jp", (1 / 99.17355, 0));  (* Se (30 tsubo) *)
  ("chō-jp", (1 / 9917.355, 0));  (* Chō (10 tan) *)
  (* Chinese *)
  ("mǔ-cn", (1 / 666.67, 0));  (* Mǔ *)
  ("lí-cn", (1 / 66.67, 0));  (* Lí (area) *)
  ("qǐng-cn", (1 / 66666.67, 0));  (* Qǐng (100 mǔ) *)
  (* Indian *)
  ("bigha-in-bengal", (1 / 1337.8, 0));  (* Bigha (Bengal) *)
  ("bigha-in-pucca", (1 / 2529.29, 0));  (* Bigha (Pucca) *)
  ("katha-in-bengal", (1 / 66.89, 0));  (* Katha (Bengal) *)
  ("gunta-in", (1 / 101.17, 0));  (* Gunta *)
  ("ankanam-in", (1 / 6.689, 0));  (* Ankanam *)
  ("ground-in", (1 / 222.96, 0));  (* Ground (South India) *)
  (* Thai *)
  ("rai-th", (1 / 1600, 0));  (* Rai *)
  ("ngaan-th", (1 / 400, 0));  (* Ngaan (1/4 rai) *)
  ("wa²-th", (1 / 4, 0));  (* Square Wa *)
  (* Middle East *)
  ("dunam-ot", (1 / 919.3, 0));  (* Dunam (Ottoman) *)
  ("dunam-met", (1 / 1000, 0));  (* Dunam (Metric, Synonym for decare) *)
  ("feddan-egy", (1 / 4200.83, 0))  (* Feddan (Egypt) *)
].

(** Lines 809-813. *)
Definition Area_ancient : list item := [
  (* --- 7. Historical (Ancient) --- *)
  ("jugerum-rom", (1 / 2530, 0));  (* Jugerum (Roman) *)
  ("heredium-rom", (1 / 5060, 0));  (* Heredium (2 jugera) *)
  ("centuria-rom", (1 / 506000, 0));  (* Centuria (100 heredia) *)
  ("plethron-gr", (1 / 950, 0))  (* Plethron (Greek, approx) *)
].

(** Lines 815-820. *)
Definition Area_scientific : list item := [
  (* --- 8. Scientific & Specialized --- *)
  ("barn", (1e28, 0));  (* Barn (Physics) *)
  ("shed", (1e52, 0));  (* Shed (Physics) *)
  ("outbuilding", (1e31, 0));  (* Outbuilding (Physics) *)
  ("circular-in", (1 / 5.067e-4, 0));  (* Circular Inch *)
  ("circular-mil", (1 / 5.067e-10, 0))  (* Circular Mil *)
].

(** The dict display of lines 695-821. *)
Definition Area_items : list item :=
  Area_metric ++ Area_land ++ Area_imperial ++ Area_survey ++ Area_european ++
  Area_asian ++ Area_ancient ++ Area_scientific.

(** Evaluating the display raises nothing. *)
Lemma Area_loads : is_ok (Converter_float Area_items) = true.
Proof. vm_compute. reflexivity. Qed.

Lemma Area_exact_loads : is_ok (Converter_exact Area_items) = true.
Proof. vm_compute. reflexivity. Qed.

(** [Area = Converter({...})] *)
Definition Area : Converter float :=
  get_ok (Converter_float Area_items) Area_loads.

(** The same table over the rationals: the specification of [Area]. *)
Definition Area_exact : Converter Q :=
  get_ok (Converter_exact Area_items) Area_exact_loads.

Arguments Area_items : simpl never.
Arguments Area : simpl never.
Arguments Area_exact : simpl never.

(** The synonyms the source's comments declare and writes with the same
    coefficients: (synonym, name it stands for). *)
Definition Area_synonyms : list (string * string) := [
  ("sq m", "m²"); ("a", "dam²"); ("ha", "hm²"); ("perch²", "rd²");
  ("sq in", "in²"); ("sq ft", "ft²"); ("sq yd", "yd²"); ("sq mi", "mi²");
  ("journal-fr", "arpent-fr-roi")
].

(** The synonyms the comments declare and the source writes differently, as
    a quotient of integers beside a float literal. *)
Definition Area_synonyms_by_value : list (string * string) := [
  ("sotka-ru", "a"); ("dunam-met", "decare")
].

(** A metric unit of [Length] beside its square in [Area]. *)
Definition Area_squares : list (string * string) := [
  ("m", "m²"); ("dam", "dam²"); ("hm", "hm²"); ("km", "km²"); ("Mm", "Mm²");
  ("Gm", "Gm²"); ("Tm", "Tm²"); ("Pm", "Pm²"); ("Em", "Em²"); ("Zm", "Zm²");
  ("Ym", "Ym²"); ("Rm", "Rm²"); ("Qm", "Qm²"); ("dm", "dm²"); ("cm", "cm²");
  ("mm", "mm²"); ("µm", "µm²"); ("nm", "nm²"); ("pm", "pm²"); ("fm", "fm²");
  ("am", "am²"); ("zm", "zm²"); ("ym", "ym²"); ("rm", "rm²"); ("qm", "qm²")
].

Local Close Scope py_scope.
Local Open Scope Q_scope.

(** Every relation between two units of the table that a comment of the
    table states, "one [u] is [k] [v]", in source order and with the line of
    the comment, and what the coefficients make of it: [true] when they meet
    it exactly, [false] when they do not.  Three do not: the rood (l.737),
    the township (l.750) and the qǐng (l.792).  A comment that names a unit
    by another unit of the table (l.700 "Are", l.776 "Synonym for Are") is
    the relation with factor one.  The section is commented as one square
    mile of the US survey (l.749), which is not a unit of the table. *)
Definition Area_relations : list (string * Q * string * bool) := [
  (* l.700-701: "Square Decameter (Are)", "Square Hectometer (Hectare)" *)
  ("dam²", 1, "a", true); ("hm²", 1, "ha", true);
  (* l.729: "Decare (1,000 m²)" *)
  ("decare", 1000, "m²", true);
  (* l.737: "Rood (1/4 acre)" *)
  ("rood", 1 # 4, "acre", false);
  (* l.750: "Township (36 sections)" *)
  ("township", 36, "section", false);
  (* l.754, l.756: "(Paris, 100 perches du roi)", "(ordinaire, 100 perches
     ordinaires)" *)
  ("arpent-fr-roi", 100, "perche²-fr-roi", true);
  ("arpent-fr-ord", 100, "perche²-fr-ord", true);
  (* l.776: "Sotka (Synonym for Are)" *)
  ("sotka-ru", 1, "a", true);
  (* l.786-788: "Tan (10 se)", "Se (30 tsubo)", "Chō (10 tan)" *)
  ("tan-jp", 10, "se-jp", true); ("se-jp", 30, "tsubo-jp", true);
  ("chō-jp", 10, "tan-jp", true);
  (* l.792: "Qǐng (100 mǔ)" *)
  ("qǐng-cn", 100, "mǔ-cn", false);
  (* l.802: "Ngaan (1/4 rai)" *)
  ("ngaan-th", 1 # 4, "rai-th", true);
  (* l.806: "Dunam (Metric, Synonym for decare)" *)
  ("dunam-met", 1, "decare", true);
  (* l.811-812: "Heredium (2 jugera)", "Centuria (100 heredia)" *)
  ("heredium-rom", 2, "jugerum-rom", true); ("centuria-rom", 100, "heredium-rom", true)
].

(** Relations of the metric, imperial and survey systems that no comment
    states, with their verdicts: the metric ones and the square foot and
    yard hold of the coefficients; everything around the acre, the rod and
    the section is a decimal rounded on its own. *)
Definition Area_customary : list (string * Q * string * bool) := [
  ("ha", 100, "a", true); ("decare", 10, "a", true); ("km²", 100, "ha", true);
  ("ft²", 144, "in²", true); ("yd²", 9, "ft²", true);
  ("alqueire-pt-mg", 2, "alqueire-pt-br", true); ("ngaan-th", 100, "wa²-th", true);
  ("circular-in", 1000000, "circular-mil", true);
  ("acre", 4840, "yd²", false); ("acre", 43560, "ft²", false);
  ("acre", 160, "rd²", false); ("rd²", 30.25, "yd²", false);
  ("mi²", 640, "acre", false); ("mǔ-cn", 10, "lí-cn", false);
  ("section", 640, "acre-us", false); ("acre-us", 43560, "ft²-us", false);
  ("acre-us", 160, "rd²-us", false)
].

#[local] Set Warnings "-inexact-float".

(** ** Construction *)

Lemma Area_distinct : NoDup (map fst Area_items).
Proof. apply nodupb_NoDup. vm_compute. reflexivity. Qed.

Lemma Area_float_ok : Converter_float Area_items = inr Area.
Proof. apply get_ok_inr. Qed.

Lemma Area_exact_ok : Converter_exact Area_items = inr Area_exact.
Proof. apply get_ok_inr. Qed.

#[export] Instance Area_table : ExactTable Area_exact "m²".
Proof. apply exact_tableb_sound. vm_compute. reflexivity. Qed.

#[export] Instance Area_offset_free : OffsetFree Area_exact.
Proof. apply offset_freeb_sound. vm_compute. reflexivity. Qed.

(** ** The relations of the comments *)

(** C10. Every relation that a comment of the table states between two of its
    units is decided: for every nonzero value the conversion between the two
    units is the stated multiple exactly when the verdict recorded with the
    relation is [true].  Thirteen relations hold of the coefficients; the
    rood, the township and the qǐng disagree with their own comments. *)
Theorem Area_relation (r : string * Q * string) (b : bool) (x : Q) :
  In (r, b) Area_relations -> ~ x == 0 ->
  (convert Area_exact x (fst (fst r)) (snd r) =r= ok (snd (fst r) * x)) <-> b = true.
Proof.
  intros Hin Hx. eapply (verdictb_sound (base := "m²")); [|exact Hin|exact Hx].
  vm_compute. reflexivity.
Qed.

Lemma Area_relation_witness :
  (convert Area_exact 7 "township" "section" =r= ok (36 * 7)) <-> false = true.
Proof.
  apply (Area_relation ("township", 36, "section") false 7); [simpl; tauto | discriminate].
Defined.

(** The same for the relations of the customary systems that no comment
    states. *)
Lemma Area_customary_relation (r : string * Q * string) (b : bool) (x : Q) :
  In (r, b) Area_customary -> ~ x == 0 ->
  (convert Area_exact x (fst (fst r)) (snd r) =r= ok (snd (fst r) * x)) <-> b = true.
Proof.
  intros Hin Hx. eapply (verdictb_sound (base := "m²")); [|exact Hin|exact Hx].
  vm_compute. reflexivity.
Qed.

(** C34. The coefficients of the acre, the rood, the square mile and the square
    yard are each rounded on their own: a square mile is not 640 acres, an
    acre neither four roods nor 4840 square yards. *)
Theorem Area_acre_inconsistent :
  relationb Area_exact ("mi²", 640, "acre") = false /\
  relationb Area_exact ("acre", 4, "rood") = false /\
  relationb Area_exact ("acre", 4840, "yd²") = false /\
  convert Area 1%float "mi²" "acre" = inr 640.00000029652642%float.
Proof. repeat split; vm_compute; reflexivity. Qed.

(** On floats a square foot is not 144 square inches to the last bit. *)
Theorem Area_scenarios :
  convert Area 1%float "acre" "m²" = inr 4046.8564200000005%float /\
  convert Area 1%float "ha" "acre" = inr 2.4710538161371187%float /\
  convert Area 1%float "ft²" "in²" = inr 144.00000000000003%float /\
  convert Area 1%float "m²" "barn" = inr 9.9999999999999996e+27%float.
Proof. repeat split; vm_compute; reflexivity. Qed.

(** ** Squares of lengths *)

(** C7. Every square metric unit of [Area] is the square of the unit of [Length]
    it is named after. *)
Theorem Area_square (p : string * string) (x : Q) :
  In p Area_squares ->
  exists y, convert Length_exact x (fst p) "m" = inr y /\
            (convert Area_exact (x ^ 2) (snd p) "m²" =r= ok (y ^ 2)).
Proof.
  intros Hin. apply (dimensionb_sound (bl := "m") (bd := "m²") 2 "m²" p x).
  assert (F : forallb (dimensionb 2 Length_exact Area_exact "m²") Area_squares = true)
    by (vm_compute; reflexivity).
  exact (forallb_In _ _ _ F Hin).
Qed.

Lemma Area_square_witness :
  exists y, convert Length_exact 3 "cm" "m" = inr y /\
            (convert Area_exact (3 ^ 2) "cm²" "m²" =r= ok (y ^ 2)).
Proof. apply (Area_square ("cm", "cm²") 3). simpl. tauto. Defined.

Lemma Area_same_values :
  Forall (fun p => dict_get (fst p) (units Area) = dict_get (snd p) (units Area) /\
                   dict_get (fst p) (units Area) <> None) Area_synonyms_by_value.
Proof. repeat constructor; try (vm_compute; reflexivity); vm_compute; discriminate. Qed.

(** C35. A synonym written as a quotient of integers ([1 / 100]) beside a float
    literal ([1e-2]) evaluates to the same float, and converts alike. *)
Theorem Area_synonym_by_value (p : string * string) (x : float) (v : string) :
  In p Area_synonyms_by_value ->
  convert Area x (fst p) v = convert Area x (snd p) v /\
  convert Area x v (fst p) = convert Area x v (snd p).
Proof.
  intros Hin. pose proof Area_same_values as F. rewrite Forall_forall in F.
  destruct (F p Hin) as [E Hne]. now apply convert_synonym.
Qed.

Lemma Area_synonym_by_value_witness :
  convert Area 3%float "sotka-ru" "ha" = convert Area 3%float "a" "ha" /\
  convert Area 3%float "ha" "sotka-ru" = convert Area 3%float "ha" "a".
Proof. apply (Area_synonym_by_value ("sotka-ru", "a") 3%float "ha"). simpl. tauto. Defined.

(** ** What the module-wide theorems need of this table *)

(** The synonyms are written with the same coefficients as the names they
    stand for. *)
Lemma Area_synonyms_same : synonymsb Area_items Area_synonyms = true.
Proof. vm_compute. reflexivity. Qed.

(** The float coefficients are within [2^-52] of the exact ones. *)
Lemma Area_accurate : accurate_display 52 Area_items = true.
Proof. vm_compute. reflexivity. Qed.

(** Every float scale is finite and nonzero, every float offset finite. *)
Lemma Area_safe : safe_tableb Area = true.
Proof. vm_compute. reflexivity. Qed.
