(* ===== verification/Converters.v ===== *)
(** * The module [Converters]: its six engines together

    [src/Converters.py] binds six module-level names, each to an engine over
    one table: [Temperature], [Length], [Weight], [Volume], [Area] and
    [Speed].  A [binding] gathers what the development holds about one of
    them: the name, the base unit its lead comment declares, the display, the
    float engine, its exact counterpart and the synonyms of its comments.
    [Converters] is the module's namespace in source order.

    The class [Loaded] is what a binding promises the theorems of this file:
    the display has distinct names and evaluates to the two engines, the
    exact engine meets [ExactTable], the float coefficients are finite with
    nonzero scales ([safe_tableb]), the synonyms are written alike and the
    float coefficients are accurate.  Each table discharges it from the
    lemmas of its own file; the theorems are proved once, against the class,
    for every binding of the module.  The first theorem, the identity
    through the base unit on floats, needs none of it: it rests on the base
    entry of each table and on the laws of [FloatLaws].  The class [Linear]
    adds what the five tables other than [Temperature] promise: offsets
    that are zero and scales that are positive, over [Q] and on floats.
    [Converters_python]
    relates the float engines to the tables as Python holds them, ints
    beside floats ([PyEngine]). *)

From Stdlib Require Import List String Bool ZArith QArith Qabs Lia Lqa Floats.
From S2P Require Import Prelude PyDict PyNum FloatLaws Engine PyEngine.
From S2P Require Import Temperature Length Speed Weight Volume Area.
Import ListNotations.
Local Open Scope string_scope.
#[local] Set Warnings "-inexact-float".

(** ** The namespace *)

Record binding : Type := Binding {
  binding_name : string;
  base_unit : string;
  display : list item;
  engine : Converter float;
  exact_engine : Converter Q;
  synonyms : list (string * string);
  accuracy : Z
}.

Definition Temperature_binding : binding :=
  Binding "Temperature" "ºC" Temperature_items Temperature Temperature_exact
          Temperature_synonyms 53.

Definition Length_binding : binding :=
  Binding "Length" "m" Length_items Length Length_exact Length_synonyms 52.

Definition Weight_binding : binding :=
  Binding "Weight" "kg" Weight_items Weight Weight_exact Weight_synonyms 52.

Definition Volume_binding : binding :=
  Binding "Volume" "L" Volume_items Volume Volume_exact Volume_synonyms 52.

Definition Area_binding : binding :=
  Binding "Area" "m²" Area_items Area Area_exact Area_synonyms 52.

Definition Speed_binding : binding :=
  Binding "Speed" "m/s" Speed_items Speed Speed_exact Speed_synonyms 53.

(** The module's names, in source order. *)
Definition Converters : list binding :=
  [Temperature_binding; Length_binding; Weight_binding; Volume_binding;
   Area_binding; Speed_binding].

(** The five tables without offsets. *)
Definition Converters_linear : list binding :=
  [Length_binding; Weight_binding; Volume_binding; Area_binding; Speed_binding].

(** ** Identity through the base unit *)

(** C3. Identity through the base unit, for every float: converting [x] from the
    base unit of a table to itself gives a result that compares equal to [x]
    unless [x] is a NaN, and is [x] bit for bit unless [x] is the negative
    zero (which comes back as the positive zero).  The base unit of each
    table is the one its lead comment declares, and its entry is [(1, 0)]. *)
Theorem Converters_identity (b : binding) (x : float) :
  In b Converters ->
  exists y, convert (engine b) x (base_unit b) (base_unit b) = inr y /\
            (is_nan x = false -> (y =? x)%float = true) /\
            (x <> (-0)%float -> y = x).
Proof.
  intros Hb. apply convert_base_identity.
  repeat (destruct Hb as [<-|Hb]; [vm_compute; reflexivity|]). destruct Hb.
Qed.

Lemma Converters_identity_witness :
  exists y, convert Temperature 36.6%float "ºC" "ºC" = inr y /\
            (is_nan 36.6%float = false -> (y =? 36.6)%float = true) /\
            (36.6%float <> (-0)%float -> y = 36.6%float).
Proof. apply (Converters_identity Temperature_binding). simpl. tauto. Defined.

(** ** What a binding promises *)

Class Loaded (b : binding) : Prop := {
  loaded_distinct : NoDup (map fst (display b));
  loaded_float : Converter_float (display b) = inr (engine b);
  loaded_exact : Converter_exact (display b) = inr (exact_engine b);
  loaded_table : ExactTable (exact_engine b) (base_unit b);
  loaded_safe : safe_tableb (engine b) = true;
  loaded_synonyms : synonymsb (display b) (synonyms b) = true;
  loaded_accurate : accurate_display (accuracy b) (display b) = true
}.

Class Linear (b : binding) : Prop := {
  linear_offsets : OffsetFree (exact_engine b);
  linear_positive : positive_scalesb (exact_engine b) = true;
  linear_float_offsets : zero_offsetsb (engine b) = true;
  linear_float_positive : positive_floatb (engine b) = true
}.

#[export] Existing Instance loaded_table.
#[export] Existing Instance linear_offsets.

Lemma Temperature_table : ExactTable Temperature_exact "ºC".
Proof. apply exact_tableb_sound. vm_compute. reflexivity. Qed.

Lemma Temperature_loaded : Loaded Temperature_binding.
Proof.
  exact (Build_Loaded Temperature_binding Temperature_distinct Temperature_float_ok Temperature_exact_ok
           Temperature_table Temperature_safe Temperature_synonyms_same Temperature_accurate).
Qed.

Lemma Length_loaded : Loaded Length_binding.
Proof.
  exact (Build_Loaded Length_binding Length_distinct Length_float_ok Length_exact_ok
           Length_table Length_safe Length_synonyms_same Length_accurate).
Qed.

Lemma Weight_loaded : Loaded Weight_binding.
Proof.
  exact (Build_Loaded Weight_binding Weight_distinct Weight_float_ok Weight_exact_ok
           Weight_table Weight_safe Weight_synonyms_same Weight_accurate).
Qed.

Lemma Volume_loaded : Loaded Volume_binding.
Proof.
  exact (Build_Loaded Volume_binding Volume_distinct Volume_float_ok Volume_exact_ok
           Volume_table Volume_safe Volume_synonyms_same Volume_accurate).
Qed.

Lemma Area_loaded : Loaded Area_binding.
Proof.
  exact (Build_Loaded Area_binding Area_distinct Area_float_ok Area_exact_ok
           Area_table Area_safe Area_synonyms_same Area_accurate).
Qed.

Lemma Speed_loaded : Loaded Speed_binding.
Proof.
  exact (Build_Loaded Speed_binding Speed_distinct Speed_float_ok Speed_exact_ok
           Speed_table Speed_safe Speed_synonyms_same Speed_accurate).
Qed.

Lemma Converters_loaded (b : binding) : In b Converters -> Loaded b.
Proof.
  intros [<-|[<-|[<-|[<-|[<-|[<-|[]]]]]]];
    [ exact Temperature_loaded | exact Length_loaded | exact Weight_loaded
    | exact Volume_loaded | exact Area_loaded | exact Speed_loaded ].
Qed.

Lemma Converters_linear_loaded (b : binding) :
  In b Converters_linear -> Loaded b /\ Linear b.
Proof.
  intros H. split; [apply Converters_loaded; simpl; tauto|].
  repeat (destruct H as [<-|H];
          [split; [exact _ | vm_compute; reflexivity..]|]).
  destruct H.
Qed.

#[local] Set Warnings "-inexact-float".
Local Open Scope Q_scope.

(** ** Loading the module *)

(** C26. Loading the module raises nothing: every display evaluates, on floats and
    exactly, to the engine bound to its name; no name is written twice in a
    display, so no entry is overwritten and the unit listing of each engine
    is its display's names in source order; there are 734 names in all. *)
Theorem Converters_load :
  (forall b, In b Converters ->
     Converter_float (display b) = inr (engine b) /\
     Converter_exact (display b) = inr (exact_engine b) /\
     NoDup (map fst (display b)) /\
     listUnits (engine b) = map fst (display b)) /\
  map (fun b => List.length (listUnits (engine b))) Converters
  = [52; 213; 97; 171; 95; 106]%nat.
Proof.
  split.
  - intros b Hb. apply Converters_loaded in Hb as L.
    repeat split; try apply L.
    apply (Converter_of_listUnits eval_float _ loaded_distinct loaded_float).
  - assert (E : forall b, In b Converters ->
              List.length (listUnits (engine b)) = List.length (display b)).
    { intros b Hb. apply Converters_loaded in Hb as L.
      rewrite (Converter_of_listUnits eval_float _ loaded_distinct loaded_float).
      apply length_map. }
    rewrite (map_ext_in _ _ _ E). reflexivity.
Qed.

(** ** The float engines *)

(** C27. Between two known units of a table the result is a NaN exactly when the
    value is: a NaN is carried through, and no entry of a table makes one
    out of a number or an infinity. *)
Theorem Converters_nan (b : binding) (x : float) (u v : string) :
  In b Converters ->
  hasUnit (engine b) u = true -> hasUnit (engine b) v = true ->
  exists y, convert (engine b) x u v = inr y /\ is_nan y = is_nan x.
Proof. intros Hb. apply Converters_loaded in Hb as L. apply convert_nan_iff, L. Qed.

Lemma Converters_nan_witness :
  exists y, convert Length infinity "ft" "km" = inr y /\ is_nan y = is_nan infinity.
Proof.
  apply (Converters_nan Length_binding); [simpl; tauto | vm_compute; reflexivity..].
Defined.

(** C28. Every float coefficient of every table is finite, and every scale is
    nonzero: the division of [convert] is never by zero, which Python would
    report as [ZeroDivisionError]. *)
Theorem Converters_division_safe (b : binding) (u : string) (s o : float) :
  In b Converters ->
  dict_get u (units (engine b)) = Some (s, o) ->
  is_zero s = false /\ is_finite s = true /\ is_finite o = true.
Proof. intros Hb. apply Converters_loaded in Hb as L. apply safe_table_division, L. Qed.

Lemma Converters_division_safe_witness :
  is_zero 1.8%float = false /\ is_finite 1.8%float = true /\ is_finite 32%float = true.
Proof.
  apply (Converters_division_safe Temperature_binding "°F"); [simpl; tauto | vm_compute; reflexivity].
Defined.

(** C29. In the five tables other than [Temperature] the float conversion is
    odd: for every float, the negated value converts to the negated result,
    bit for bit, except that when the result is a zero both results are the
    positive zero.  Every float offset of these tables is the positive
    zero, and rounding does not look at the sign. *)
Theorem Converters_odd (b : binding) (x : float) (u v : string) :
  In b Converters_linear ->
  hasUnit (engine b) u = true -> hasUnit (engine b) v = true ->
  exists y y', convert (engine b) x u v = inr y /\
               convert (engine b) (- x)%float u v = inr y' /\
               (y' = (- y)%float \/ (y = 0%float /\ y' = 0%float)).
Proof.
  intros Hb. apply Converters_linear_loaded in Hb as [L N].
  apply convert_opp, linear_float_offsets.
Qed.

Lemma Converters_odd_witness :
  exists y y', convert Length 1.5%float "ft" "km" = inr y /\
               convert Length (- 1.5)%float "ft" "km" = inr y' /\
               (y' = (- y)%float \/ (y = 0%float /\ y' = 0%float)).
Proof.
  apply (Converters_odd Length_binding); [simpl; tauto | vm_compute; reflexivity..].
Defined.

(** C30. In the five tables other than [Temperature] every float scale is a
    positive number: a float that is not below zero (a zero, a positive
    number or the positive infinity) converts to a float that is not below
    zero, whatever is rounded, underflows or overflows on the way. *)
Theorem Converters_nonnegative (b : binding) (x : float) (u v : string) :
  In b Converters_linear ->
  hasUnit (engine b) u = true -> hasUnit (engine b) v = true ->
  (0 <=? x)%float = true ->
  exists y, convert (engine b) x u v = inr y /\ (0 <=? y)%float = true.
Proof.
  intros Hb. apply Converters_linear_loaded in Hb as [L N].
  apply convert_nonneg; [apply linear_float_offsets | apply linear_float_positive].
Qed.

Lemma Converters_nonnegative_witness :
  exists y, convert Weight 1e-320%float "qg" "Qg" = inr y /\ (0 <=? y)%float = true.
Proof.
  apply (Converters_nonnegative Weight_binding); [simpl; tauto | vm_compute; reflexivity..].
Defined.

(** ** The engines as Python runs them *)

(** C25. The float engine is what Python computes.  The display of every table
    evaluates to a table of Python values, ints beside floats; on it, for
    every float value and every two names, Python's arithmetic (an int
    operand converted to a float, a division by zero raised) returns the
    float that the float engine returns, and an unknown name is reported as
    the float engine reports it.  No arithmetic error is ever raised. *)
Theorem Converters_python (b : binding) (x : float) (u v : string) :
  In b Converters ->
  exists cp, Converter_py (display b) = inr cp /\
             py_convert cp (VFloat x) u v = as_python (convert (engine b) x u v).
Proof.
  intros Hb. apply Converters_loaded in Hb as L.
  destruct (Converter_py_total (display b) loaded_float) as (cp & Hcp).
  exists cp. split; [exact Hcp|].
  apply py_convert_float with (items := display b); first [exact Hcp | apply L].
Qed.

Lemma Converters_python_witness :
  exists cp, Converter_py Temperature_items = inr cp /\
             py_convert cp (VFloat 36.6%float) "ºC" "K"
             = as_python (convert Temperature 36.6%float "ºC" "K").
Proof. apply (Converters_python Temperature_binding). simpl. tauto. Defined.

(** C40. An int value.  The example of the module's docstring,
    [Temperature.convert(25, "ºC", "°F")], is [77.0].  Beyond [2^53] an int
    is not a float: Python subtracts an int offset exactly before it
    divides, and the result differs from the one of the float engine on the
    nearest float ([2^53 + 1] from Leiden degrees, offset [253]). *)
Example Converters_python_int :
  exists cp, Converter_py (display Temperature_binding) = inr cp /\
    py_convert cp (VInt 25) "ºC" "°F" = inr (VFloat 77%float) /\
    py_convert cp (VInt 9007199254740993) "ºL" "ºC" = inr (VFloat 9007199254740740%float) /\
    as_float (VInt 9007199254740993) = inr 9007199254740992%float /\
    convert (engine Temperature_binding) 9007199254740992%float "ºL" "ºC"
    = inr 9007199254740739%float.
Proof. eexists. split; [vm_compute; reflexivity|]. vm_compute. repeat split. Qed.

(** C23. A synonym declared by a comment is written with the same coefficients as
    the name it stands for, and converts exactly as it does on floats, as
    source and as target, for every value and every other name. *)
Theorem Converters_synonym (b : binding) (p : string * string) (x : float) (v : string) :
  In b Converters -> In p (synonyms b) ->
  convert (engine b) x (fst p) v = convert (engine b) x (snd p) v /\
  convert (engine b) x v (fst p) = convert (engine b) x v (snd p).
Proof.
  intros Hb Hp. apply Converters_loaded in Hb as L.
  apply (synonymsb_sound eval_float (display b) (synonyms b) loaded_distinct
           loaded_float loaded_synonyms p Hp).
Qed.

Lemma Converters_synonym_witness :
  convert Temperature 25%float "Fahrenheit" "K" = convert Temperature 25%float "°F" "K" /\
  convert Temperature 25%float "K" "Fahrenheit" = convert Temperature 25%float "K" "°F".
Proof.
  apply (Converters_synonym Temperature_binding ("Fahrenheit", "°F") 25%float "K");
    simpl; tauto.
Defined.

(** ** Floats against the exact engines *)

(** C24. Every float coefficient of every engine is finite and within a relative
    error of [2^-52] of the exact coefficient of the same name, and within
    [2^-53], half a unit in the last place, in [Temperature] and [Speed],
    whose coefficients are all literals. *)
Theorem Converters_refines (b : binding) (u : string) (s o : float) :
  In b Converters ->
  dict_get u (units (engine b)) = Some (s, o) ->
  (52 <= accuracy b)%Z /\
  exists s' o', dict_get u (units (exact_engine b)) = Some (s', o') /\
                approx (accuracy b) s s' = true /\ approx (accuracy b) o o' = true.
Proof.
  intros Hb Hu. split.
  - repeat (destruct Hb as [<-|Hb]; [simpl; lia|]). destruct Hb.
  - apply Converters_loaded in Hb as L.
    apply (accurate_display_sound (accuracy b) (display b) loaded_distinct
             loaded_accurate loaded_float loaded_exact _ Hu).
Qed.

Lemma Converters_refines_witness :
  (52 <= 53)%Z /\
  exists s' o', dict_get "°F" (units Temperature_exact) = Some (s', o') /\
                approx 53 1.8%float s' = true /\ approx 53 32%float o' = true.
Proof.
  apply (Converters_refines Temperature_binding "°F"); [simpl; tauto | vm_compute; reflexivity].
Defined.

(** ** The exact engines *)

(** C17. Over the rationals, converting there and back returns the value, for
    every table and every pair of its names. *)
Theorem Converters_round_trip (b : binding) (x : Q) (u v : string) :
  In b Converters ->
  hasUnit (exact_engine b) u = true -> hasUnit (exact_engine b) v = true ->
  (y <- convert (exact_engine b) x u v ;; convert (exact_engine b) y v u)%res =r= ok x.
Proof.
  intros Hb. apply Converters_loaded in Hb as L.
  apply (convert_round_trip (base := base_unit b)).
Qed.

Lemma Converters_round_trip_witness :
  (y <- convert Temperature_exact 25 "°F" "ºRø" ;; convert Temperature_exact y "ºRø" "°F")%res
  =r= ok 25.
Proof.
  apply (Converters_round_trip Temperature_binding); [simpl; tauto | vm_compute; reflexivity..].
Defined.

(** C18. Over the rationals, converting through an intermediate unit gives the
    direct conversion. *)
Theorem Converters_compose (b : binding) (x : Q) (u v w : string) :
  In b Converters ->
  hasUnit (exact_engine b) u = true -> hasUnit (exact_engine b) v = true ->
  hasUnit (exact_engine b) w = true ->
  (y <- convert (exact_engine b) x u v ;; convert (exact_engine b) y v w)%res
  =r= convert (exact_engine b) x u w.
Proof.
  intros Hb. apply Converters_loaded in Hb as L.
  apply (convert_compose (base := base_unit b)).
Qed.

Lemma Converters_compose_witness :
  (y <- convert Volume_exact 5 "gal" "qt" ;; convert Volume_exact y "qt" "cup")%res
  =r= convert Volume_exact 5 "gal" "cup".
Proof.
  apply (Converters_compose Volume_binding); [simpl; tauto | vm_compute; reflexivity..].
Defined.

(** C19. The coefficients of a unit are the affine map from the base unit of its
    table: [x] base units are [x * scale + offset] of the unit, and back. *)
Theorem Converters_affine (b : binding) (x : Q) (u : string) (s o : Q) :
  In b Converters ->
  dict_get u (units (exact_engine b)) = Some (s, o) ->
  convert (exact_engine b) x (base_unit b) u =r= ok (x * s + o) /\
  convert (exact_engine b) x u (base_unit b) =r= ok ((x - o) / s).
Proof.
  intros Hb Hu. apply Converters_loaded in Hb as L.
  split; [apply (convert_from_base (base := base_unit b) x u Hu)
         | apply (convert_to_base (base := base_unit b) x u Hu)].
Qed.

Lemma Converters_affine_witness :
  convert Temperature_exact 100 "ºC" "°F" =r= ok (100 * (18 # 10) + 32) /\
  convert Temperature_exact 100 "°F" "ºC" =r= ok ((100 - 32) / (18 # 10)).
Proof.
  apply (Converters_affine Temperature_binding); [simpl; tauto | vm_compute; reflexivity].
Defined.

(** C20. In the five tables other than [Temperature] no unit has an offset and
    every scale is positive: conversion is linear and strictly increasing. *)
Theorem Converters_linear_increasing (b : binding) (k x x' : Q) (u v : string) :
  In b Converters_linear ->
  hasUnit (exact_engine b) u = true -> hasUnit (exact_engine b) v = true ->
  x < x' ->
  exists y y', convert (exact_engine b) x u v = inr y /\
               convert (exact_engine b) x' u v = inr y' /\ y < y' /\
               (convert (exact_engine b) (k * x) u v =r= ok (k * y)).
Proof.
  intros Hb Hu Hv Hx. apply Converters_linear_loaded in Hb as [L N].
  destruct (convert_increasing (exact_engine b) u v
              (positive_scalesb_sound _ linear_positive) Hu Hv Hx)
    as (y & y' & Hy & Hy' & Hlt).
  exists y, y'. repeat split; try assumption.
  destruct (convert_linear (base := base_unit b) k x u v Hu Hv) as (z & Hz & Hk).
  rewrite Hy in Hz. inv Hz. exact Hk.
Qed.

Lemma Converters_linear_increasing_witness :
  exists y y', convert Length_exact 1 "in" "ft" = inr y /\
               convert Length_exact 2 "in" "ft" = inr y' /\ y < y' /\
               (convert Length_exact (12 * 1) "in" "ft" =r= ok (12 * y)).
Proof.
  apply (Converters_linear_increasing Length_binding);
    [simpl; tauto | vm_compute; reflexivity.. ].
Defined.
